(** * MedAssist: the remote-access facade (src/lib/supabase.ts) and the
      session hook (src/hooks/useAuth.ts)

    A shallow embedding of the TypeScript sources.

    - JavaScript values are a small JSON-like datatype; objects are
      association lists, because property order is observable
      (object spread, [JSON.stringify]).
    - An [async] function is a function from a world (a clock and a
      time-stamped trace of effects) to an outcome and a new world.  The
      outcome of an awaited promise is a value, an exception, or nothing at
      all when the promise never settles.
    - The configured client sends its requests through a [fetch] of its
      own, which aborts a request after ten seconds ([global_fetch]).  The
      promises the facade awaits are the client's, so that abort is part of
      how they settle ([aborts_requests]).
    - The debounced, cached read path ([debounceQuery], [getCachedData],
      [getVerifiedDoctors]) is interleaved between callers, so it is
      embedded as an event loop: a state with the two module-level maps,
      the pending timers and the requests in flight, driven by a list of
      events.
    - The AI services call the global [fetch] themselves; its responses
      are a second parameter.  The keep-alive service
      (src/lib/keepAlive.ts) is a small machine over [start], [stop] and
      the runtime's interval callbacks, with [ping] as an async function;
      [generateSrcSet] of the image component is a function on strings. *)

From Stdlib Require Import Ascii.
From stdpp Require Import gmap strings list fin_maps pretty.

Set Warnings "-register-all".
Open Scope Z_scope.

(** ** JavaScript values *)

Inductive jsval :=
| JUndefined
| JNull
| JBool (b : bool)
| JNum (n : Z)
| JStr (s : string)
| JArr (items : list jsval)
| JObj (fields : list (string * jsval)).

(** Values that can be thrown or that the service reports in the [error]
    field of a response. *)
Inductive exn :=
| Error (message : string)            (* new Error(message) *)
| TypeError (message : string)        (* raised by the language itself *)
| ServiceError (code : string) (message : string).   (* reported upstream *)

Definition exn_message (e : exn) : string :=
  match e with
  | Error m | TypeError m | ServiceError _ m => m
  end.

(** [if (v)], [v || w], [v && w]. *)
Definition truthy (v : jsval) : bool :=
  match v with
  | JUndefined | JNull => false
  | JBool b => b
  | JNum n => negb (n =? 0)
  | JStr s => negb (String.eqb s EmptyString)
  | JArr _ | JObj _ => true
  end.

Definition js_or (v w : jsval) : jsval := if truthy v then v else w.

(** [v === 'lit'] against a string literal. *)
Definition js_is_str (v : jsval) (lit : string) : bool :=
  match v with
  | JStr s => String.eqb s lit
  | _ => false
  end.

Fixpoint obj_get (fields : list (string * jsval)) (k : string) : jsval :=
  match fields with
  | [] => JUndefined
  | (k', v) :: rest => if String.eqb k' k then v else obj_get rest k
  end.

Fixpoint obj_has (fields : list (string * jsval)) (k : string) : bool :=
  match fields with
  | [] => false
  | (k', _) :: rest => String.eqb k' k || obj_has rest k
  end.

(** Assignment of one property: an existing key keeps its position. *)
Fixpoint obj_set (fields : list (string * jsval)) (k : string) (v : jsval)
  : list (string * jsval) :=
  match fields with
  | [] => [(k, v)]
  | (k', v') :: rest =>
      if String.eqb k' k then (k', v) :: rest else (k', v') :: obj_set rest k v
  end.

(** [{ ...base, ...extra }]: the own properties of [extra] are assigned in
    order on top of [base]. *)
Definition obj_spread (base extra : list (string * jsval))
  : list (string * jsval) :=
  fold_left (fun acc kv => obj_set acc (fst kv) (snd kv)) extra base.

(** The own properties of a spread value: only objects contribute here
    (null and undefined spread to nothing). *)
Definition own_fields (v : jsval) : list (string * jsval) :=
  match v with
  | JObj fs => fs
  | _ => []
  end.

(** [v.k]: reading a property of null or undefined raises. *)
Definition js_get (v : jsval) (k : string) : exn + jsval :=
  match v with
  | JUndefined | JNull =>
      inl (TypeError ("Cannot read properties of null (reading " +:+ k +:+ ")"))
  | JObj fs => inr (obj_get fs k)
  | _ => inr JUndefined
  end.

(** [v?.k] *)
Definition js_get_opt (v : jsval) (k : string) : jsval :=
  match v with
  | JObj fs => obj_get fs k
  | _ => JUndefined
  end.

(** [JSON.stringify] on the fragment the facade uses it on. *)
Definition dquote : string := String "034"%char EmptyString.

Fixpoint json_escape (s : string) : string :=
  match s with
  | EmptyString => EmptyString
  | String c rest =>
      if Ascii.eqb c "034"%char then String "\"%char (String c (json_escape rest))
      else if Ascii.eqb c "\"%char then String c (String c (json_escape rest))
      else String c (json_escape rest)
  end.

Definition json_string (s : string) : string :=
  dquote +:+ json_escape s +:+ dquote.

Fixpoint sep_by (sep : string) (parts : list string) : string :=
  match parts with
  | [] => EmptyString
  | [p] => p
  | p :: rest => p +:+ sep +:+ sep_by sep rest
  end.

Fixpoint stringify (v : jsval) : string :=
  match v with
  | JUndefined | JNull => "null"
  | JBool true => "true"
  | JBool false => "false"
  | JNum n => pretty n
  | JStr s => json_string s
  | JArr items => "[" +:+ sep_by "," (map stringify items) +:+ "]"
  | JObj fields =>
      "{" +:+ sep_by ","
        ((fix members (fs : list (string * jsval)) : list string :=
            match fs with
            | [] => []
            | (_, JUndefined) :: rest => members rest
            | (k, x) :: rest =>
                (json_string k +:+ ":" +:+ stringify x) :: members rest
            end) fields) +:+ "}"
  end.

(** ** Requests handed to the SDK client, and its responses *)

Record File := { name : string; contents : string }.

Inductive request :=
| AuthGetSession
| AuthSignUp (email password : string) (options : jsval)
| AuthSignInWithPassword (email password : string)
| AuthSignOut
| AuthGetUser
(* from(table).insert(row).select().single() *)
| DbInsert (table : string) (row : jsval)
(* from(table).update(updates).eq(col, v).select().single() *)
| DbUpdate (table : string) (updates : jsval) (col : string) (v : jsval)
(* from(table).select('*').eq(col, v).single() *)
| DbSelectSingle (table : string) (col : string) (v : jsval)
(* from(table).select('*').eq(col, v).order(by, { ascending }) *)
| DbSelectOrdered (table : string) (col : string) (v : jsval)
    (by_column : string) (ascending : bool)
(* storage.from(bucket).upload(path, file) *)
| StorageUpload (bucket path : string) (file : File)
(* fetch(url + '/functions/v1/' + fn, { method: 'POST', body }) *)
| FunctionPost (fn : string) (body : jsval).

(** The [{ data, error }] object every SDK call resolves with. *)
Record response := { data : jsval; error : option exn }.

(** How a promise owned by the outside world behaves: it settles
    [latency] milliseconds after it was created, or never. *)
Inductive promise (A : Type) :=
| Resolves (latency : Z) (v : A)
| Rejects (latency : Z) (e : exn)
| Never.
Arguments Resolves {A} latency v.
Arguments Rejects {A} latency e.
Arguments Never {A}.

(** ** Effects and the async monad *)

Inductive level := LLog | LWarn | LError.

Inductive logarg :=
| AStr (s : string)
| AVal (v : jsval)
| AExn (e : exn).

Inductive effect :=
| Console (l : level) (args : list logarg)
| Network (r : request)              (* a call handed to the real client *)
| SetUser (u : jsval)
| SetProfile (p : jsval)
| SetLoading (b : bool).

Record world := { clock : Z; trace : list (Z * effect) }.

Inductive outcome (A : Type) :=
| Returns (a : A)
| Throws (e : exn)
| Hangs.
Arguments Returns {A} a.
Arguments Throws {A} e.
Arguments Hangs {A}.

Definition async (A : Type) : Type := world -> outcome A * world.

Definition ret {A} (a : A) : async A := fun w => (Returns a, w).

Definition throw {A} (e : exn) : async A := fun w => (Throws e, w).

Definition bind {A B} (m : async A) (k : A -> async B) : async B :=
  fun w =>
    match m w with
    | (Returns a, w') => k a w'
    | (Throws e, w') => (Throws e, w')
    | (Hangs, w') => (Hangs, w')
    end.

Notation "'let!' x ':=' m 'in' k" := (bind m (fun x => k))
  (at level 10, x name, m at level 100, k at level 200, only parsing).
Notation "m '>>' k" := (bind m (fun _ => k))
  (at level 199, right associativity, only parsing).

(** [try { m } catch (e) { handler e }] *)
Definition try_catch {A} (m : async A) (handler : exn -> async A) : async A :=
  fun w =>
    match m w with
    | (Throws e, w') => handler e w'
    | r => r
    end.

(** [try { m } finally { fin }] for a [fin] that completes normally. *)
Definition try_finally {A} (m : async A) (fin : async unit) : async A :=
  fun w =>
    match m w with
    | (Hangs, w') => (Hangs, w')
    | (o, w') =>
        match fin w' with
        | (Returns _, w'') => (o, w'')
        | (Throws e, w'') => (Throws e, w'')
        | (Hangs, w'') => (Hangs, w'')
        end
    end.

(** The world after one more effect, performed now. *)
Definition with_effect (w : world) (e : effect) : world :=
  {| clock := clock w; trace := trace w ++ [(clock w, e)] |}.
Arguments with_effect : simpl never.

Definition emit (e : effect) : async unit :=
  fun w => (Returns tt, with_effect w e).

Definition console (l : level) (args : list logarg) : async unit :=
  emit (Console l args).

(** [Date.now()] *)
Definition date_now : async Z := fun w => (Returns (clock w), w).

Definition lift {A} (r : exn + A) : async A :=
  match r with
  | inl e => throw e
  | inr a => ret a
  end.

Definition wait (t : Z) (w : world) : world :=
  {| clock := clock w + Z.max 0 t; trace := trace w |}.

(** [await p] for a promise of the outside world created now. *)
Definition await {A} (p : promise A) : async A :=
  fun w =>
    match p with
    | Resolves t v => (Returns v, wait t w)
    | Rejects t e => (Throws e, wait t w)
    | Never => (Hangs, w)
    end.

(** The effects of a trace that happened no later than [deadline]. *)
Definition upto (deadline : Z) (tr : list (Z * effect)) : list (Z * effect) :=
  filter (fun te => fst te <= deadline) tr.

(** [await Promise.race([m, new Promise((_, reject) =>
      setTimeout(() => reject(new Error(msg)), ms))])].
    Both branches start together.  [m] wins when it settles no later than
    the timer is due; otherwise the race rejects with the timer's error at
    the deadline.  The losing [m] is not cancelled, but what it does after
    the deadline is no longer part of the world returned to the caller: of
    the effects [m] added, those up to the deadline are kept. *)
Definition race {A} (m : async A) (ms : Z) (msg : string) : async A :=
  fun w =>
    let deadline := clock w + ms in
    let timed_out (w' : world) :=
      (Throws (Error msg),
       {| clock := deadline;
          trace := trace w ++ upto deadline (drop (length (trace w)) (trace w')) |}) in
    match m w with
    | (Hangs, w') => timed_out w'
    | (o, w') => if bool_decide (clock w' <= deadline) then (o, w') else timed_out w'
    end.

(** Views of a world. *)
Definition requests (w : world) : list request :=
  omap (fun te => match snd te with Network r => Some r | _ => None end) (trace w).

Definition logged (w : world) : list (level * list logarg) :=
  omap (fun te => match snd te with Console l a => Some (l, a) | _ => None end)
       (trace w).

(** The hook's [user] and [profile] state: the last value set, starting
    from the [useState(null)] initial value. *)
Definition state_user (w : world) : jsval :=
  fold_left (fun u te => match snd te with SetUser v => v | _ => u end)
            (trace w) JNull.

Definition state_profile (w : world) : jsval :=
  fold_left (fun p te => match snd te with SetProfile v => v | _ => p end)
            (trace w) JNull.

Definition state_loading (w : world) : bool :=
  fold_left (fun b te => match snd te with SetLoading v => v | _ => b end)
            (trace w) true.

(** ** The client object [supabase] *)

(** The methods of the client, in the call chains the facade uses. *)
Record client := {
  auth_getSession : async response;
  auth_signUp : string -> string -> jsval -> async response;
  auth_signInWithPassword : string -> string -> async response;
  auth_signOut : async response;
  auth_getUser : async response;
  db_insert : string -> jsval -> async response;
  db_update : string -> jsval -> string -> jsval -> async response;
  db_select_single : string -> string -> jsval -> async response;
  storage_upload : string -> string -> File -> async response;
  storage_getPublicUrl : string -> string -> exn + jsval
}.

Definition resolved (d : jsval) (e : option exn) : async response :=
  ret {| data := d; error := e |}.

(** The stand-in built when the service is not configured.  Its [from()]
    object has no [single], and its [select()] has no [eq], so the
    database chains of the facade raise on it. *)
Definition mock_client : client := {|
  auth_getSession := resolved (JObj [("session", JNull)]) None;
  auth_signUp := fun _ _ _ => resolved JNull (Some (Error "Supabase not configured"));
  auth_signInWithPassword :=
    fun _ _ => resolved JNull (Some (Error "Supabase not configured"));
  auth_signOut := resolved JUndefined None;
  auth_getUser := resolved (JObj [("user", JNull)]) None;
  db_insert := fun _ _ => throw (TypeError "single is not a function");
  db_update := fun _ _ _ _ => throw (TypeError "single is not a function");
  db_select_single := fun _ _ _ => throw (TypeError "eq is not a function");
  storage_upload :=
    fun _ _ _ => resolved JUndefined (Some (Error "Storage not configured"));
  storage_getPublicUrl :=
    fun _ _ => inr (JObj [("data", JObj [("publicUrl", JStr "mock-url")])])
|}.

(** ** The fetch of the configured client *)

(** [createClient] is given a [fetch] of its own ([global.fetch]), which
    aborts a request ten seconds after it was made.  What the client does
    with an aborted request is the client's matter; [backend] stands for
    how the promises of the client settle, that abort included. *)
Definition FETCH_TIMEOUT : Z := 10000.

(** How the client settles a request that was aborted: it rejects
    ([inl]) or resolves with an error response ([inr]). *)
Definition aborted_at (t : Z) (aborted : exn + response) : promise response :=
  match aborted with
  | inl e => Rejects t e
  | inr r => Resolves t r
  end.

(** A service that behaves as [b], behind that [fetch]. *)
Definition global_fetch (aborted : exn + response)
    (b : nat -> request -> promise response) : nat -> request -> promise response :=
  fun n r =>
    match b n r with
    | Resolves t v =>
        if bool_decide (Z.max 0 t <= FETCH_TIMEOUT) then Resolves t v
        else aborted_at FETCH_TIMEOUT aborted
    | Rejects t e =>
        if bool_decide (Z.max 0 t <= FETCH_TIMEOUT) then Rejects t e
        else aborted_at FETCH_TIMEOUT aborted
    | Never => aborted_at FETCH_TIMEOUT aborted
    end.

(** What the facade takes from outside. *)
Record environment := {
  (** [isServiceConfigured] of [./config], which reads the process
      environment. *)
  isServiceConfigured : string -> bool;
  (** The service as the real client shows it: how the promise of the
      [n]-th request handed to the client settles.  The client sends its
      requests through [global_fetch], so what settles a request the
      service leaves unanswered is the abort, ten seconds after the
      request was made ([aborts_requests]). *)
  backend : nat -> request -> promise response;
  (** [getPublicUrl] of the real client, which is synchronous. *)
  publicUrl : string -> string -> exn + jsval;
  (** [Math.random().toString(36).substring(2)] *)
  random36 : string
}.

Section Facade.

Variable env : environment.

(** A call handed to the real client: the request is sent and the caller
    awaits the client's promise, behind which is the client's own [fetch]
    with its abort. *)
Definition call (r : request) : async response :=
  fun w =>
    let n := length (requests w) in
    (let! _ := emit (Network r) in await (backend env n r)) w.

Definition real_client : client := {|
  auth_getSession := call AuthGetSession;
  auth_signUp := fun e p o => call (AuthSignUp e p o);
  auth_signInWithPassword := fun e p => call (AuthSignInWithPassword e p);
  auth_signOut := call AuthSignOut;
  auth_getUser := call AuthGetUser;
  db_insert := fun t row => call (DbInsert t row);
  db_update := fun t u c v => call (DbUpdate t u c v);
  db_select_single := fun t c v => call (DbSelectSingle t c v);
  storage_upload := fun b p f => call (StorageUpload b p f);
  storage_getPublicUrl := publicUrl env
|}.

Definition supabase : client :=
  if isServiceConfigured env "supabase" then real_client else mock_client.

(** [if (error) throw error; return data;] *)
Definition data_or_throw (r : response) : async jsval :=
  match error r with
  | Some e => throw e
  | None => ret (data r)
  end.

(** *** authService *)

Definition createPatientProfile (userId : jsval) (name : string) : async jsval :=
  if negb (isServiceConfigured env "supabase") then
    throw (Error "Supabase not configured")
  else
    let! r := db_insert supabase "patients"
      (JObj [("user_id", userId); ("name", JStr name);
             ("emergency_contact", JObj []); ("medical_history", JArr []);
             ("allergies", JArr []); ("current_medications", JArr []);
             ("insurance_info", JObj [])]) in
    data_or_throw r.

Definition createDoctorProfile (userId : jsval) (name : string) : async jsval :=
  if negb (isServiceConfigured env "supabase") then
    throw (Error "Supabase not configured")
  else
    let! now := date_now in
    let! r := db_insert supabase "doctors"
      (JObj [("user_id", userId); ("name", JStr name);
             ("specialization", JStr EmptyString);
             ("license_number", JStr ("LIC-" +:+ pretty now));
             ("verification_status", JStr "pending"); ("rating", JNum 0);
             ("location", JStr EmptyString); ("education", JStr EmptyString);
             ("languages", JArr [JStr "English"]);
             ("consultation_fee", JNum 0); ("availability", JObj [])]) in
    data_or_throw r.

Definition authService_signUp (email password name userType : string)
  : async jsval :=
  try_catch
    (if negb (isServiceConfigured env "supabase") then
       throw (Error
         "Authentication service is not available. Please check your configuration.")
     else
       let! r := race
         (auth_signUp supabase email password
            (JObj [("data", JObj [("name", JStr name);
                                  ("user_type", JStr userType)])]))
         10000 "Sign up request timed out" in
       let! d := data_or_throw r in
       let! user := lift (js_get d "user") in
       (if truthy user && isServiceConfigured env "supabase" then
          try_catch
            (if String.eqb userType "patient" then
               let! uid := lift (js_get user "id") in
               let! _ := createPatientProfile uid name in ret tt
             else if String.eqb userType "doctor" then
               let! uid := lift (js_get user "id") in
               let! _ := createDoctorProfile uid name in ret tt
             else ret tt)
            (fun _ =>
               console LLog
                 [AStr "Profile creation skipped - database not configured"])
        else ret tt) >>
       ret d)
    (fun e => console LError [AStr "Sign up error:"; AExn e] >> throw e).

Definition authService_signIn (email password : string) : async jsval :=
  try_catch
    (if negb (isServiceConfigured env "supabase") then
       throw (Error
         "Authentication service is not available. Please check your configuration.")
     else
       let! r := race (auth_signInWithPassword supabase email password)
                      8000 "Sign in request timed out" in
       data_or_throw r)
    (fun e => console LError [AStr "Sign in error:"; AExn e] >> throw e).

Definition authService_signOut : async jsval :=
  try_catch
    (if negb (isServiceConfigured env "supabase") then
       console LWarn [AStr "Supabase not configured, clearing local session only"] >>
       ret JUndefined
     else
       let! r := race (auth_signOut supabase) 5000 "Sign out request timed out" in
       match error r with
       | Some e => throw e
       | None => ret JUndefined
       end)
    (fun e =>
       console LWarn [AStr "Sign out error (clearing local session):"; AExn e] >>
       ret JUndefined).

Definition authService_getCurrentUser : async jsval :=
  try_catch
    (if negb (isServiceConfigured env "supabase") then ret JNull
     else
       let! r := race (auth_getUser supabase) 5000 "Get user request timed out" in
       lift (js_get (data r) "user"))
    (fun e => console LWarn [AStr "Get current user error:"; AExn e] >> ret JNull).

(** *** dataService (the operations that are not debounced) *)

Definition mock_url (file : File) : jsval :=
  JStr ("https://example.com/mock-upload/" +:+ name file).

(** [s.split('.').pop()]: what follows the last dot, or all of [s]. *)
Fixpoint last_segment (s acc : string) : string :=
  match s with
  | EmptyString => acc
  | String c rest =>
      if Ascii.eqb c "."%char then last_segment rest EmptyString
      else last_segment rest (acc +:+ String c EmptyString)
  end.

Definition uploadImage (file : File) (bucket : string) : async jsval :=
  if negb (isServiceConfigured env "supabase") then ret (mock_url file)
  else
    try_catch
      (let fileExt := last_segment (name file) EmptyString in
       let! now := date_now in
       let fileName := pretty now +:+ "-" +:+ random36 env +:+ "." +:+ fileExt in
       let filePath := fileName in
       let! up := storage_upload supabase bucket filePath file in
       match error up with
       | Some uploadError => throw uploadError
       | None =>
           let! got := lift (storage_getPublicUrl supabase bucket filePath) in
           let! d := lift (js_get got "data") in
           lift (js_get d "publicUrl")
       end)
      (fun e => console LError [AStr "Upload error:"; AExn e] >> ret (mock_url file)).

Definition saveMedicalImage (patientId imageUrl imageType : string)
    (aiAnalysis : jsval) : async jsval :=
  if negb (isServiceConfigured env "supabase") then
    console LLog
      [AStr "Mock: Medical image saved";
       AVal (JObj [("patientId", JStr patientId); ("imageUrl", JStr imageUrl);
                   ("imageType", JStr imageType); ("aiAnalysis", aiAnalysis)])] >>
    ret (JObj [("id", JStr "mock-id"); ("patient_id", JStr patientId);
               ("image_url", JStr imageUrl)])
  else
    try_catch
      (let! confidence := lift (js_get aiAnalysis "confidence") in
       let! r := db_insert supabase "medical_images"
         (JObj [("patient_id", JStr patientId); ("image_url", JStr imageUrl);
                ("image_type", JStr imageType); ("ai_analysis", aiAnalysis);
                ("diagnosis_confidence", js_or confidence (JNum 0))]) in
       data_or_throw r)
      (fun e => console LError [AStr "Save medical image error:"; AExn e] >> throw e).

(** The four writers that share one shape: a mock record
    [{ id: 'mock-id', ...payload }] when unconfigured, an insert
    otherwise.  The payload is an object (a [Partial<...>] record), given
    by its properties. *)
Definition insert_or_mock (mock_label table error_label : string)
    (payload : list (string * jsval)) : async jsval :=
  if negb (isServiceConfigured env "supabase") then
    console LLog [AStr mock_label; AVal (JObj payload)] >>
    ret (JObj (obj_spread [("id", JStr "mock-id")] payload))
  else
    try_catch
      (let! r := db_insert supabase table (JObj payload) in data_or_throw r)
      (fun e => console LError [AStr error_label; AExn e] >> throw e).

Definition saveSymptomAnalysis :=
  insert_or_mock "Mock: Symptom analysis saved" "symptom_analyses"
                 "Save symptom analysis error:".

Definition saveChatSession :=
  insert_or_mock "Mock: Chat session saved" "chat_sessions"
                 "Save chat session error:".

Definition createAppointment :=
  insert_or_mock "Mock: Appointment created" "appointments"
                 "Create appointment error:".

Definition createEmergencyAlert :=
  insert_or_mock "Mock: Emergency alert created" "emergency_alerts"
                 "Create emergency alert error:".

Definition updateChatSession (sessionId : string)
    (updates : list (string * jsval)) : async jsval :=
  if negb (isServiceConfigured env "supabase") then
    console LLog
      [AStr "Mock: Chat session updated";
       AVal (JObj [("sessionId", JStr sessionId); ("updates", JObj updates)])] >>
    ret (JObj (obj_spread [("id", JStr sessionId)] updates))
  else
    try_catch
      (let! r := db_update supabase "chat_sessions" (JObj updates)
                           "id" (JStr sessionId) in
       data_or_throw r)
      (fun e => console LError [AStr "Update chat session error:"; AExn e] >> throw e).

Definition getPatientProfile (userId : jsval) : async jsval :=
  if negb (isServiceConfigured env "supabase") then
    throw (Error "Supabase not configured")
  else
    let! r := db_select_single supabase "patients" "user_id" userId in
    data_or_throw r.

Definition getDoctorProfile (userId : jsval) : async jsval :=
  if negb (isServiceConfigured env "supabase") then
    throw (Error "Supabase not configured")
  else
    let! r := db_select_single supabase "doctors" "user_id" userId in
    data_or_throw r.

(** *** useAuth *)

(** [authUser] is typed [User], an object: its spread is its own
    properties. *)
Definition loadUserProfile (authUser : jsval) : async unit :=
  try_catch
    (let! metadata := lift (js_get authUser "user_metadata") in
     let userType := js_or (js_get_opt metadata "user_type") (JStr "patient") in
     let! userProfile :=
       try_catch
         (let! uid := lift (js_get authUser "id") in
          if js_is_str userType "patient" then getPatientProfile uid
          else getDoctorProfile uid)
         (fun _ =>
            console LLog
              [AStr "Profile not found, user can still use basic features"] >>
            ret JNull) in
     let enhancedUser :=
       JObj (obj_set (obj_set (own_fields authUser) "profile" userProfile)
                     "userType" userType) in
     emit (SetUser enhancedUser) >>
     emit (SetProfile userProfile))
    (fun e =>
       console LError [AStr "Error loading user profile:"; AExn e] >>
       emit (SetUser authUser)).

(** The callback registered with [onAuthStateChange]. *)
Definition onAuthStateChange (session : jsval) : async unit :=
  try_finally
    (try_catch
       (let user := js_get_opt session "user" in
        if truthy user then loadUserProfile user
        else emit (SetUser JNull) >> emit (SetProfile JNull))
       (fun e => console LError [AStr "Error in auth state change:"; AExn e]))
    (emit (SetLoading false)).

Definition getInitialSession : async unit :=
  try_finally
    (try_catch
       (let! r := race (auth_getSession supabase) 8000 "Session timeout" in
        let! session := lift (js_get (data r) "session") in
        let user := js_get_opt session "user" in
        if truthy user then
          try_catch (loadUserProfile user)
            (fun profileError =>
               console LWarn
                 [AStr "Profile loading failed, continuing with basic auth:";
                  AExn profileError] >>
               emit (SetUser user))
        else ret tt)
       (fun e =>
          console LWarn
            [AStr "Error getting initial session (using offline mode):";
             AStr (exn_message e)]))
    (emit (SetLoading false)).

(** The three actions of the hook, over the facade promise they race. *)
Definition hook_signUp (inner : async jsval) : async jsval :=
  emit (SetLoading true) >>
  try_finally
    (try_catch
       (race inner 15000 "Sign up timeout - please try again")
       (fun e => console LError [AStr "Sign up error:"; AExn e] >> throw e))
    (emit (SetLoading false)).

Definition hook_signIn (inner : async jsval) : async jsval :=
  emit (SetLoading true) >>
  try_finally
    (try_catch
       (race inner 12000
             "Sign in timeout - please check your connection and try again")
       (fun e => console LError [AStr "Sign in error:"; AExn e] >> throw e))
    (emit (SetLoading false)).

Definition hook_signOut (inner : async jsval) : async jsval :=
  emit (SetLoading true) >>
  try_finally
    (try_catch
       (race inner 8000 "Sign out timeout" >>
        emit (SetUser JNull) >>
        emit (SetProfile JNull) >>
        ret JUndefined)
       (fun e =>
          console LError [AStr "Sign out error:"; AExn e] >>
          emit (SetUser JNull) >>
          emit (SetProfile JNull) >>
          throw e))
    (emit (SetLoading false)).

Definition useAuth_signUp (email password name userType : string) :=
  hook_signUp (authService_signUp email password name userType).

Definition useAuth_signIn (email password : string) :=
  hook_signIn (authService_signIn email password).

Definition useAuth_signOut := hook_signOut authService_signOut.

End Facade.

(** ** The debounced, cached read path as an event loop *)

Definition CACHE_DURATION : Z := 5 * 60 * 1000.

(** [`${table}_${JSON.stringify(query)}`] *)
Definition getCacheKey (table : string) (query : jsval) : string :=
  table +:+ "_" +:+ stringify query.

Inductive settled :=
| Pending
| Fulfilled (v : jsval)
| Rejected (e : exn).

(** A pending [setTimeout] of [debounceQuery]: its callback runs [queryFn]
    and settles [timer_promise]. *)
Record timer := {
  timer_id : nat;
  due : Z;
  timer_key : string;
  queryFn : request;
  timer_promise : nat
}.

(** A [queryFn] that has been started and whose request has not settled. *)
Record flight := {
  flight_id : nat;
  flight_key : string;
  flight_promise : nat
}.

Record cache_entry := { entry_data : jsval; timestamp : Z }.

Record loop := {
  now_ms : Z;                                 (* Date.now() *)
  queryCache : gmap string cache_entry;
  debounceMap : gmap string nat;              (* key to timer id *)
  timers : list timer;                        (* pending, by due time *)
  in_flight : list flight;
  promises : gmap nat settled;                (* every promise handed out *)
  awaiting : gmap nat (nat * string);
    (* promise of debounceQuery, to the getVerifiedDoctors call suspended
       on it and the cache key that call computed *)
  issued : list request;                      (* requests sent, oldest first *)
  console_out : list (level * list logarg);
  next_id : nat                                 (* next unused identifier *)
}.

Definition with_cache (f : gmap string cache_entry -> gmap string cache_entry)
    (s : loop) : loop :=
  {| now_ms := now_ms s; queryCache := f (queryCache s);
     debounceMap := debounceMap s; timers := timers s;
     in_flight := in_flight s; promises := promises s;
     awaiting := awaiting s; issued := issued s;
     console_out := console_out s; next_id := next_id s |}.

Definition with_debounce (f : gmap string nat -> gmap string nat)
    (s : loop) : loop :=
  {| now_ms := now_ms s; queryCache := queryCache s;
     debounceMap := f (debounceMap s); timers := timers s;
     in_flight := in_flight s; promises := promises s;
     awaiting := awaiting s; issued := issued s;
     console_out := console_out s; next_id := next_id s |}.

Definition with_timers (f : list timer -> list timer) (s : loop) : loop :=
  {| now_ms := now_ms s; queryCache := queryCache s;
     debounceMap := debounceMap s; timers := f (timers s);
     in_flight := in_flight s; promises := promises s;
     awaiting := awaiting s; issued := issued s;
     console_out := console_out s; next_id := next_id s |}.

Definition with_flights (f : list flight -> list flight) (s : loop) : loop :=
  {| now_ms := now_ms s; queryCache := queryCache s;
     debounceMap := debounceMap s; timers := timers s;
     in_flight := f (in_flight s); promises := promises s;
     awaiting := awaiting s; issued := issued s;
     console_out := console_out s; next_id := next_id s |}.

Definition with_promises (f : gmap nat settled -> gmap nat settled)
    (s : loop) : loop :=
  {| now_ms := now_ms s; queryCache := queryCache s;
     debounceMap := debounceMap s; timers := timers s;
     in_flight := in_flight s; promises := f (promises s);
     awaiting := awaiting s; issued := issued s;
     console_out := console_out s; next_id := next_id s |}.

Definition with_awaiting (f : gmap nat (nat * string) -> gmap nat (nat * string))
    (s : loop) : loop :=
  {| now_ms := now_ms s; queryCache := queryCache s;
     debounceMap := debounceMap s; timers := timers s;
     in_flight := in_flight s; promises := promises s;
     awaiting := f (awaiting s); issued := issued s;
     console_out := console_out s; next_id := next_id s |}.

Definition send (q : request) (s : loop) : loop :=
  {| now_ms := now_ms s; queryCache := queryCache s;
     debounceMap := debounceMap s; timers := timers s;
     in_flight := in_flight s; promises := promises s;
     awaiting := awaiting s; issued := issued s ++ [q];
     console_out := console_out s; next_id := next_id s |}.

Definition print (l : level) (args : list logarg) (s : loop) : loop :=
  {| now_ms := now_ms s; queryCache := queryCache s;
     debounceMap := debounceMap s; timers := timers s;
     in_flight := in_flight s; promises := promises s;
     awaiting := awaiting s; issued := issued s;
     console_out := console_out s ++ [(l, args)]; next_id := next_id s |}.

Definition advance (ms : Z) (s : loop) : loop :=
  {| now_ms := now_ms s + Z.max 0 ms; queryCache := queryCache s;
     debounceMap := debounceMap s; timers := timers s;
     in_flight := in_flight s; promises := promises s;
     awaiting := awaiting s; issued := issued s;
     console_out := console_out s; next_id := next_id s |}.

(** Takes the next identifier. *)
Definition bump (s : loop) : loop :=
  {| now_ms := now_ms s; queryCache := queryCache s;
     debounceMap := debounceMap s; timers := timers s;
     in_flight := in_flight s; promises := promises s;
     awaiting := awaiting s; issued := issued s;
     console_out := console_out s; next_id := S (next_id s) |}.

(** [new Promise(...)]: a pending promise under the next identifier. *)
Definition new_promise (s : loop) : nat * loop :=
  (next_id s, bump (with_promises (insert (next_id s) Pending) s)).

Definition settle (p : nat) (r : settled) : loop -> loop :=
  with_promises (insert p r).

(** *** The cache helpers *)

Definition getCachedData (key : string) (s : loop) : jsval :=
  match queryCache s !! key with
  | Some cached =>
      if bool_decide (now_ms s - timestamp cached < CACHE_DURATION)
      then entry_data cached else JNull
  | None => JNull
  end.

Definition setCachedData (key : string) (d : jsval) (s : loop) : loop :=
  with_cache (insert key {| entry_data := d; timestamp := now_ms s |}) s.

(** *** debounceQuery *)

(** Timers fire in the order they are due, and in the order they were set
    among those due together. *)
Fixpoint schedule (t : timer) (ts : list timer) : list timer :=
  match ts with
  | [] => [t]
  | t' :: rest =>
      if bool_decide (due t' <= due t) then t' :: schedule t rest
      else t :: t' :: rest
  end.

Definition clearTimeout (id : nat) (pending : list timer) : list timer :=
  filter (fun t => timer_id t ≠ id) pending.

(** [if (debounceMap.has(key)) clearTimeout(debounceMap.get(key))] *)
Definition clear_pending (key : string) (s : loop) : loop :=
  with_timers (fun pending =>
                 match debounceMap s !! key with
                 | Some old => clearTimeout old pending
                 | None => pending
                 end) s.

(** [debounceQuery(key, queryFn, delay)], where [queryFn] sends [q] and
    unwraps the response ([if (error) throw error; return data]).
    Returns the promise handed to the caller. *)
Definition debounceQuery (key : string) (q : request) (delay : Z) (s : loop)
  : nat * loop :=
  let '(p, s) := new_promise s in
  let s := clear_pending key s in
  let timeoutId := next_id s in
  let s := bump s in
  let s := with_timers
             (schedule {| timer_id := timeoutId; due := now_ms s + Z.max 0 delay;
                          timer_key := key; queryFn := q; timer_promise := p |}) s in
  (p, with_debounce (insert key timeoutId) s).

(** The timer callback up to its [await]: [queryFn()] sends the request. *)
Definition fire (t : timer) (s : loop) : loop :=
  let s := send (queryFn t) s in
  let s := with_flights
             (fun fs => fs ++ [{| flight_id := next_id s; flight_key := timer_key t;
                                  flight_promise := timer_promise t |}]) s in
  bump s.

Definition fire_due (s : loop) : loop :=
  let ready := filter (fun t => due t <= now_ms s) (timers s) in
  let s := with_timers (filter (fun t => ¬ due t <= now_ms s)) s in
  fold_left (fun s t => fire t s) ready s.

Section ReadPath.

Variable env : environment.

Definition verified_doctors_query : request :=
  DbSelectOrdered "doctors" "verification_status" (JStr "verified") "rating" false.

Definition doctors_cache_key : string :=
  getCacheKey "doctors" (JObj [("verified", JBool true)]).

(** [dataService.getVerifiedDoctors()] up to its [await].  Returns the
    promise of the async call. *)
Definition getVerifiedDoctors (s : loop) : nat * loop :=
  let '(outer, s) := new_promise s in
  if negb (isServiceConfigured env "supabase") then
    (outer, settle outer (Fulfilled (JArr [])) s)
  else
    let cacheKey := doctors_cache_key in
    let cachedData := getCachedData cacheKey s in
    if truthy cachedData then (outer, settle outer (Fulfilled cachedData) s)
    else
      let '(p, s) := debounceQuery "verified_doctors" verified_doctors_query 300 s in
      (outer, with_awaiting (insert p (outer, cacheKey)) s).

(** What runs when the promise [p] of [debounceQuery] settles: the rest of
    the [getVerifiedDoctors] call suspended on it, if there is one. *)
Definition resume (p : nat) (r : exn + jsval) (s : loop) : loop :=
  match awaiting s !! p with
  | Some (outer, cacheKey) =>
      let s := with_awaiting (delete p) s in
      match r with
      | inr result =>
          let s := setCachedData cacheKey result s in
          settle outer (Fulfilled result) s
      | inl e =>
          let s := print LError [AStr "Get verified doctors error:"; AExn e] s in
          settle outer (Fulfilled (JArr [])) s
      end
  | None => s
  end.

(** The rest of the timer callback, once the request [id] has settled:
    [resolve(result)] or [reject(error)], then
    [finally { debounceMap.delete(key) }]. *)
Definition complete (id : nat) (r : exn + jsval) (s : loop) : loop :=
  match List.find (fun f => bool_decide (flight_id f = id)) (in_flight s) with
  | Some f =>
      let s := with_flights (filter (fun f => flight_id f ≠ id)) s in
      let s := settle (flight_promise f)
                 (match r with inr v => Fulfilled v | inl e => Rejected e end) s in
      let s := with_debounce (delete (flight_key f)) s in
      resume (flight_promise f) r s
  | None => s
  end.

Definition unwrap (r : response) : exn + jsval :=
  match error r with
  | Some e => inl e
  | None => inr (data r)
  end.

Inductive event :=
| CallDebounceQuery (key : string) (q : request) (delay : Z)
| CallGetVerifiedDoctors
| Elapse (ms : Z)                    (* time passes, due timers fire *)
| Reply (id : nat) (r : response)    (* the request [id] resolves *)
| Fail (id : nat) (e : exn).         (* the request [id] rejects *)

Definition step (ev : event) (s : loop) : loop :=
  match ev with
  | CallDebounceQuery key q delay => snd (debounceQuery key q delay s)
  | CallGetVerifiedDoctors => snd (getVerifiedDoctors s)
  | Elapse ms => fire_due (advance ms s)
  | Reply id r => complete id (unwrap r) s
  | Fail id e => complete id (inl e) s
  end.

Definition run (evs : list event) (s : loop) : loop :=
  fold_left (fun s ev => step ev s) evs s.

End ReadPath.

(** The promise a call made in state [s] hands to its caller. *)
Definition handed (s : loop) : nat := next_id s.

Definition boot (t0 : Z) : loop :=
  {| now_ms := t0; queryCache := ∅; debounceMap := ∅; timers := [];
     in_flight := []; promises := ∅; awaiting := ∅; issued := [];
     console_out := []; next_id := 0 |}.

(** ** Vocabulary of the properties *)

(** The promise settles no later than [ms] milliseconds after it was
    created. *)
Definition settles_within {A} (p : promise A) (ms : Z) : Prop :=
  match p with
  | Resolves t _ | Rejects t _ => Z.max 0 t <= ms
  | Never => False
  end.

Definition failure (e : exn) : response := {| data := JNull; error := Some e |}.

Definition success (d : jsval) : response := {| data := d; error := None |}.

(** The request [authService.signUp] sends. *)
Definition signUp_request (email password name userType : string) : request :=
  AuthSignUp email password
    (JObj [("data", JObj [("name", JStr name); ("user_type", JStr userType)])]).

(** The path [uploadImage] stores the file under. *)
Definition upload_path (env : environment) (file : File) (w : world) : string :=
  pretty (clock w) +:+ "-" +:+ random36 env +:+ "." +:+
  last_segment (name file) EmptyString.

(** The user-type tag [loadUserProfile] derives, the lookup it makes and
    the user object it stores. *)
Definition user_type_of (fs : list (string * jsval)) : jsval :=
  js_or (js_get_opt (obj_get fs "user_metadata") "user_type") (JStr "patient").

Definition profile_lookup (env : environment) (fs : list (string * jsval))
  : async jsval :=
  if js_is_str (user_type_of fs) "patient"
  then getPatientProfile env (obj_get fs "id")
  else getDoctorProfile env (obj_get fs "id").

Definition enhanced (fs : list (string * jsval)) (profile : jsval) : jsval :=
  JObj (obj_set (obj_set fs "profile" profile) "userType" (user_type_of fs)).

Definition profile_not_found : effect :=
  Console LLog [AStr "Profile not found, user can still use basic features"].

Definition sign_out_error (e : exn) : effect :=
  Console LError [AStr "Sign out error:"; AExn e].

(** What [authService.signOut] logs when the remote sign-out fails. *)
Definition sign_out_swallowed (e : exn) : level * list logarg :=
  (LWarn, [AStr "Sign out error (clearing local session):"; AExn e]).

(** Some property of the record holds the value. *)
Definition holds_value (record value : jsval) : Prop :=
  exists k, obj_get (own_fields record) k = value.

(** *** Event loop *)

(** Identifiers that have not been issued yet are not awaited on. *)
Definition ids_unused (s : loop) : Prop :=
  forall p, (next_id s <= p)%nat -> awaiting s !! p = None.

(** Nothing is pending: no timer, no request in flight. *)
Definition quiescent (s : loop) : Prop :=
  timers s = [] /\ in_flight s = [] /\ ids_unused s.

(** Right after a [debounceQuery] call for [key]: one timer is pending, a
    full delay ahead; it will run [q] for the promise [p], on which the
    call [w] of [getVerifiedDoctors] is suspended, if any. *)
Definition armed (key : string) (q : request) (p : nat)
    (w : option (nat * string)) (s : loop) : Prop :=
  exists tid,
    timers s = [{| timer_id := tid; due := now_ms s + 300; timer_key := key;
                   queryFn := q; timer_promise := p |}] /\
    debounceMap s !! key = Some tid /\
    in_flight s = [] /\
    promises s !! p = Some Pending /\
    awaiting s !! p = w /\
    (p < next_id s)%nat /\
    ids_unused s.

(** The promises handed out before [winner], all still pending. *)
Definition all_pending (ps : list nat) (winner : nat) (s : loop) : Prop :=
  Forall (fun p => promises s !! p = Some Pending /\ (p < winner)%nat) ps.

Definition returns_promise (ev : event) : bool :=
  match ev with
  | CallDebounceQuery _ _ _ | CallGetVerifiedDoctors => true
  | _ => false
  end.

(** Runs the events and collects the promises handed to the callers. *)
Fixpoint session (env : environment) (evs : list event) (s : loop)
  : list nat * loop :=
  match evs with
  | [] => ([], s)
  | ev :: evs =>
      let '(ps, s') := session env evs (step env ev s) in
      (if returns_promise ev then handed s :: ps else ps, s')
  end.

(** Further calls for [key], each [gap] milliseconds after the one before. *)
Definition burst (key : string) (rest : list (Z * request)) : list event :=
  flat_map (fun gq => [Elapse (fst gq); CallDebounceQuery key (snd gq) 300]) rest.

(** What the promise of [debounceQuery] settles to. *)
Definition settled_as (r : exn + jsval) : settled :=
  match r with
  | inr v => Fulfilled v
  | inl e => Rejected e
  end.

(** What the suspended [getVerifiedDoctors] call returns. *)
Definition doctors_or_empty (r : exn + jsval) : jsval :=
  match r with
  | inr v => v
  | inl _ => JArr []
  end.

(** Nothing in the loop can settle a promise below [n] any more: the
    pending timers and the requests in flight belong to promises from [n]
    on, and so do the calls suspended on those. *)
Definition frozen (n : nat) (s : loop) : Prop :=
  (n <= next_id s)%nat /\
  (forall t, t ∈ timers s -> (n <= timer_promise t)%nat) /\
  (forall f, f ∈ in_flight s -> (n <= flight_promise f)%nat) /\
  (forall q outer ck,
     awaiting s !! q = Some (outer, ck) -> (n <= q)%nat -> (n <= outer)%nat).

(** *** Sample inputs *)

Definition initial_world : world := {| clock := 0; trace := [] |}.

Definition offline : environment :=
  {| isServiceConfigured := fun _ => false;
     backend := fun _ _ => Never;
     publicUrl := fun _ _ => inl (Error "storage unavailable");
     random36 := "k3x9q" |}.

Definition online (b : nat -> request -> promise response) : environment :=
  {| isServiceConfigured := fun _ => true;
     backend := b;
     publicUrl := fun bucket path =>
       inr (JObj [("data",
                   JObj [("publicUrl",
                          JStr ("https://cdn.test/" +:+ bucket +:+ "/" +:+ path))])]);
     random36 := "k3x9q" |}.

Definition never_replies : nat -> request -> promise response := fun _ _ => Never.

Definition replies (ms : Z) (r : response) : nat -> request -> promise response :=
  fun _ _ => Resolves ms r.

Definition row_rejected : exn := ServiceError "23505" "duplicate key value".

Definition scan : File := {| name := "scan.v2.png"; contents := "89504e47" |}.

Definition new_user : list (string * jsval) :=
  [("id", JStr "u-42"); ("email", JStr "ana@example.org")].

Definition two_doctors : jsval :=
  JArr [JObj [("name", JStr "Dr. Rao"); ("rating", JNum 5)];
        JObj [("name", JStr "Dr. Iyer"); ("rating", JNum 4)]].

(** The service answers the request with the error [e]. *)
Definition reports (p : promise response) (e : exn) : Prop :=
  exists t r, p = Resolves t r /\ error r = Some e.

Definition reports_within (p : promise response) (ms : Z) (e : exn) : Prop :=
  exists t r, p = Resolves t r /\ Z.max 0 t <= ms /\ error r = Some e.

(** The run raised [e] after logging it under [label]. *)
Definition raises_logged (run : outcome jsval * world) (w : world)
    (label : string) (e : exn) : Prop :=
  exists w', run = (Throws e, w') /\
             logged w' = logged w ++ [(LError, [AStr label; AExn e])].

(** The row [saveMedicalImage] inserts. *)
Definition medical_image_row (patientId imageUrl imageType : string)
    (analysis : list (string * jsval)) : jsval :=
  JObj [("patient_id", JStr patientId); ("image_url", JStr imageUrl);
        ("image_type", JStr imageType); ("ai_analysis", JObj analysis);
        ("diagnosis_confidence", js_or (obj_get analysis "confidence") (JNum 0))].

(** * The rest of the facade, the keep-alive service and the image component *)

(** ** aiService *)

(** What the global [fetch] resolves with: the [ok] flag of the response
    and the promise its [json()] returns. *)
Record http_response := { ok : bool; json : promise jsval }.

Section AiService.

Variable env : environment.

(** The global [fetch], which the AI services call themselves, not through
    the client: how the [n]-th request settles.  [FunctionPost fn body]
    stands for the POST to [`${config.supabase.url}/functions/v1/${fn}`]
    whose body is [JSON.stringify(body)]. *)
Variable fetch : nat -> request -> promise http_response.

(** The literal [0.8], a fraction, which the integer [JNum] does not hold. *)
Variable zero_point_eight : jsval.

Definition post (fn : string) (body : jsval) : async http_response :=
  fun w =>
    let n := length (requests w) in
    (let! _ := emit (Network (FunctionPost fn body)) in
     await (fetch n (FunctionPost fn body))) w.

(** The body the three services share once the service is configured:
    [fetch], [if (!response.ok) throw new Error(failed)],
    [return await response.json()], and a [catch] that logs and re-raises. *)
Definition call_function (fn : string) (body : jsval) (failed label : string)
  : async jsval :=
  try_catch
    (let! response := post fn body in
     if negb (ok response) then throw (Error failed)
     else
       let! result := await (json response) in
       ret result)
    (fun e => console LError [AStr label; AExn e] >> throw e).

Definition optional_string (s : option string) : jsval :=
  match s with
  | Some v => JStr v
  | None => JUndefined
  end.

(** [language] defaults to ['en'] when the argument is left out. *)
Definition analyzeSymptoms (symptoms : list string) (patientId : string)
    (language voiceInput : option string) (imageAnalysis : jsval) : async jsval :=
  if negb (isServiceConfigured env "supabase") then
    ret (JObj [("success", JBool true);
               ("analysis",
                JObj [("condition", JStr "Mock Analysis");
                      ("confidence", JNum 85);
                      ("severity", JStr "medium");
                      ("recommendations",
                       JArr [JStr "Mock recommendation 1";
                             JStr "Mock recommendation 2"])])])
  else
    call_function "ai-symptom-analysis"
      (JObj [("symptoms", JArr (map JStr symptoms));
             ("patientId", JStr patientId);
             ("language", JStr (default "en" language));
             ("voiceInput", optional_string voiceInput);
             ("imageAnalysis", imageAnalysis)])
      "AI analysis failed" "AI analysis error:".

Definition analyzeSentiment (text : string)
    (appointmentId patientId doctorId : option string) : async jsval :=
  if negb (isServiceConfigured env "supabase") then
    ret (JObj [("success", JBool true);
               ("sentiment", JStr "positive");
               ("confidence", zero_point_eight)])
  else
    call_function "sentiment-analysis"
      (JObj [("text", JStr text);
             ("appointmentId", optional_string appointmentId);
             ("patientId", optional_string patientId);
             ("doctorId", optional_string doctorId);
             ("feedbackType", JStr "appointment")])
      "Sentiment analysis failed" "Sentiment analysis error:".

Definition escalateEmergency (emergencyData : list (string * jsval)) : async jsval :=
  if negb (isServiceConfigured env "supabase") then
    ret (JObj [("success", JBool true);
               ("alertId", JStr "mock-alert-id");
               ("responseProtocol",
                JObj [("responseType", JStr "mock_response");
                      ("estimatedResponseTime", JStr "5-10 minutes")])])
  else
    call_function "emergency-escalation" (JObj emergencyData)
      "Emergency escalation failed" "Emergency escalation error:".

End AiService.

(** ** KeepAliveService (src/lib/keepAlive.ts) *)

(** [ping()], over the promise of
    [supabase.from('doctors').select('id').limit(1)].  The
    [AbortController] it creates is handed to nobody, so its [abort()] has
    no effect; the inner [try/catch] clears that timer and re-raises.  The
    [{ data, error }] the query resolves with is not looked at. *)
Definition ping (env : environment) (query : async response) : async unit :=
  try_catch
    (if negb (isServiceConfigured env "supabase") then
       console LLog [AStr "KeepAlive ping skipped - Supabase not configured"]
     else
       try_catch (race query 5000 "Ping timeout" >> ret tt) (fun e => throw e) >>
       console LLog [AStr "KeepAlive ping successful"])
    (fun e =>
       console LWarn
         [AStr "KeepAlive ping failed (this is normal if Supabase is not configured):";
          AStr (exn_message e)]).

(** The service object and the intervals it has registered with the
    runtime. *)
Record keepAlive := {
  intervalId : option nat;       (* null, or the interval it holds *)
  intervals : list nat;          (* the intervals the runtime will fire *)
  pings : nat;                   (* calls of ping() so far *)
  keepAlive_out : list string;   (* console.log *)
  next_interval : nat
}.

Definition start (k : keepAlive) : keepAlive :=
  match intervalId k with
  | Some _ => k
  | None =>
      {| intervalId := Some (next_interval k);
         intervals := intervals k ++ [next_interval k];
         pings := S (pings k);
         keepAlive_out := keepAlive_out k ++ ["KeepAlive service started"];
         next_interval := S (next_interval k) |}
  end.

Definition stop (k : keepAlive) : keepAlive :=
  match intervalId k with
  | Some id =>
      {| intervalId := None;
         intervals := filter (fun i => i ≠ id) (intervals k);
         pings := pings k;
         keepAlive_out := keepAlive_out k ++ ["KeepAlive service stopped"];
         next_interval := next_interval k |}
  | None => k
  end.

(** The runtime fires the interval [id], if it is still registered. *)
Definition interval_fires (id : nat) (k : keepAlive) : keepAlive :=
  if bool_decide (id ∈ intervals k) then
    {| intervalId := intervalId k; intervals := intervals k;
       pings := S (pings k); keepAlive_out := keepAlive_out k;
       next_interval := next_interval k |}
  else k.

Inductive keepAlive_event :=
| Start
| Stop
| IntervalFires (id : nat).

Definition keepAlive_step (ev : keepAlive_event) (k : keepAlive) : keepAlive :=
  match ev with
  | Start => start k
  | Stop => stop k
  | IntervalFires id => interval_fires id k
  end.

Definition keepAlive_run (evs : list keepAlive_event) (k : keepAlive) : keepAlive :=
  fold_left (fun k ev => keepAlive_step ev k) evs k.

(** [new KeepAliveService()] *)
Definition keepAliveService : keepAlive :=
  {| intervalId := None; intervals := []; pings := 0; keepAlive_out := [];
     next_interval := 1 |}.

(** ** ImageOptimizer (src/components/ImageOptimizer.tsx) *)

(** [s.includes(sub)] *)
Fixpoint includes (s sub : string) : bool :=
  String.prefix sub s ||
  match s with
  | EmptyString => false
  | String _ rest => includes rest sub
  end.

(** [s.split(sep)[0]]: what comes before the first [sep]. *)
Fixpoint before_first (sep : ascii) (s : string) : string :=
  match s with
  | EmptyString => EmptyString
  | String c rest =>
      if Ascii.eqb c sep then EmptyString else String c (before_first sep rest)
  end.

(** [generateSrcSet(originalSrc)] inside a component with the properties
    [src] and [quality] (a whole number here). *)
Definition generateSrcSet (src : string) (quality : Z) (originalSrc : string)
  : string :=
  if includes originalSrc "pexels.com" then
    let baseUrl := before_first "?" originalSrc in
    sep_by ", "
      [baseUrl +:+ "?auto=compress&cs=tinysrgb&w=400&h=300&fit=crop&q=" +:+
         pretty quality +:+ " 400w";
       baseUrl +:+ "?auto=compress&cs=tinysrgb&w=800&h=600&fit=crop&q=" +:+
         pretty quality +:+ " 800w";
       baseUrl +:+ "?auto=compress&cs=tinysrgb&w=1200&h=900&fit=crop&q=" +:+
         pretty quality +:+ " 1200w"]
  else src.

(** The [srcSet] attribute the component renders: [generateSrcSet(src)]. *)
Definition srcSet (src : string) (quality : Z) : string :=
  generateSrcSet src quality src.

(** ** What [useAuth] returns besides its actions *)

(** [isAuthenticated: !!user] *)
Definition isAuthenticated (w : world) : bool := truthy (state_user w).

(** [isPatient: user?.userType === 'patient'] *)
Definition isPatient (w : world) : bool :=
  js_is_str (js_get_opt (state_user w) "userType") "patient".

(** [isDoctor: user?.userType === 'doctor'] *)
Definition isDoctor (w : world) : bool :=
  js_is_str (js_get_opt (state_user w) "userType") "doctor".

(** ** Vocabulary of the further properties *)

(** What sign-up and sign-in raise when the configuration is absent. *)
Definition unavailable : exn :=
  Error "Authentication service is not available. Please check your configuration.".

(** The row [createPatientProfile] inserts. *)
Definition patient_row (userId : jsval) (name : string) : jsval :=
  JObj [("user_id", userId); ("name", JStr name);
        ("emergency_contact", JObj []); ("medical_history", JArr []);
        ("allergies", JArr []); ("current_medications", JArr []);
        ("insurance_info", JObj [])].

(** The row [createDoctorProfile] inserts at the time [now]. *)
Definition doctor_row (userId : jsval) (name : string) (now : Z) : jsval :=
  JObj [("user_id", userId); ("name", JStr name);
        ("specialization", JStr EmptyString);
        ("license_number", JStr ("LIC-" +:+ pretty now));
        ("verification_status", JStr "pending"); ("rating", JNum 0);
        ("location", JStr EmptyString); ("education", JStr EmptyString);
        ("languages", JArr [JStr "English"]);
        ("consultation_fee", JNum 0); ("availability", JObj [])].

(** The insert [authService.signUp] makes for a new user at the time [now]. *)
Definition profile_insert (userType : string) (userId : jsval) (name : string)
    (now : Z) : request :=
  if String.eqb userType "patient" then DbInsert "patients" (patient_row userId name)
  else DbInsert "doctors" (doctor_row userId name now).

(** What [signUp] logs when the insert fails. *)
Definition profile_skipped : effect :=
  Console LLog [AStr "Profile creation skipped - database not configured"].

(** Every request handed to the client is settled ten seconds after it was
    made at the latest, as it is behind [global_fetch]. *)
Definition aborts_requests (env : environment) : Prop :=
  forall n r, settles_within (backend env n r) FETCH_TIMEOUT.

(** The computation completes, normally or with an error, no later than
    [ms] milliseconds after it was started. *)
Definition ends_within {A} (ms : Z) (m : async A) : Prop :=
  forall w, fst (m w) <> Hangs /\ clock (snd (m w)) <= clock w + ms.

(** How long the promise takes to settle. *)
Definition latency_of {A} (p : promise A) : Z :=
  match p with
  | Resolves t _ | Rejects t _ => Z.max 0 t
  | Never => 0
  end.

(** The character occurs in the string. *)
Fixpoint has_char (c : ascii) (s : string) : bool :=
  match s with
  | EmptyString => false
  | String c' rest => Ascii.eqb c' c || has_char c rest
  end.

(** The table [loadUserProfile] looks the profile up in. *)
Definition profile_table (fs : list (string * jsval)) : string :=
  if js_is_str (user_type_of fs) "patient" then "patients" else "doctors".

(** What a configured AI service does with its one request [req]: the run
    sends it, returns only what the service's JSON body holds, raises
    [Error failed] on a response that is not ok, logs what it raises under
    [label], and waits for ever on a [fetch] that never settles. *)
Definition relays (fetch : nat -> request -> promise http_response)
    (run : outcome jsval * world) (w : world) (req : request)
    (failed label : string) : Prop :=
  let reply := fetch (length (requests w)) req in
  requests (snd run) = requests w ++ [req] /\
  (forall v,
     fst run = Returns v ->
     exists t response t2,
       reply = Resolves t response /\ ok response = true /\
       json response = Resolves t2 v) /\
  (forall t response,
     reply = Resolves t response -> ok response = false ->
     fst run = Throws (Error failed)) /\
  (forall t e, reply = Rejects t e -> fst run = Throws e) /\
  (forall t response t2 e,
     reply = Resolves t response -> ok response = true ->
     json response = Rejects t2 e -> fst run = Throws e) /\
  (reply = Never -> fst run = Hangs) /\
  (forall e,
     fst run = Throws e ->
     logged (snd run) = logged w ++ [(LError, [AStr label; AExn e])]) /\
  ((forall e, fst run <> Throws e) -> logged (snd run) = logged w).

(** The bodies [analyzeSymptoms] and [analyzeSentiment] post. *)
Definition symptoms_body (symptoms : list string) (patientId : string)
    (language voiceInput : option string) (imageAnalysis : jsval) : jsval :=
  JObj [("symptoms", JArr (map JStr symptoms));
        ("patientId", JStr patientId);
        ("language", JStr (default "en" language));
        ("voiceInput", optional_string voiceInput);
        ("imageAnalysis", imageAnalysis)].

Definition sentiment_body (text : string)
    (appointmentId patientId doctorId : option string) : jsval :=
  JObj [("text", JStr text);
        ("appointmentId", optional_string appointmentId);
        ("patientId", optional_string patientId);
        ("doctorId", optional_string doctorId);
        ("feedbackType", JStr "appointment")].

(** The intervals a service object in the state [k] should have
    registered: the one it holds, if any. *)
Definition held (k : keepAlive) : list nat :=
  match intervalId k with
  | Some id => [id]
  | None => []
  end.

(** What [ping] logs when the query fails or is late. *)
Definition ping_failed (message : string) : effect :=
  Console LWarn
    [AStr "KeepAlive ping failed (this is normal if Supabase is not configured):";
     AStr message].

(** The timers of [s] that are due once [ms] more milliseconds have
    passed. *)
Definition due_after (ms : Z) (s : loop) : list timer :=
  filter (fun t => due t <= now_ms s + Z.max 0 ms) (timers s).

(** *** Further sample inputs *)

(** The service accepts the sign-up and rejects the profile row. *)
Definition signs_up_without_profile : nat -> request -> promise response :=
  fun n _ =>
    match n with
    | O => Resolves 50 (success (JObj [("user", JObj new_user)]))
    | _ => Resolves 30 (failure row_rejected)
    end.

(** What the client makes of an aborted request, for the examples. *)
Definition request_aborted : exn + response :=
  inr (failure (Error "The operation was aborted")).

(** The service accepts the sign-up after six seconds and never answers
    the profile insert. *)
Definition signs_up_slowly_then_stalls : nat -> request -> promise response :=
  fun n _ =>
    match n with
    | O => Resolves 6000 (success (JObj [("user", JObj new_user)]))
    | _ => Never
    end.

(** The service finds a session with the user [new_user] after 200 ms and
    never answers the profile lookup. *)
Definition session_then_silence : nat -> request -> promise response :=
  fun n _ =>
    match n with
    | O => Resolves 200 (success (JObj [("session", JObj [("user", JObj new_user)])]))
    | _ => Never
    end.

(** A [fetch] that is answered with the status 503. *)
Definition unavailable_503 : nat -> request -> promise http_response :=
  fun _ _ => Resolves 90 {| ok := false; json := Resolves 5 (JObj []) |}.

(** * Properties *)

Lemma upto_one d t e : t <= d -> upto d [(t, e)] = [(t, e)].
Proof. intros H. unfold upto. rewrite filter_cons_True by (simpl; lia). reflexivity. Qed.

(** *** Views of a world after an effect or a wait *)

Lemma requests_effect w e :
  requests (with_effect w e)
    = match e with Network r => requests w ++ [r] | _ => requests w end.
Proof.
  unfold requests, with_effect. simpl. rewrite omap_app. simpl.
  destruct e; simpl; try apply app_nil_r; reflexivity.
Qed.

Lemma logged_effect w e :
  logged (with_effect w e)
    = match e with Console l a => logged w ++ [(l, a)] | _ => logged w end.
Proof.
  unfold logged, with_effect. simpl. rewrite omap_app. simpl.
  destruct e; simpl; try apply app_nil_r; reflexivity.
Qed.

Lemma state_user_effect w e :
  state_user (with_effect w e) = match e with SetUser v => v | _ => state_user w end.
Proof. unfold state_user, with_effect. simpl. rewrite fold_left_app. reflexivity. Qed.

Lemma state_profile_effect w e :
  state_profile (with_effect w e)
    = match e with SetProfile v => v | _ => state_profile w end.
Proof. unfold state_profile, with_effect. simpl. rewrite fold_left_app. reflexivity. Qed.

Lemma state_loading_effect w e :
  state_loading (with_effect w e)
    = match e with SetLoading v => v | _ => state_loading w end.
Proof. unfold state_loading, with_effect. simpl. rewrite fold_left_app. reflexivity. Qed.

Lemma clock_effect w e : clock (with_effect w e) = clock w.
Proof. reflexivity. Qed.

Lemma requests_wait t w : requests (wait t w) = requests w.
Proof. reflexivity. Qed.

Lemma logged_wait t w : logged (wait t w) = logged w.
Proof. reflexivity. Qed.

Lemma state_user_wait t w : state_user (wait t w) = state_user w.
Proof. reflexivity. Qed.

Lemma state_profile_wait t w : state_profile (wait t w) = state_profile w.
Proof. reflexivity. Qed.

Lemma state_loading_wait t w : state_loading (wait t w) = state_loading w.
Proof. reflexivity. Qed.

Lemma clock_wait t w : clock (wait t w) = clock w + Z.max 0 t.
Proof. reflexivity. Qed.

Create Rewrite HintDb views.
#[export] Hint Rewrite requests_effect logged_effect state_user_effect
  state_profile_effect state_loading_effect clock_effect requests_wait
  logged_wait state_user_wait state_profile_wait state_loading_wait
  clock_wait : views.

Section RaceFacts.
Variable env : environment.

Lemma call_cases r w :
  call env r w =
    let sent := with_effect w (Network r) in
    match backend env (length (requests w)) r with
    | Resolves t v => (Returns v, wait t sent)
    | Rejects t e => (Throws e, wait t sent)
    | Never => (Hangs, sent)
    end.
Proof.
  unfold call, bind, emit, await. simpl.
  destruct (backend env _ r); reflexivity.
Qed.

(** A race always settles. *)
Lemma race_settles {A} (m : async A) ms msg w :
  fst (race m ms msg w) <> Hangs.
Proof.
  unfold race.
  destruct (m w) as [[a|e|] w']; simpl; try case_bool_decide; simpl; discriminate.
Qed.

(** What a race on one request does, by cases on the backend. *)
Lemma race_call_cases r ms msg w :
  0 <= ms ->
  race (call env r) ms msg w =
    let sent := with_effect w (Network r) in
    let timed_out := (Throws (Error msg), wait ms sent) in
    match backend env (length (requests w)) r with
    | Resolves t v =>
        if bool_decide (Z.max 0 t <= ms) then (Returns v, wait t sent) else timed_out
    | Rejects t e =>
        if bool_decide (Z.max 0 t <= ms) then (Throws e, wait t sent) else timed_out
    | Never => timed_out
    end.
Proof.
  intros Hms. unfold race. rewrite call_cases. cbv zeta.
  assert (Hlate :
    (Throws (Error msg) : outcome response,
     {| clock := clock w + ms;
        trace := trace w ++ upto (clock w + ms)
                   (drop (length (trace w)) (trace w ++ [(clock w, Network r)])) |})
    = (Throws (Error msg), wait ms (with_effect w (Network r)))).
  { rewrite drop_app_length, upto_one by lia.
    unfold wait, with_effect. simpl. rewrite Z.max_r by lia. reflexivity. }
  destruct (backend env _ r) as [t v|t e|]; simpl.
  - case_bool_decide.
    + rewrite bool_decide_eq_true_2 by lia. reflexivity.
    + rewrite bool_decide_eq_false_2 by lia. apply Hlate.
  - case_bool_decide.
    + rewrite bool_decide_eq_true_2 by lia. reflexivity.
    + rewrite bool_decide_eq_false_2 by lia. apply Hlate.
  - apply Hlate.
Qed.

Lemma race_call_late r ms msg w :
  ¬ settles_within (backend env (length (requests w)) r) ms ->
  0 <= ms ->
  race (call env r) ms msg w
    = (Throws (Error msg), wait ms (with_effect w (Network r))).
Proof.
  intros Hlate Hms. rewrite race_call_cases by done. cbv zeta.
  destruct (backend env _ r) as [t v|t e|]; simpl in *;
    try rewrite bool_decide_eq_false_2 by done; reflexivity.
Qed.

Lemma getCurrentUser_returns w :
  exists u w', authService_getCurrentUser env w = (Returns u, w').
Proof.
  unfold authService_getCurrentUser, try_catch, supabase.
  destruct (isServiceConfigured env "supabase"); simpl; [|eauto].
  unfold bind. rewrite race_call_cases by lia.
  destruct (backend env _ _) as [t r|t e|]; simpl; try case_bool_decide; simpl; eauto.
  unfold lift. destruct (js_get _ _); simpl; eauto.
Qed.
End RaceFacts.

Ltac facade :=
  unfold authService_getCurrentUser, authService_signOut, authService_signIn,
    authService_signUp, uploadImage, saveMedicalImage, saveSymptomAnalysis,
    saveChatSession, createAppointment, createEmergencyAlert, insert_or_mock,
    updateChatSession, getPatientProfile, getDoctorProfile,
    createPatientProfile, createDoctorProfile, data_or_throw,
    try_catch, try_finally, bind, ret, throw, lift, console, emit, date_now,
    supabase.

(** Claim C10: [getCurrentUser] never rejects.  Whatever the configuration
    and the service do, it returns a value: null when the configuration is
    absent, when the user fetch does not settle within five seconds, when
    the fetch rejects and when the service answers with a failure; the user
    when the fetch succeeds in time. *)
Theorem getCurrentUser_never_rejects :
  (forall env w, exists u w', authService_getCurrentUser env w = (Returns u, w')) /\
  (forall env w,
     isServiceConfigured env "supabase" = false ->
     authService_getCurrentUser env w = (Returns JNull, w)) /\
  (forall env w,
     isServiceConfigured env "supabase" = true ->
     ¬ settles_within (backend env (length (requests w)) AuthGetUser) 5000 ->
     fst (authService_getCurrentUser env w) = Returns JNull) /\
  (forall env w t e,
     isServiceConfigured env "supabase" = true ->
     backend env (length (requests w)) AuthGetUser = Rejects t e ->
     fst (authService_getCurrentUser env w) = Returns JNull) /\
  (forall env w t e,
     isServiceConfigured env "supabase" = true ->
     backend env (length (requests w)) AuthGetUser
       = Resolves t {| data := JObj [("user", JNull)]; error := Some e |} ->
     fst (authService_getCurrentUser env w) = Returns JNull) /\
  (forall env w t user,
     isServiceConfigured env "supabase" = true ->
     backend env (length (requests w)) AuthGetUser
       = Resolves t {| data := JObj [("user", user)]; error := None |} ->
     Z.max 0 t <= 5000 ->
     fst (authService_getCurrentUser env w) = Returns user).
Proof.
  repeat split.
  - intros env w. apply getCurrentUser_returns.
  - intros env w Hc. facade. rewrite Hc. reflexivity.
  - intros env w Hc Hlate. facade. rewrite Hc. simpl.
    rewrite race_call_late by (done || lia). reflexivity.
  - intros env w t e Hc Hb. facade. rewrite Hc. simpl.
    rewrite race_call_cases, Hb by lia. case_bool_decide; reflexivity.
  - intros env w t e Hc Hb. facade. rewrite Hc. simpl.
    rewrite race_call_cases, Hb by lia. case_bool_decide; reflexivity.
  - intros env w t user Hc Hb Ht. facade. rewrite Hc. simpl.
    rewrite race_call_cases, Hb by lia. rewrite bool_decide_eq_true_2 by done.
    reflexivity.
Qed.

Lemma getCurrentUser_never_rejects_witness :
  fst (authService_getCurrentUser (online never_replies) initial_world) = Returns JNull.
Proof.
  destruct getCurrentUser_never_rejects as (_ & _ & H & _).
  apply H; [reflexivity | simpl; tauto].
Defined.

(** Claim C9: [uploadImage] never rejects.  With the configuration absent,
    and with it present when the upload is answered with an error, when the
    upload rejects and when the public URL cannot be retrieved, it returns
    [https://example.com/mock-upload/] followed by the name of the file. *)
Theorem uploadImage_never_rejects :
  (forall env file bucket w e, fst (uploadImage env file bucket w) <> Throws e) /\
  (forall env file bucket w,
     isServiceConfigured env "supabase" = false ->
     uploadImage env file bucket w
       = (Returns (JStr ("https://example.com/mock-upload/" +:+ name file)), w)) /\
  (forall env file bucket w t r e,
     isServiceConfigured env "supabase" = true ->
     backend env (length (requests w))
       (StorageUpload bucket (upload_path env file w) file) = Resolves t r ->
     error r = Some e ->
     fst (uploadImage env file bucket w)
       = Returns (JStr ("https://example.com/mock-upload/" +:+ name file))) /\
  (forall env file bucket w t e,
     isServiceConfigured env "supabase" = true ->
     backend env (length (requests w))
       (StorageUpload bucket (upload_path env file w) file) = Rejects t e ->
     fst (uploadImage env file bucket w)
       = Returns (JStr ("https://example.com/mock-upload/" +:+ name file))) /\
  (forall env file bucket w t r e,
     isServiceConfigured env "supabase" = true ->
     backend env (length (requests w))
       (StorageUpload bucket (upload_path env file w) file) = Resolves t r ->
     error r = None ->
     publicUrl env bucket (upload_path env file w) = inl e ->
     fst (uploadImage env file bucket w)
       = Returns (JStr ("https://example.com/mock-upload/" +:+ name file))).
Proof.
  repeat split.
  - intros env file bucket w e. facade.
    destruct (isServiceConfigured env "supabase"); simpl; [|discriminate].
    rewrite call_cases. simpl.
    destruct (backend env _ _) as [t r|t e'|]; simpl; try discriminate.
    destruct (error r); simpl; [discriminate|].
    destruct (publicUrl env _ _) as [e1|got]; simpl; [discriminate|].
    destruct (js_get got "data") as [e2|d]; simpl; [discriminate|].
    destruct (js_get d "publicUrl"); simpl; discriminate.
  - intros env file bucket w Hc. facade. rewrite Hc. reflexivity.
  - intros env file bucket w t r e Hc Hb He. facade. rewrite Hc. simpl.
    rewrite call_cases. fold (upload_path env file w). rewrite Hb. simpl.
    rewrite He. reflexivity.
  - intros env file bucket w t e Hc Hb. facade. rewrite Hc. simpl.
    rewrite call_cases. fold (upload_path env file w). rewrite Hb. reflexivity.
  - intros env file bucket w t r e Hc Hb He Hu. facade. rewrite Hc. simpl.
    rewrite call_cases. fold (upload_path env file w). rewrite Hb. simpl.
    rewrite He. simpl. fold (upload_path env file w). rewrite Hu. reflexivity.
Qed.

Lemma uploadImage_never_rejects_witness :
  uploadImage offline scan "medical-images" initial_world
    = (Returns (JStr "https://example.com/mock-upload/scan.v2.png"), initial_world) /\
  fst (uploadImage (online (replies 40 (failure row_rejected))) scan "medical-images" initial_world)
    = Returns (JStr "https://example.com/mock-upload/scan.v2.png").
Proof.
  destruct uploadImage_never_rejects as (_ & Hoff & Hfail & _).
  split.
  - apply Hoff. reflexivity.
  - eapply Hfail; reflexivity.
Defined.

(** *** Objects *)

Lemma obj_get_set fs k v k' :
  obj_get (obj_set fs k v) k' = if String.eqb k k' then v else obj_get fs k'.
Proof.
  induction fs as [|[k0 v0] fs IH]; simpl.
  - reflexivity.
  - destruct (String.eqb_spec k0 k) as [->|Hne]; simpl.
    + destruct (String.eqb k k'); reflexivity.
    + rewrite IH. destruct (String.eqb_spec k0 k') as [->|Hne'].
      * destruct (String.eqb_spec k k'); congruence.
      * reflexivity.
Qed.

Lemma obj_has_false_get fs k : obj_has fs k = false -> obj_get fs k = JUndefined.
Proof.
  induction fs as [|[k0 v0] fs IH]; simpl; [reflexivity|].
  destruct (String.eqb k0 k); simpl; [discriminate | exact IH].
Qed.

Lemma obj_has_false_not_in fs k : obj_has fs k = false -> k ∉ fs.*1.
Proof.
  induction fs as [|[k0 v0] fs IH]; simpl; intros H.
  - apply not_elem_of_nil.
  - destruct (String.eqb_spec k0 k); simpl in H; [discriminate|].
    apply not_elem_of_cons. split; [congruence | auto].
Qed.

Lemma not_in_obj_has fs k : k ∉ fs.*1 -> obj_has fs k = false.
Proof.
  induction fs as [|[k0 v0] fs IH]; simpl; intros H; [reflexivity|].
  apply not_elem_of_cons in H as [Hne Hin].
  destruct (String.eqb_spec k0 k); [congruence|]. simpl. auto.
Qed.

(** Spreading an object with distinct keys over a base: its properties win. *)
Lemma obj_get_spread extra : forall base k,
  NoDup extra.*1 ->
  obj_get (obj_spread base extra) k
    = if obj_has extra k then obj_get extra k else obj_get base k.
Proof.
  unfold obj_spread.
  induction extra as [|[k0 v0] extra IH]; intros base k Hnd; simpl.
  - reflexivity.
  - apply NoDup_cons in Hnd as [Hnotin Hnd]. simpl in Hnotin. rewrite IH by done.
    rewrite obj_get_set. cbn [fst snd].
    destruct (String.eqb_spec k0 k) as [->|Hne]; simpl.
    + rewrite (not_in_obj_has _ _ Hnotin). reflexivity.
    + reflexivity.
Qed.

(** Claim C8 (amended): with the configuration absent the writers hand
    nothing to the client and log the call.  [saveSymptomAnalysis],
    [saveChatSession], [createAppointment] and [createEmergencyAlert] return
    [{ id: 'mock-id', ...payload }]: every property of the payload, and the
    identifier ['mock-id'] unless the payload has an [id] of its own, which
    then takes its place.  [saveMedicalImage] returns the three properties
    [id], [patient_id] and [image_url], and only logs the image type and
    the analysis. *)
Theorem unconfigured_writes_return_mock_records env :
  isServiceConfigured env "supabase" = false ->
  (forall payload w,
     saveSymptomAnalysis env payload w
       = (Returns (JObj (obj_spread [("id", JStr "mock-id")] payload)),
          with_effect w
            (Console LLog [AStr "Mock: Symptom analysis saved"; AVal (JObj payload)])) /\
     saveChatSession env payload w
       = (Returns (JObj (obj_spread [("id", JStr "mock-id")] payload)),
          with_effect w (Console LLog [AStr "Mock: Chat session saved"; AVal (JObj payload)])) /\
     createAppointment env payload w
       = (Returns (JObj (obj_spread [("id", JStr "mock-id")] payload)),
          with_effect w
            (Console LLog [AStr "Mock: Appointment created"; AVal (JObj payload)])) /\
     createEmergencyAlert env payload w
       = (Returns (JObj (obj_spread [("id", JStr "mock-id")] payload)),
          with_effect w
            (Console LLog [AStr "Mock: Emergency alert created"; AVal (JObj payload)]))) /\
  (forall payload k,
     NoDup payload.*1 ->
     obj_get (obj_spread [("id", JStr "mock-id")] payload) k
       = if obj_has payload k then obj_get payload k
         else if String.eqb "id" k then JStr "mock-id" else JUndefined) /\
  (forall patientId imageUrl imageType aiAnalysis w,
     saveMedicalImage env patientId imageUrl imageType aiAnalysis w
       = (Returns (JObj [("id", JStr "mock-id"); ("patient_id", JStr patientId);
                         ("image_url", JStr imageUrl)]),
          with_effect w (Console LLog
            [AStr "Mock: Medical image saved";
             AVal (JObj [("patientId", JStr patientId); ("imageUrl", JStr imageUrl);
                         ("imageType", JStr imageType); ("aiAnalysis", aiAnalysis)])]))) /\
  (forall w e, requests (with_effect w (Console LLog e)) = requests w).
Proof.
  intros Hc. repeat split.
  - facade. rewrite Hc. reflexivity.
  - facade. rewrite Hc. reflexivity.
  - facade. rewrite Hc. reflexivity.
  - facade. rewrite Hc. reflexivity.
  - intros payload k Hnd. rewrite obj_get_spread by done. reflexivity.
  - intros. facade. rewrite Hc. reflexivity.
  - intros w e. unfold requests, with_effect. simpl. rewrite omap_app. simpl.
    apply app_nil_r.
Qed.

Lemma unconfigured_writes_return_mock_records_witness :
  fst (createAppointment offline
         [("patient_id", JStr "p-1"); ("doctor_id", JStr "d-7")] initial_world)
    = Returns (JObj [("id", JStr "mock-id"); ("patient_id", JStr "p-1");
                     ("doctor_id", JStr "d-7")]).
Proof.
  destruct (unconfigured_writes_return_mock_records offline eq_refl) as (H & _).
  destruct (H [("patient_id", JStr "p-1"); ("doctor_id", JStr "d-7")] initial_world)
    as (_ & _ & -> & _).
  reflexivity.
Defined.

(** Counterexample to claim C8: the record returned for a medical image
    holds neither the image type nor the analysis the caller passed. *)
Lemma saveMedicalImage_drops_payload :
  exists record,
    fst (saveMedicalImage offline "p-1" "https://cdn/x.png" "xray"
           (JObj [("confidence", JNum 90)]) initial_world) = Returns record /\
    ¬ holds_value record (JStr "xray") /\
    ¬ holds_value record (JObj [("confidence", JNum 90)]).
Proof.
  eexists. split; [vm_compute; reflexivity|].
  split; intros [k Hk]; cbn [own_fields obj_get] in Hk;
    repeat (destruct (String.eqb _ k); [discriminate Hk|]); discriminate Hk.
Qed.

Lemma loadUserProfile_cases env fs w :
  loadUserProfile env (JObj fs) w =
    match profile_lookup env fs w with
    | (Returns profile, w1) =>
        (Returns tt,
         with_effect (with_effect w1 (SetUser (enhanced fs profile))) (SetProfile profile))
    | (Throws _, w1) =>
        (Returns tt,
         with_effect (with_effect (with_effect w1 profile_not_found) (SetUser (enhanced fs JNull)))
               (SetProfile JNull))
    | (Hangs, w1) => (Hangs, w1)
    end.
Proof.
  unfold loadUserProfile, profile_lookup, enhanced, user_type_of.
  unfold try_catch at 1. unfold bind at 1. simpl.
  unfold bind at 1. unfold try_catch at 1. unfold bind at 1. simpl.
  destruct (js_is_str _ "patient");
    match goal with |- context [?f env ?u w] => destruct (f env u w) as [[p|e|] w1] end;
    reflexivity.
Qed.

(** Claim C7: [loadUserProfile] takes the user type from
    [user_metadata.user_type] and falls back to ['patient'] when that is
    absent; it looks the profile up in [patients] for a patient and in
    [doctors] otherwise; when the lookup raises, for whatever reason, the
    error is logged and not passed on: the user is stored with a null
    profile and the auth-state handler completes normally. *)
Theorem profile_failure_is_swallowed :
  (forall fs,
     js_get_opt (obj_get fs "user_metadata") "user_type" = JUndefined ->
     user_type_of fs = JStr "patient") /\
  (forall fs tag,
     js_get_opt (obj_get fs "user_metadata") "user_type" = JStr tag ->
     tag <> EmptyString ->
     user_type_of fs = JStr tag) /\
  (forall env fs w,
     isServiceConfigured env "supabase" = true ->
     requests (snd (profile_lookup env fs w))
       = requests w ++
         [DbSelectSingle
            (if js_is_str (user_type_of fs) "patient" then "patients" else "doctors")
            "user_id" (obj_get fs "id")]) /\
  (forall env fs w e w1,
     profile_lookup env fs w = (Throws e, w1) ->
     loadUserProfile env (JObj fs) w
       = (Returns tt,
          with_effect (with_effect (with_effect w1 profile_not_found) (SetUser (enhanced fs JNull)))
                (SetProfile JNull))) /\
  (forall env session fs w e w1,
     js_get_opt session "user" = JObj fs ->
     profile_lookup env fs w = (Throws e, w1) ->
     exists w',
       onAuthStateChange env session w = (Returns tt, w') /\
       state_user w' = JObj (obj_set (obj_set fs "profile" JNull)
                                     "userType" (user_type_of fs)) /\
       state_profile w' = JNull /\
       state_loading w' = false).
Proof.
  repeat split.
  - intros fs H. unfold user_type_of. rewrite H. reflexivity.
  - intros fs tag H Hne. unfold user_type_of. rewrite H. unfold js_or. simpl.
    destruct (String.eqb_spec tag EmptyString); [contradiction | reflexivity].
  - intros env fs w Hc. unfold profile_lookup.
    destruct (js_is_str _ _); facade; rewrite Hc; simpl; rewrite call_cases; simpl;
      destruct (backend env _ _) as [t r|t e|]; simpl;
      try destruct (error r); simpl; autorewrite with views; reflexivity.
  - intros env fs w e w1 H. rewrite loadUserProfile_cases, H. reflexivity.
  - intros env session fs w e w1 Hu H.
    unfold onAuthStateChange, try_finally, try_catch. rewrite Hu. simpl.
    rewrite loadUserProfile_cases, H. simpl. eexists. split; [reflexivity|].
    autorewrite with views. auto.
Qed.

Lemma profile_failure_is_swallowed_witness :
  user_type_of new_user = JStr "patient" /\
  exists w',
    onAuthStateChange (online (replies 120 (failure row_rejected)))
      (JObj [("user", JObj new_user)]) initial_world = (Returns tt, w') /\
    state_user w'
      = JObj [("id", JStr "u-42"); ("email", JStr "ana@example.org");
              ("profile", JNull); ("userType", JStr "patient")] /\
    state_profile w' = JNull /\
    state_loading w' = false.
Proof.
  destruct profile_failure_is_swallowed as (Hdef & _ & _ & _ & Hsess).
  split.
  - apply Hdef. reflexivity.
  - edestruct (Hsess (online (replies 120 (failure row_rejected))) (JObj [("user", JObj new_user)])
                      new_user initial_world) as (w' & Hrun & Huser & Hprof & Hload).
    + reflexivity.
    + reflexivity.
    + exists w'. repeat split; assumption.
Defined.

(** *** Sign-out *)

Lemma hook_signOut_cases inner w :
  hook_signOut inner w =
    match race inner 8000 "Sign out timeout" (with_effect w (SetLoading true)) with
    | (Returns _, w1) =>
        (Returns JUndefined,
         with_effect (with_effect (with_effect w1 (SetUser JNull)) (SetProfile JNull))
                     (SetLoading false))
    | (Throws e, w1) =>
        (Throws e,
         with_effect
           (with_effect (with_effect (with_effect w1 (sign_out_error e)) (SetUser JNull))
                        (SetProfile JNull))
           (SetLoading false))
    | (Hangs, w1) => (Hangs, w1)
    end.
Proof.
  unfold hook_signOut, try_finally, try_catch, bind, emit, console, throw, ret.
  simpl. destruct (race inner _ _ _) as [[v|e|] w1]; reflexivity.
Qed.

(** The facade's sign-out always returns normally. *)
Lemma authService_signOut_returns env w :
  exists w', authService_signOut env w = (Returns JUndefined, w') /\
             clock w' <= clock w + 5000.
Proof.
  facade. destruct (isServiceConfigured env "supabase"); simpl.
  - rewrite race_call_cases by lia. cbv zeta.
    destruct (backend env _ _) as [t r|t e|]; simpl;
      try case_bool_decide; simpl; try destruct (error r); simpl;
      eexists; (split; [reflexivity|]); autorewrite with views; lia.
  - eexists. split; [reflexivity|]. autorewrite with views. lia.
Qed.

(** *** Timeouts *)

Lemma hook_signIn_cases inner w :
  hook_signIn inner w =
    match race inner 12000
            "Sign in timeout - please check your connection and try again"
            (with_effect w (SetLoading true)) with
    | (Returns v, w1) => (Returns v, with_effect w1 (SetLoading false))
    | (Throws e, w1) =>
        (Throws e,
         with_effect (with_effect w1 (Console LError [AStr "Sign in error:"; AExn e]))
                     (SetLoading false))
    | (Hangs, w1) => (Hangs, w1)
    end.
Proof.
  unfold hook_signIn, try_finally, try_catch, bind, emit, console, throw.
  simpl. destruct (race inner _ _ _) as [[v|e|] w1]; reflexivity.
Qed.

Lemma race_wins {A} (m : async A) ms msg w o w' :
  m w = (o, w') -> o <> Hangs -> clock w' <= clock w + ms ->
  race m ms msg w = (o, w').
Proof.
  intros Hm Ho Hc. unfold race. rewrite Hm.
  destruct o; try congruence; rewrite bool_decide_eq_true_2 by done; reflexivity.
Qed.

Lemma race_loses {A} (m : async A) ms msg w :
  fst (m w) = Hangs \/ clock w + ms < clock (snd (m w)) ->
  fst (race m ms msg w) = Throws (Error msg).
Proof.
  intros H. unfold race. destruct (m w) as [[a|e|] w']; simpl in *;
    try reflexivity; destruct H as [H|H]; try discriminate;
    rewrite bool_decide_eq_false_2 by lia; reflexivity.
Qed.

Lemma authService_signIn_late env email password w :
  isServiceConfigured env "supabase" = true ->
  ¬ settles_within
      (backend env (length (requests w)) (AuthSignInWithPassword email password)) 8000 ->
  authService_signIn env email password w
    = (Throws (Error "Sign in request timed out"),
       with_effect
         (wait 8000 (with_effect w (Network (AuthSignInWithPassword email password))))
         (Console LError [AStr "Sign in error:"; AExn (Error "Sign in request timed out")])).
Proof.
  intros Hc Hlate. facade. rewrite Hc. simpl.
  rewrite race_call_late by (done || lia). reflexivity.
Qed.

Lemma authService_signUp_late env email password name userType w :
  isServiceConfigured env "supabase" = true ->
  ¬ settles_within
      (backend env (length (requests w))
         (signUp_request email password name userType)) 10000 ->
  authService_signUp env email password name userType w
    = (Throws (Error "Sign up request timed out"),
       with_effect
         (wait 10000
            (with_effect w (Network (signUp_request email password name userType))))
         (Console LError [AStr "Sign up error:"; AExn (Error "Sign up request timed out")])).
Proof.
  intros Hc Hlate. unfold signUp_request in *. facade. rewrite Hc. simpl.
  rewrite race_call_late by (done || lia). reflexivity.
Qed.

Lemma hook_signUp_cases inner w :
  hook_signUp inner w =
    match race inner 15000 "Sign up timeout - please try again"
            (with_effect w (SetLoading true)) with
    | (Returns v, w1) => (Returns v, with_effect w1 (SetLoading false))
    | (Throws e, w1) =>
        (Throws e,
         with_effect (with_effect w1 (Console LError [AStr "Sign up error:"; AExn e]))
                     (SetLoading false))
    | (Hangs, w1) => (Hangs, w1)
    end.
Proof.
  unfold hook_signUp, try_finally, try_catch, bind, emit, console, throw.
  simpl. destruct (race inner _ _ _) as [[v|e|] w1]; reflexivity.
Qed.

(** The facade's sign-in settles within its own eight seconds. *)
Lemma authService_signIn_settles env email password w :
  fst (authService_signIn env email password w) <> Hangs /\
  clock (snd (authService_signIn env email password w)) <= clock w + 8000.
Proof.
  facade. destruct (isServiceConfigured env "supabase"); simpl.
  - rewrite race_call_cases by lia. cbv zeta.
    destruct (backend env _ _) as [t r|t e|]; simpl;
      try case_bool_decide; simpl; try destruct (error r); simpl;
      (split; [discriminate|]); autorewrite with views; lia.
  - split; [discriminate|]. autorewrite with views. lia.
Qed.

(** Claim C2 (amended): with the configuration present, when the underlying
    call does not settle within the timeout, [signUp] (10 s) and [signIn]
    (8 s) of the facade raise a timeout error with their own message;
    [signOut] (5 s) logs it and returns normally, [getCurrentUser] (5 s)
    logs it and returns null, and the initial session fetch (8 s) logs it,
    leaves the user as it was and ends loading.  The hook's [signIn] then
    hands its caller the facade's error after eight seconds, and its
    [signUp] after ten, with the user and profile unchanged; the hook's own
    timers (12 s and 15 s) decide only a race with a promise that has not
    settled by then. *)
Theorem timeouts_by_operation env w :
  isServiceConfigured env "supabase" = true ->
  let nth := backend env (length (requests w)) in
  (forall email password name userType,
     ¬ settles_within (nth (signUp_request email password name userType)) 10000 ->
     exists w',
       authService_signUp env email password name userType w
         = (Throws (Error "Sign up request timed out"), w') /\
       clock w' = clock w + 10000) /\
  (forall email password,
     ¬ settles_within (nth (AuthSignInWithPassword email password)) 8000 ->
     exists w',
       authService_signIn env email password w
         = (Throws (Error "Sign in request timed out"), w') /\
       clock w' = clock w + 8000) /\
  (¬ settles_within (nth AuthSignOut) 5000 ->
     exists w',
       authService_signOut env w = (Returns JUndefined, w') /\
       logged w' = logged w ++
         [(LWarn, [AStr "Sign out error (clearing local session):";
                   AExn (Error "Sign out request timed out")])]) /\
  (¬ settles_within (nth AuthGetUser) 5000 ->
     exists w',
       authService_getCurrentUser env w = (Returns JNull, w') /\
       logged w' = logged w ++
         [(LWarn, [AStr "Get current user error:";
                   AExn (Error "Get user request timed out")])]) /\
  (¬ settles_within (nth AuthGetSession) 8000 ->
     exists w',
       getInitialSession env w = (Returns tt, w') /\
       state_user w' = state_user w /\ state_profile w' = state_profile w /\
       state_loading w' = false /\
       logged w' = logged w ++
         [(LWarn, [AStr "Error getting initial session (using offline mode):";
                   AStr "Session timeout"])]) /\
  (forall email password,
     ¬ settles_within (nth (AuthSignInWithPassword email password)) 8000 ->
     exists w',
       useAuth_signIn env email password w
         = (Throws (Error "Sign in request timed out"), w') /\
       clock w' = clock w + 8000 /\
       state_user w' = state_user w /\ state_profile w' = state_profile w) /\
  (forall inner,
     (let w0 := with_effect w (SetLoading true) in
      fst (inner w0) = Hangs \/ clock w0 + 12000 < clock (snd (inner w0))) ->
     fst (hook_signIn inner w)
       = Throws (Error "Sign in timeout - please check your connection and try again")) /\
  (forall email password name userType,
     ¬ settles_within (nth (signUp_request email password name userType)) 10000 ->
     exists w',
       useAuth_signUp env email password name userType w
         = (Throws (Error "Sign up request timed out"), w') /\
       clock w' = clock w + 10000 /\
       state_user w' = state_user w /\ state_profile w' = state_profile w) /\
  (forall inner,
     (let w0 := with_effect w (SetLoading true) in
      fst (inner w0) = Hangs \/ clock w0 + 15000 < clock (snd (inner w0))) ->
     fst (hook_signUp inner w) = Throws (Error "Sign up timeout - please try again")).
Proof.
  intros Hc nth. subst nth. repeat split.
  - intros email password name userType Hlate. unfold signUp_request in Hlate.
    facade. rewrite Hc. simpl. rewrite race_call_late by (done || lia).
    eexists. split; [reflexivity|]. autorewrite with views. lia.
  - intros email password Hlate. rewrite authService_signIn_late by done.
    eexists. split; [reflexivity|]. autorewrite with views. lia.
  - intros Hlate. facade. rewrite Hc. simpl. rewrite race_call_late by (done || lia).
    eexists. split; [reflexivity|]. autorewrite with views. reflexivity.
  - intros Hlate. facade. rewrite Hc. simpl. rewrite race_call_late by (done || lia).
    eexists. split; [reflexivity|]. autorewrite with views. reflexivity.
  - intros Hlate. unfold getInitialSession. facade. rewrite Hc. simpl.
    rewrite race_call_late by (done || lia).
    eexists. split; [reflexivity|]. autorewrite with views. auto.
  - intros email password Hlate. unfold useAuth_signIn.
    rewrite hook_signIn_cases.
    erewrite race_wins; [| apply authService_signIn_late; [done|] | discriminate |].
    + eexists. split; [reflexivity|]. autorewrite with views. repeat split; lia.
    + autorewrite with views. exact Hlate.
    + autorewrite with views. lia.
  - intros inner H. rewrite hook_signIn_cases.
    pose proof (race_loses inner 12000
      "Sign in timeout - please check your connection and try again"
      (with_effect w (SetLoading true)) H) as Hr.
    destruct (race inner _ _ _) as [[v|e|] w1]; simpl in Hr; try discriminate.
    simpl. exact Hr.
  - intros email password name userType Hlate. unfold useAuth_signUp.
    rewrite hook_signUp_cases.
    erewrite race_wins; [| apply authService_signUp_late; [done|] | discriminate |].
    + eexists. split; [reflexivity|]. autorewrite with views. repeat split; lia.
    + autorewrite with views. exact Hlate.
    + autorewrite with views. lia.
  - intros inner H. rewrite hook_signUp_cases.
    pose proof (race_loses inner 15000 "Sign up timeout - please try again"
      (with_effect w (SetLoading true)) H) as Hr.
    destruct (race inner _ _ _) as [[v|e|] w1]; simpl in Hr; try discriminate.
    simpl. exact Hr.
Qed.

Lemma timeouts_by_operation_witness :
  fst (authService_signIn (online never_replies) "ana@example.org" "pw" initial_world)
    = Throws (Error "Sign in request timed out") /\
  fst (authService_signOut (online never_replies) initial_world) = Returns JUndefined /\
  fst (useAuth_signIn (online never_replies) "ana@example.org" "pw" initial_world)
    = Throws (Error "Sign in request timed out").
Proof.
  destruct (timeouts_by_operation (online never_replies) initial_world eq_refl)
    as (_ & Hin & Hout & _ & _ & Hhook & _ & _ & _).
  split; [|split].
  - destruct (Hin "ana@example.org" "pw") as (w' & -> & _); [simpl; tauto | reflexivity].
  - destruct Hout as (w' & -> & _); [simpl; tauto | reflexivity].
  - destruct (Hhook "ana@example.org" "pw") as (w' & -> & _); [simpl; tauto | reflexivity].
Defined.

(** Counterexample to claim C2: a current-user fetch that never settles
    raises no error at all. *)
Lemma getCurrentUser_timeout_is_not_raised :
  ¬ exists msg,
      fst (authService_getCurrentUser (online never_replies) initial_world)
        = Throws (Error msg).
Proof. intros [msg H]. vm_compute in H. discriminate H. Qed.

(** *** The event loop, one step at a time *)

Lemma filter_one_keep {A} (P : A -> Prop) `{forall x, Decision (P x)} (x : A) :
  P x -> filter P [x] = [x].
Proof. intros Hx. rewrite filter_cons_True by done. reflexivity. Qed.

Lemma filter_one_drop {A} (P : A -> Prop) `{forall x, Decision (P x)} (x : A) :
  ¬ P x -> filter P [x] = [].
Proof. intros Hx. rewrite filter_cons_False by done. reflexivity. Qed.

Lemma last_cons {A} (a d : A) l : List.last (a :: l) d = List.last l a.
Proof.
  revert a d. induction l as [|b l IH]; intros a d; [reflexivity|].
  change (List.last (a :: b :: l) d) with (List.last (b :: l) d).
  rewrite !IH. reflexivity.
Qed.

Ltac fields :=
  cbn [now_ms queryCache debounceMap timers in_flight promises awaiting issued
       console_out next_id fst snd timer_id due timer_key queryFn
       timer_promise flight_id flight_key flight_promise entry_data timestamp].

Tactic Notation "fields" "in" hyp(H) :=
  cbn [now_ms queryCache debounceMap timers in_flight promises awaiting issued
       console_out next_id fst snd timer_id due timer_key queryFn
       timer_promise flight_id flight_key flight_promise entry_data timestamp]
    in H.

Lemma stale_stays key s s' :
  queryCache s' = queryCache s -> now_ms s <= now_ms s' ->
  truthy (getCachedData key s) = false ->
  truthy (getCachedData key s') = false.
Proof.
  unfold getCachedData. intros -> Hle H.
  destruct (queryCache s !! key) as [c|]; [|reflexivity].
  destruct (decide (now_ms s' - timestamp c < CACHE_DURATION)) as [Hfresh|Hold].
  - rewrite bool_decide_eq_true_2 by done.
    rewrite bool_decide_eq_true_2 in H by lia. exact H.
  - rewrite bool_decide_eq_false_2 by done. reflexivity.
Qed.

(** [debounceQuery], field by field. *)
Lemma debounceQuery_fields key q delay s :
  debounceQuery key q delay s =
    (next_id s,
     {| now_ms := now_ms s;
        queryCache := queryCache s;
        debounceMap := <[key := S (next_id s)]> (debounceMap s);
        timers :=
          schedule {| timer_id := S (next_id s); due := now_ms s + Z.max 0 delay;
                      timer_key := key; queryFn := q; timer_promise := next_id s |}
                   (match debounceMap s !! key with
                    | Some old => clearTimeout old (timers s)
                    | None => timers s
                    end);
        in_flight := in_flight s;
        promises := <[next_id s := Pending]> (promises s);
        awaiting := awaiting s;
        issued := issued s;
        console_out := console_out s;
        next_id := S (S (next_id s)) |}).
Proof. destruct s. reflexivity. Qed.

Lemma elapse_no_timer env ms s :
  timers s = [] -> step env (Elapse ms) s = advance ms s.
Proof.
  intros H. destruct s. cbn in *. subst. unfold step, fire_due, advance.
  fields. rewrite filter_nil. unfold with_timers. fields. rewrite filter_nil.
  reflexivity.
Qed.

(** Time passes and the one pending timer is not due yet. *)
Lemma elapse_early env ms t s :
  timers s = [t] -> now_ms s + Z.max 0 ms < due t ->
  step env (Elapse ms) s = advance ms s.
Proof.
  intros H Hlt. destruct s. cbn in *. subst. unfold step, fire_due, advance.
  fields. rewrite filter_one_drop by (cbn beta; lia). unfold with_timers. fields.
  rewrite filter_one_keep by (cbn beta; lia). reflexivity.
Qed.

(** Time passes and the one pending timer fires. *)
Lemma elapse_fires env ms t s :
  timers s = [t] -> due t <= now_ms s + Z.max 0 ms ->
  step env (Elapse ms) s =
    {| now_ms := now_ms s + Z.max 0 ms;
       queryCache := queryCache s;
       debounceMap := debounceMap s;
       timers := [];
       in_flight := in_flight s ++
                    [{| flight_id := next_id s; flight_key := timer_key t;
                        flight_promise := timer_promise t |}];
       promises := promises s;
       awaiting := awaiting s;
       issued := issued s ++ [queryFn t];
       console_out := console_out s;
       next_id := S (next_id s) |}.
Proof.
  intros H Hle. destruct s. cbn in *. subst. unfold step, fire_due, advance.
  fields. rewrite filter_one_keep by (cbn beta; lia). unfold with_timers. fields.
  rewrite filter_one_drop by (cbn beta; intros Hn; apply Hn; lia). reflexivity.
Qed.

(** The one request in flight settles. *)
Lemma complete_fields f r s :
  in_flight s = [f] ->
  complete (flight_id f) r s =
    resume (flight_promise f) r
      {| now_ms := now_ms s;
         queryCache := queryCache s;
         debounceMap := delete (flight_key f) (debounceMap s);
         timers := timers s;
         in_flight := [];
         promises := <[flight_promise f := settled_as r]> (promises s);
         awaiting := awaiting s;
         issued := issued s;
         console_out := console_out s;
         next_id := next_id s |}.
Proof.
  intros H. destruct s. cbn in *. subst. unfold complete. fields.
  cbn [List.find]. rewrite bool_decide_eq_true_2 by reflexivity.
  unfold with_flights. fields.
  rewrite filter_one_drop by (intros Hn; apply Hn; reflexivity).
  destruct r; reflexivity.
Qed.

Lemma resume_nobody p r s : awaiting s !! p = None -> resume p r s = s.
Proof. intros H. unfold resume. rewrite H. reflexivity. Qed.

(** The suspended [getVerifiedDoctors] call resumes. *)
Lemma resume_fields p r outer cacheKey s :
  awaiting s !! p = Some (outer, cacheKey) ->
  resume p r s =
    {| now_ms := now_ms s;
       queryCache :=
         match r with
         | inr v => <[cacheKey := {| entry_data := v; timestamp := now_ms s |}]>
                      (queryCache s)
         | inl _ => queryCache s
         end;
       debounceMap := debounceMap s;
       timers := timers s;
       in_flight := in_flight s;
       promises := <[outer := Fulfilled (doctors_or_empty r)]> (promises s);
       awaiting := delete p (awaiting s);
       issued := issued s;
       console_out :=
         match r with
         | inr _ => console_out s
         | inl e => console_out s ++
                      [(LError, [AStr "Get verified doctors error:"; AExn e])]
         end;
       next_id := next_id s |}.
Proof.
  intros H. unfold resume. rewrite H. destruct s, r; reflexivity.
Qed.

Lemma run_cons env ev evs s : run env (ev :: evs) s = run env evs (step env ev s).
Proof. reflexivity. Qed.

Lemma run_nil env s : run env [] s = s.
Proof. reflexivity. Qed.

Lemma step_reply env id r s : step env (Reply id r) s = complete id (unwrap r) s.
Proof. reflexivity. Qed.

Lemma now_advance ms s : now_ms (advance ms s) = now_ms s + Z.max 0 ms.
Proof. reflexivity. Qed.

Lemma queryCache_advance ms s : queryCache (advance ms s) = queryCache s.
Proof. reflexivity. Qed.

Section Steps.
Variable env : environment.

Lemma getVerifiedDoctors_unconfigured_fields s :
  isServiceConfigured env "supabase" = false ->
  getVerifiedDoctors env s =
    (next_id s,
     {| now_ms := now_ms s; queryCache := queryCache s;
        debounceMap := debounceMap s; timers := timers s;
        in_flight := in_flight s;
        promises := <[next_id s := Fulfilled (JArr [])]>
                      (<[next_id s := Pending]> (promises s));
        awaiting := awaiting s; issued := issued s;
        console_out := console_out s; next_id := S (next_id s) |}).
Proof.
  intros Hc. unfold getVerifiedDoctors. rewrite Hc. destruct s. reflexivity.
Qed.

Lemma getVerifiedDoctors_hit_fields s :
  isServiceConfigured env "supabase" = true ->
  truthy (getCachedData doctors_cache_key s) = true ->
  getVerifiedDoctors env s =
    (next_id s,
     {| now_ms := now_ms s; queryCache := queryCache s;
        debounceMap := debounceMap s; timers := timers s;
        in_flight := in_flight s;
        promises := <[next_id s := Fulfilled (getCachedData doctors_cache_key s)]>
                      (<[next_id s := Pending]> (promises s));
        awaiting := awaiting s; issued := issued s;
        console_out := console_out s; next_id := S (next_id s) |}).
Proof.
  intros Hc Hhit. unfold getVerifiedDoctors. rewrite Hc.
  destruct s as [now cache dm tms fl pr aw iss out n].
  cbn [new_promise negb fst snd next_id].
  change (getCachedData doctors_cache_key (bump (with_promises _ _)))
    with (getCachedData doctors_cache_key
            {| now_ms := now; queryCache := cache; debounceMap := dm;
               timers := tms; in_flight := fl; promises := pr;
               awaiting := aw; issued := iss; console_out := out;
               next_id := n |}).
  rewrite Hhit. reflexivity.
Qed.

Lemma getVerifiedDoctors_miss_fields s :
  isServiceConfigured env "supabase" = true ->
  truthy (getCachedData doctors_cache_key s) = false ->
  getVerifiedDoctors env s =
    (next_id s,
     {| now_ms := now_ms s; queryCache := queryCache s;
        debounceMap := <["verified_doctors" := S (S (next_id s))]> (debounceMap s);
        timers :=
          schedule {| timer_id := S (S (next_id s)); due := now_ms s + 300;
                      timer_key := "verified_doctors";
                      queryFn := verified_doctors_query;
                      timer_promise := S (next_id s) |}
                   (match debounceMap s !! "verified_doctors" with
                    | Some old => clearTimeout old (timers s)
                    | None => timers s
                    end);
        in_flight := in_flight s;
        promises := <[S (next_id s) := Pending]>
                      (<[next_id s := Pending]> (promises s));
        awaiting := <[S (next_id s) := (next_id s, doctors_cache_key)]> (awaiting s);
        issued := issued s; console_out := console_out s;
        next_id := S (S (S (next_id s))) |}).
Proof.
  intros Hc Hmiss. unfold getVerifiedDoctors. rewrite Hc.
  destruct s as [now cache dm tms fl pr aw iss out n].
  cbn [new_promise negb fst snd next_id].
  change (getCachedData doctors_cache_key (bump (with_promises _ _)))
    with (getCachedData doctors_cache_key
            {| now_ms := now; queryCache := cache; debounceMap := dm;
               timers := tms; in_flight := fl; promises := pr;
               awaiting := aw; issued := iss; console_out := out;
               next_id := n |}).
  rewrite Hmiss. rewrite debounceQuery_fields. reflexivity.
Qed.
End Steps.

(** *** Promises that can no longer settle *)

Lemma elem_of_schedule t t' ts : t' ∈ schedule t ts -> t' = t \/ t' ∈ ts.
Proof.
  induction ts as [|t0 ts IH]; cbn [schedule]; intros H.
  - apply list_elem_of_singleton in H. auto.
  - case_bool_decide.
    + apply elem_of_cons in H as [->|H]; [right; left|].
      destruct (IH H) as [->|Hin]; [auto | right; right; exact Hin].
    + apply elem_of_cons in H as [->|H]; auto.
Qed.

Lemma elem_of_cleared (dm : gmap string nat) key t ts :
  t ∈ match dm !! key with Some old => clearTimeout old ts | None => ts end ->
  t ∈ ts.
Proof.
  destruct (dm !! key); [|auto]. unfold clearTimeout. intros H.
  apply list_elem_of_filter in H as [_ H]. exact H.
Qed.

Lemma fire_all ready : forall s,
  let s' := fold_left (fun s t => fire t s) ready s in
  promises s' = promises s /\ awaiting s' = awaiting s /\
  timers s' = timers s /\ (next_id s <= next_id s')%nat /\
  forall f, f ∈ in_flight s' ->
            f ∈ in_flight s \/ exists t, t ∈ ready /\ flight_promise f = timer_promise t.
Proof.
  induction ready as [|t ready IH]; intros s; cbn [fold_left].
  - repeat split; auto.
  - destruct (IH (fire t s)) as (Hp & Ha & Ht & Hn & Hf). cbv zeta.
    rewrite Hp, Ha, Ht. destruct s. cbn in *. repeat split; try lia.
    intros f Hin. destruct (Hf f Hin) as [H|(t' & H1 & H2)].
    + apply elem_of_app in H as [H|H]; [left; exact H|].
      apply list_elem_of_singleton in H. subst f. right. exists t. split; [left|reflexivity].
    + right. exists t'. split; [right; exact H1 | exact H2].
Qed.

Section Frozen.
Variable env : environment.

Lemma frozen_debounceQuery n key q delay s :
  frozen n s ->
  frozen n (snd (debounceQuery key q delay s)) /\
  forall p, (p < n)%nat ->
            promises (snd (debounceQuery key q delay s)) !! p = promises s !! p.
Proof.
  intros (Hn & Ht & Hf & Ha). rewrite debounceQuery_fields. cbn [snd].
  unfold frozen. cbn. split; [split; [|split; [|split]]|].
  - lia.
  - intros t Hin. apply elem_of_schedule in Hin as [->|Hin]; [cbn; lia|].
    apply elem_of_cleared in Hin. auto.
  - exact Hf.
  - exact Ha.
  - intros p Hp. apply lookup_insert_ne. lia.
Qed.

Lemma frozen_complete n id r s :
  frozen n s ->
  frozen n (complete id r s) /\
  forall p, (p < n)%nat -> promises (complete id r s) !! p = promises s !! p.
Proof.
  intros (Hn & Ht & Hf & Ha). unfold complete.
  destruct (List.find _ (in_flight s)) as [f|] eqn:Hfind;
    [|repeat split; auto].
  apply List.find_some in Hfind as [Hin _]. apply list_elem_of_In in Hin.
  pose proof (Hf f Hin) as Hlive.
  destruct s as [now cache dm tms fl pr aw iss out nx]. cbn in *.
  unfold resume, with_flights, settle, with_promises, with_debounce. cbn.
  destruct (aw !! flight_promise f) as [[outer ck]|] eqn:Hw.
  - pose proof (Ha _ _ _ Hw Hlive) as Houter.
    assert (Hkeep : forall q outer' ck',
              delete (flight_promise f) aw !! q = Some (outer', ck') ->
              (n <= q)%nat -> (n <= outer')%nat).
    { intros q outer' ck' Hq. apply lookup_delete_Some in Hq as [_ Hq]. eauto. }
    unfold frozen. destruct r; cbn; (split; [split; [|split; [|split]]|]).
    all: first
      [ lia | exact Ht | exact Hkeep
      | solve [intros f' Hin'; apply list_elem_of_filter in Hin' as [_ Hin']; auto]
      | intros p Hp; rewrite !lookup_insert_ne by lia; reflexivity ].
  - unfold frozen. cbn. split; [split; [|split; [|split]]|].
    all: first
      [ lia | exact Ht | exact Ha
      | solve [intros f' Hin'; apply list_elem_of_filter in Hin' as [_ Hin']; auto]
      | intros p Hp; rewrite lookup_insert_ne by lia; reflexivity ].
Qed.

Lemma frozen_step n ev s :
  frozen n s ->
  frozen n (step env ev s) /\
  forall p, (p < n)%nat -> promises (step env ev s) !! p = promises s !! p.
Proof.
  intros Hfr. destruct ev as [key q delay| |ms|id r|id e]; cbn [step].
  - apply frozen_debounceQuery. exact Hfr.
  - destruct Hfr as (Hn & Ht & Hf & Ha).
    destruct (isServiceConfigured env "supabase") eqn:Hc.
    + destruct (truthy (getCachedData doctors_cache_key s)) eqn:Hhit.
      * rewrite getVerifiedDoctors_hit_fields by assumption. unfold frozen. cbn.
        repeat split; auto; try lia.
        intros p Hp. rewrite !lookup_insert_ne by lia. reflexivity.
      * rewrite getVerifiedDoctors_miss_fields by assumption. unfold frozen. cbn.
        split; [split; [|split; [|split]]|].
        -- lia.
        -- intros t Hin. apply elem_of_schedule in Hin as [->|Hin]; [cbn; lia|].
           apply elem_of_cleared in Hin. auto.
        -- exact Hf.
        -- intros q outer ck Hq Hle.
           destruct (decide (q = S (next_id s))) as [->|Hne].
           ++ rewrite lookup_insert_eq in Hq. inversion Hq. lia.
           ++ rewrite lookup_insert_ne in Hq by congruence. eauto.
        -- intros p Hp. rewrite !lookup_insert_ne by lia. reflexivity.
    + rewrite getVerifiedDoctors_unconfigured_fields by assumption. unfold frozen. cbn.
      repeat split; auto; try lia.
      intros p Hp. rewrite !lookup_insert_ne by lia. reflexivity.
  - destruct Hfr as (Hn & Ht & Hf & Ha). unfold fire_due.
    destruct (fire_all (filter (fun t => due t <= now_ms (advance ms s))
                               (timers (advance ms s)))
                (with_timers (filter (fun t => ¬ due t <= now_ms (advance ms s)))
                             (advance ms s)))
      as (Hp' & Ha' & Ht' & Hn' & Hf').
    cbv zeta in Hp', Ha', Ht', Hn', Hf'. split; [split; [|split; [|split]]|].
    + destruct s. cbn in *. lia.
    + rewrite Ht'. intros t Hin. destruct s. cbn in *.
      apply list_elem_of_filter in Hin as [_ Hin]. auto.
    + intros f Hin. destruct (Hf' f Hin) as [H|(t & H1 & H2)].
      * destruct s. cbn in *. auto.
      * rewrite H2. apply list_elem_of_filter in H1 as [_ H1].
        destruct s. cbn in *. auto.
    + rewrite Ha'. destruct s. cbn in *. exact Ha.
    + intros p Hp. rewrite Hp'. destruct s. reflexivity.
  - apply (frozen_complete n id (unwrap r) s Hfr).
  - apply (frozen_complete n id (inl e) s Hfr).
Qed.

Lemma frozen_run n evs : forall s,
  frozen n s ->
  frozen n (run env evs s) /\
  forall p, (p < n)%nat -> promises (run env evs s) !! p = promises s !! p.
Proof.
  induction evs as [|ev evs IH]; intros s Hfr.
  - split; [exact Hfr | reflexivity].
  - rewrite run_cons. destruct (frozen_step n ev s Hfr) as (Hfr' & Hsame).
    destruct (IH _ Hfr') as (Hfr'' & Hsame'). split; [exact Hfr''|].
    intros p Hp. rewrite Hsame', Hsame by exact Hp. reflexivity.
Qed.

(** With no timer pending and no request in flight, whatever comes next
    leaves every promise handed out so far as it is. *)
Lemma quiescent_promises_are_final evs s p :
  quiescent s -> (p < next_id s)%nat ->
  promises (run env evs s) !! p = promises s !! p.
Proof.
  intros (Ht & Hf & Hu) Hp.
  apply (frozen_run (next_id s) evs s); [|exact Hp].
  split; [lia|]. split; [|split].
  - intros t Hin. rewrite Ht in Hin. apply not_elem_of_nil in Hin. contradiction.
  - intros f Hin. rewrite Hf in Hin. apply not_elem_of_nil in Hin. contradiction.
  - intros q outer ck Hq Hle. rewrite Hu in Hq by exact Hle. discriminate.
Qed.
End Frozen.

(** *** What a burst of calls leaves behind *)

Lemma clear_one_other old t :
  timer_id t = old -> clearTimeout old [t] = [].
Proof.
  intros H. unfold clearTimeout.
  apply filter_one_drop. intros Hn. apply Hn. exact H.
Qed.

Lemma no_timer_to_clear (dm : gmap string nat) key :
  match dm !! key with Some old => clearTimeout old [] | None => [] end = [].
Proof. destruct (dm !! key); reflexivity. Qed.

Section Bursts.
Variable env : environment.

Lemma debounceQuery_quiescent key q s :
  quiescent s ->
  let s' := step env (CallDebounceQuery key q 300) s in
  armed key q (next_id s) None s' /\
  issued s' = issued s /\ queryCache s' = queryCache s /\
  now_ms s' = now_ms s /\ console_out s' = console_out s.
Proof.
  intros (Ht & Hf & Hu). cbv zeta. unfold step.
  rewrite debounceQuery_fields, Ht, no_timer_to_clear. fields.
  repeat split. exists (S (next_id s)). fields. repeat split.
  - apply lookup_insert_eq.
  - exact Hf.
  - apply lookup_insert_eq.
  - apply Hu. lia.
  - lia.
  - intros p Hp. fields. cbn [next_id] in Hp. apply Hu. lia.
Qed.

(** A call that comes before the pending timer is due cancels it and
    arms its own. *)
Lemma debounceQuery_supersedes key q p w earlier gap q' s :
  armed key q p w s -> all_pending earlier p s ->
  0 <= gap < 300 ->
  let s1 := step env (Elapse gap) s in
  let s' := step env (CallDebounceQuery key q' 300) s1 in
  handed s1 = next_id s /\
  armed key q' (next_id s) None s' /\
  all_pending (earlier ++ [p]) (next_id s) s' /\
  issued s' = issued s /\ queryCache s' = queryCache s /\
  console_out s' = console_out s.
Proof.
  intros (tid & Ht & Hd & Hf & Hp & Ha & Hlt & Hu) Hall Hgap. cbv zeta.
  rewrite (elapse_early env gap _ s Ht) by (fields; lia).
  unfold step, handed. rewrite debounceQuery_fields. unfold advance. fields.
  rewrite Ht, Hd, clear_one_other by reflexivity.
  split; [reflexivity|]. split; [|split; [|auto]].
  - exists (S (next_id s)). fields. rewrite (Z.max_r 0 gap) by lia.
    repeat split.
    + apply lookup_insert_eq.
    + exact Hf.
    + apply lookup_insert_eq.
    + apply Hu. lia.
    + lia.
    + intros p0 Hp0. fields. cbn [next_id] in Hp0. apply Hu. lia.
  - unfold all_pending in *. fields. apply Forall_app. split.
    + eapply Forall_impl; [exact Hall|]. cbn beta. intros p0 [H1 H2].
      split; [|lia]. rewrite lookup_insert_ne by lia. exact H1.
    + apply Forall_singleton. split; [|lia].
      rewrite lookup_insert_ne by lia. exact Hp.
Qed.

(** Once the delay has passed the pending timer fires and sends its
    request. *)
Lemma armed_fires key q p w d s :
  armed key q p w s -> 300 <= d ->
  let s' := step env (Elapse d) s in
  timers s' = [] /\
  in_flight s' = [{| flight_id := next_id s; flight_key := key;
                     flight_promise := p |}] /\
  issued s' = issued s ++ [q] /\
  promises s' = promises s /\ awaiting s' = awaiting s /\
  queryCache s' = queryCache s /\ console_out s' = console_out s /\
  now_ms s' = now_ms s + d /\ next_id s' = S (next_id s).
Proof.
  intros (tid & Ht & Hd & Hf & Hp & Ha & Hlt & Hu) Hlate. cbv zeta.
  rewrite (elapse_fires env d _ s Ht) by (fields; lia). fields.
  rewrite Hf, Z.max_r by lia. repeat split.
Qed.

(** When the one request in flight settles, its promise settles with it,
    and nothing else happens if no call is suspended on that promise. *)
Lemma flight_completes f r s :
  in_flight s = [f] -> awaiting s !! flight_promise f = None ->
  let s' := complete (flight_id f) r s in
  promises s' = <[flight_promise f := settled_as r]> (promises s) /\
  in_flight s' = [] /\ timers s' = timers s /\ issued s' = issued s /\
  queryCache s' = queryCache s /\ console_out s' = console_out s /\
  awaiting s' = awaiting s /\ next_id s' = next_id s.
Proof.
  intros Hf Ha. cbv zeta. rewrite complete_fields by exact Hf.
  rewrite resume_nobody by exact Ha. repeat split.
Qed.

(** When a [getVerifiedDoctors] call is suspended on it, that call
    resumes: it caches and returns the result, or logs the error and
    returns the empty list. *)
Lemma flight_completes_awaited f r outer cacheKey s :
  in_flight s = [f] -> awaiting s !! flight_promise f = Some (outer, cacheKey) ->
  let s' := complete (flight_id f) r s in
  promises s'
    = <[outer := Fulfilled (doctors_or_empty r)]>
        (<[flight_promise f := settled_as r]> (promises s)) /\
  queryCache s'
    = match r with
      | inr v => <[cacheKey := {| entry_data := v; timestamp := now_ms s |}]>
                   (queryCache s)
      | inl _ => queryCache s
      end /\
  console_out s'
    = match r with
      | inr _ => console_out s
      | inl e => console_out s ++
                   [(LError, [AStr "Get verified doctors error:"; AExn e])]
      end /\
  in_flight s' = [] /\ timers s' = timers s /\ issued s' = issued s /\
  now_ms s' = now_ms s /\ next_id s' = next_id s /\
  awaiting s' = delete (flight_promise f) (awaiting s).
Proof.
  intros Hf Ha. cbv zeta. rewrite complete_fields by exact Hf.
  rewrite (resume_fields _ _ outer cacheKey) by exact Ha.
  repeat split.
Qed.

(** However many calls follow within the delay of the one before, one
    timer stays pending: that of the last call. *)
Lemma burst_keeps_one_timer key rest : forall q p w earlier s,
  armed key q p w s -> all_pending earlier p s ->
  Forall (fun gq => 0 <= fst gq < 300) rest ->
  exists ps s1 earlier' winner w',
    session env (burst key rest) s = (ps, s1) /\
    earlier ++ p :: ps = earlier' ++ [winner] /\
    armed key (List.last (map snd rest) q) winner w' s1 /\
    (w' = None \/ rest = [] /\ w' = w) /\
    all_pending earlier' winner s1 /\
    issued s1 = issued s /\ queryCache s1 = queryCache s /\
    console_out s1 = console_out s.
Proof.
  induction rest as [|[gap q1] rest IH]; intros q p w earlier s Harmed Hall Hgaps.
  - exists [], s, earlier, p, w. cbn [burst flat_map session map List.last].
    repeat split; auto.
  - apply Forall_cons in Hgaps as [Hgap Hgaps]. cbn [fst] in Hgap.
    destruct (debounceQuery_supersedes key q p w earlier gap q1 s Harmed Hall Hgap)
      as (Hh & Harmed' & Hall' & Hi & Hc & Ho).
    destruct (IH q1 (next_id s) None (earlier ++ [p]) _ Harmed' Hall' Hgaps)
      as (ps & s1 & earlier' & winner & w' & Hs & Hsplit & Ha & Hw & Hp & Hi' & Hc' & Ho').
    exists (next_id s :: ps), s1, earlier', winner, w'.
    cbn [burst flat_map app session returns_promise fst snd].
    fold (burst key rest). rewrite Hs, Hh.
    rewrite <- app_assoc in Hsplit. cbn [app] in Hsplit.
    cbn [map snd]. rewrite last_cons.
    repeat split; try assumption; try congruence.
    left. destruct Hw as [?|[_ ?]]; assumption.
Qed.

Lemma debounced_burst key q0 rest s0 d :
  quiescent s0 ->
  Forall (fun gq => 0 <= fst gq < 300) rest ->
  300 <= d ->
  exists ps s1 earlier winner f,
    session env (CallDebounceQuery key q0 300 :: burst key rest) s0 = (ps, s1) /\
    ps = earlier ++ [winner] /\
    issued s1 = issued s0 /\
    let s2 := step env (Elapse d) s1 in
    issued s2 = issued s0 ++ [List.last (map snd rest) q0] /\
    timers s2 = [] /\ in_flight s2 = [f] /\ flight_promise f = winner /\
    forall r,
      let s3 := step env (Reply (flight_id f) r) s2 in
      issued s3 = issued s2 /\ timers s3 = [] /\ in_flight s3 = [] /\
      promises s3 !! winner = Some (settled_as (unwrap r)) /\
      forall evs,
        Forall (fun p => promises (run env evs s3) !! p = Some Pending) earlier.
Proof.
  intros Hq Hgaps Hd.
  destruct (debounceQuery_quiescent key q0 s0 Hq) as (Harmed & Hi & Hc & Hn & Ho).
  destruct (burst_keeps_one_timer key rest q0 (next_id s0) None [] _ Harmed
              (Forall_nil_2 _) Hgaps)
    as (ps & s1 & earlier & winner & w' & Hs & Hsplit & Ha & Hw & Hp & Hi' & Hc' & Ho').
  assert (w' = None) as -> by (destruct Hw as [?|[_ ?]]; assumption).
  destruct (armed_fires key _ winner None d s1 Ha Hd)
    as (Ht2 & Hf2 & Hi2 & Hp2 & Ha2 & _ & _ & _ & Hid2).
  exists (next_id s0 :: ps), s1, earlier, winner,
    {| flight_id := next_id s1; flight_key := key; flight_promise := winner |}.
  cbn [session returns_promise]. rewrite Hs. unfold handed.
  split; [reflexivity|]. split; [exact Hsplit|]. split; [congruence|].
  cbv zeta. split; [rewrite Hi2; congruence|].
  split; [exact Ht2|]. split; [exact Hf2|]. split; [reflexivity|].
  intros r. rewrite step_reply.
  destruct Ha as (tid & _ & _ & _ & _ & Haw & Hwlt & Hu1).
  destruct (flight_completes _ (unwrap r) _ Hf2)
    as (Hp3 & Hf3 & Ht3 & Hi3 & _ & _ & Ha3 & Hid3).
  { fields. rewrite Ha2. exact Haw. }
  fields in Hp3. fields in Hf3. fields in Ht3. fields in Hi3. fields in Ha3.
  fields in Hid3. fields.
  remember (complete (next_id s1) (unwrap r) (step env (Elapse d) s1)) as s3 eqn:E.
  clear E.
  assert (Hq3 : quiescent s3).
  { split; [congruence|]. split; [exact Hf3|].
    intros p Hle. rewrite Ha3, Ha2. apply Hu1. lia. }
  split; [exact Hi3|]. split; [congruence|]. split; [exact Hf3|].
  split; [rewrite Hp3, Hp2; apply lookup_insert_eq|].
  intros evs. eapply Forall_impl; [exact Hp|]. cbn beta. intros p [H1 H2].
  rewrite (quiescent_promises_are_final env evs s3 p Hq3) by lia.
  rewrite Hp3, Hp2, lookup_insert_ne by lia. exact H1.
Qed.
End Bursts.

(** *** getVerifiedDoctors *)

Section Doctors.
Variable env : environment.

Lemma getVerifiedDoctors_unconfigured s :
  isServiceConfigured env "supabase" = false ->
  let s' := step env CallGetVerifiedDoctors s in
  promises s' !! handed s = Some (Fulfilled (JArr [])) /\
  issued s' = issued s /\ timers s' = timers s /\ in_flight s' = in_flight s /\
  queryCache s' = queryCache s /\ debounceMap s' = debounceMap s /\
  console_out s' = console_out s.
Proof.
  intros Hc. cbv zeta. unfold step, handed.
  rewrite getVerifiedDoctors_unconfigured_fields by exact Hc. fields.
  repeat split. apply lookup_insert_eq.
Qed.

(** A fresh, truthy cache entry is returned at once. *)
Lemma getVerifiedDoctors_hit s cached :
  isServiceConfigured env "supabase" = true ->
  queryCache s !! doctors_cache_key = Some cached ->
  now_ms s - timestamp cached < CACHE_DURATION ->
  truthy (entry_data cached) = true ->
  let s' := step env CallGetVerifiedDoctors s in
  promises s' !! handed s = Some (Fulfilled (entry_data cached)) /\
  issued s' = issued s /\ timers s' = timers s /\ in_flight s' = in_flight s /\
  queryCache s' = queryCache s /\ debounceMap s' = debounceMap s /\
  now_ms s' = now_ms s.
Proof.
  intros Hc Hcache Hfresh Htruthy. cbv zeta. unfold step, handed.
  assert (Hget : getCachedData doctors_cache_key s = entry_data cached).
  { unfold getCachedData. rewrite Hcache, bool_decide_eq_true_2 by done.
    reflexivity. }
  rewrite getVerifiedDoctors_hit_fields by (exact Hc || (rewrite Hget; exact Htruthy)).
  fields. rewrite Hget. repeat split. apply lookup_insert_eq.
Qed.

(** Without one, the call goes through [debounceQuery] and suspends. *)
Lemma getVerifiedDoctors_miss s :
  isServiceConfigured env "supabase" = true ->
  quiescent s ->
  truthy (getCachedData doctors_cache_key s) = false ->
  let s' := step env CallGetVerifiedDoctors s in
  armed "verified_doctors" verified_doctors_query (S (next_id s))
        (Some (next_id s, doctors_cache_key)) s' /\
  all_pending [next_id s] (S (next_id s)) s' /\
  issued s' = issued s /\ queryCache s' = queryCache s /\
  now_ms s' = now_ms s /\ console_out s' = console_out s.
Proof.
  intros Hc (Ht & Hf & Hu) Hstale. cbv zeta. unfold step.
  rewrite getVerifiedDoctors_miss_fields by assumption. fields.
  rewrite Ht, no_timer_to_clear.
  split; [|split; [|auto]].
  - exists (S (S (next_id s))). fields. repeat split.
    + apply lookup_insert_eq.
    + exact Hf.
    + apply lookup_insert_eq.
    + apply lookup_insert_eq.
    + lia.
    + intros p Hp. fields. cbn [next_id] in Hp.
      rewrite lookup_insert_ne by lia. apply Hu. lia.
  - apply Forall_singleton. fields. split; [|lia].
    rewrite lookup_insert_ne by lia. apply lookup_insert_eq.
Qed.

Lemma getVerifiedDoctors_supersedes q p w earlier gap s :
  isServiceConfigured env "supabase" = true ->
  armed "verified_doctors" q p w s -> all_pending earlier p s ->
  truthy (getCachedData doctors_cache_key s) = false ->
  0 <= gap < 300 ->
  let s1 := step env (Elapse gap) s in
  let s' := step env CallGetVerifiedDoctors s1 in
  handed s1 = next_id s /\
  armed "verified_doctors" verified_doctors_query (S (next_id s))
        (Some (next_id s, doctors_cache_key)) s' /\
  all_pending (earlier ++ [p; next_id s]) (S (next_id s)) s' /\
  issued s' = issued s /\ queryCache s' = queryCache s /\
  console_out s' = console_out s /\ now_ms s' = now_ms s + gap.
Proof.
  intros Hc (tid & Ht & Hd & Hf & Hp & Ha & Hlt & Hu) Hall Hstale Hgap. cbv zeta.
  rewrite (elapse_early env gap _ s Ht) by (fields; lia).
  assert (Hstale' : truthy (getCachedData doctors_cache_key (advance gap s)) = false).
  { apply (stale_stays _ s (advance gap s)); [reflexivity | | exact Hstale].
    rewrite now_advance. lia. }
  unfold step, handed.
  rewrite getVerifiedDoctors_miss_fields by assumption.
  unfold advance. fields. rewrite Ht, Hd, clear_one_other by reflexivity.
  rewrite (Z.max_r 0 gap) by lia.
  split; [reflexivity|]. split; [|split; [|auto]].
  - exists (S (S (next_id s))). fields. repeat split.
    + apply lookup_insert_eq.
    + exact Hf.
    + apply lookup_insert_eq.
    + apply lookup_insert_eq.
    + lia.
    + intros p0 Hp0. fields. cbn [next_id] in Hp0.
      rewrite lookup_insert_ne by lia. apply Hu. lia.
  - unfold all_pending in *. fields. apply Forall_app. split.
    + eapply Forall_impl; [exact Hall|]. cbn beta. intros p0 [H1 H2].
      split; [|lia]. rewrite !lookup_insert_ne by lia. exact H1.
    + repeat apply Forall_cons_2; [| |apply Forall_nil_2]; (split; [|lia]).
      * rewrite !lookup_insert_ne by lia. exact Hp.
      * rewrite lookup_insert_ne by lia. apply lookup_insert_eq.
Qed.

Lemma quiescent_advance ms s : quiescent s -> quiescent (advance ms s).
Proof. intros H. exact H. Qed.

(** One call on its own, from the call to the reply. *)
Lemma getVerifiedDoctors_round s d :
  isServiceConfigured env "supabase" = true ->
  quiescent s ->
  truthy (getCachedData doctors_cache_key s) = false ->
  300 <= d ->
  let s2 := step env (Elapse d) (step env CallGetVerifiedDoctors s) in
  exists f,
    in_flight s2 = [f] /\ timers s2 = [] /\
    issued s2 = issued s ++ [verified_doctors_query] /\
    forall r,
      let s3 := complete (flight_id f) r s2 in
      promises s3 !! handed s = Some (Fulfilled (doctors_or_empty r)) /\
      queryCache s3
        = match r with
          | inr v => <[doctors_cache_key :=
                         {| entry_data := v; timestamp := now_ms s + d |}]>
                       (queryCache s)
          | inl _ => queryCache s
          end /\
      console_out s3
        = match r with
          | inr _ => console_out s
          | inl e => console_out s ++
                       [(LError, [AStr "Get verified doctors error:"; AExn e])]
          end /\
      issued s3 = issued s2 /\ now_ms s3 = now_ms s + d /\ quiescent s3.
Proof.
  intros Hc Hq Hstale Hd.
  destruct (getVerifiedDoctors_miss s Hc Hq Hstale)
    as (Harmed & Hall & Hi & Hca & Hn & Ho).
  destruct (armed_fires env _ _ _ _ d _ Harmed Hd)
    as (Ht2 & Hf2 & Hi2 & Hp2 & Ha2 & Hc2 & Ho2 & Hn2 & Hid2).
  cbv zeta. eexists. split; [exact Hf2|]. split; [exact Ht2|].
  split; [congruence|]. intros r.
  destruct Harmed as (tid & _ & _ & _ & _ & Haw & Hlt & Hu).
  edestruct (flight_completes_awaited _ r (next_id s) doctors_cache_key _ Hf2)
    as (Hp3 & Hc3 & Ho3 & Hf3 & Ht3 & Hi3 & Hn3 & Hid3 & Ha3).
  { fields. rewrite Ha2. exact Haw. }
  fields in Hp3. fields in Hc3. fields in Ho3. fields in Hf3. fields in Hi3.
  fields in Hn3. fields in Ha3. fields in Hid3. fields.
  unfold handed. rewrite Hp3, Hc3, Ho3, Hn3, Hn2, Hn, Hc2, Hca, Ho2, Ho.
  split; [apply lookup_insert_eq|]. split; [reflexivity|].
  split; [reflexivity|]. split; [exact Hi3|]. split; [reflexivity|].
  fields in Ht3. unfold quiescent.
  split; [congruence|]. split; [exact Hf3|].
  intros p Hp. rewrite Ha3, Ha2. rewrite Hid3, Hid2 in Hp.
  apply lookup_delete_None. right. apply Hu. lia.
Qed.

(** Two calls less than the delay apart: the first one's timer is
    cancelled, the second one's sends the query. *)
Lemma getVerifiedDoctors_twice s0 gap d :
  isServiceConfigured env "supabase" = true ->
  quiescent s0 ->
  truthy (getCachedData doctors_cache_key s0) = false ->
  0 <= gap < 300 -> 300 <= d ->
  exists first second s1 f,
    session env [CallGetVerifiedDoctors; Elapse gap; CallGetVerifiedDoctors] s0
      = ([first; second], s1) /\
    issued s1 = issued s0 /\
    let s2 := step env (Elapse d) s1 in
    issued s2 = issued s0 ++ [verified_doctors_query] /\
    timers s2 = [] /\ in_flight s2 = [f] /\
    forall r,
      let s3 := step env (Reply (flight_id f) r) s2 in
      issued s3 = issued s2 /\ timers s3 = [] /\ in_flight s3 = [] /\
      promises s3 !! second = Some (Fulfilled (doctors_or_empty (unwrap r))) /\
      forall evs, promises (run env evs s3) !! first = Some Pending.
Proof.
  intros Hc Hq Hstale Hgap Hd.
  destruct (getVerifiedDoctors_miss s0 Hc Hq Hstale)
    as (Harmed & Hall & Hi & Hca & Hn & Ho).
  assert (Hstale1 : truthy (getCachedData doctors_cache_key
                              (step env CallGetVerifiedDoctors s0)) = false).
  { apply (stale_stays _ s0 _ Hca); [lia | exact Hstale]. }
  destruct (getVerifiedDoctors_supersedes _ _ _ _ gap _ Hc Harmed Hall Hstale1 Hgap)
    as (Hh & Harmed' & Hall' & Hi' & Hca' & Ho' & Hn').
  destruct (armed_fires env _ _ _ _ d _ Harmed' Hd)
    as (Ht2 & Hf2 & Hi2 & Hp2 & Ha2 & _ & _ & _ & Hid2).
  do 3 eexists. eexists. split.
  { cbn [session returns_promise]. rewrite Hh. unfold handed. reflexivity. }
  split; [congruence|]. cbv zeta. split; [congruence|].
  split; [exact Ht2|]. split; [exact Hf2|]. intros r. rewrite step_reply.
  pose proof Harmed' as (tid & _ & _ & _ & _ & Haw & Hlt' & Hu').
  edestruct (flight_completes_awaited _ (unwrap r)
               (next_id (step env CallGetVerifiedDoctors s0)) doctors_cache_key _ Hf2)
    as (Hp3 & _ & _ & Hf3 & Ht3 & Hi3 & _ & Hid3 & Ha3).
  { fields. rewrite Ha2. exact Haw. }
  fields in Hp3. fields in Hf3. fields in Ht3. fields in Hi3. fields in Hid3.
  fields in Ha3. fields.
  apply Forall_cons in Hall' as [[Hfirst Hlt] Hrest]. cbn [app] in Hrest.
  apply Forall_cons in Hrest as [_ Hrest].
  apply Forall_cons in Hrest as [[_ Hlt2] _].
  destruct Harmed as (_ & _ & _ & _ & _ & _ & Hlt1 & _).
  apply Forall_cons in Hall as [[_ Hlt0] _].
  set (s1 := step env CallGetVerifiedDoctors
               (step env (Elapse gap) (step env CallGetVerifiedDoctors s0))) in *.
  remember (complete (next_id s1) (unwrap r) (step env (Elapse d) s1)) as s3 eqn:E.
  clear E.
  assert (Hq3 : quiescent s3).
  { split; [congruence|]. split; [exact Hf3|].
    intros p Hle. rewrite Ha3, Ha2. apply lookup_delete_None. right.
    apply Hu'. lia. }
  split; [exact Hi3|]. split; [congruence|]. split; [exact Hf3|].
  split; [rewrite Hp3, Hp2; apply lookup_insert_eq|].
  intros evs. rewrite (quiescent_promises_are_final env evs s3 _ Hq3) by lia.
  rewrite Hp3, Hp2, !lookup_insert_ne by lia. exact Hfirst.
Qed.
End Doctors.

(** *** The claims about the read path *)

Lemma quiescent_boot t0 : quiescent (boot t0).
Proof. split; [reflexivity|]. split; [reflexivity|]. intros p _. apply lookup_empty. Qed.

Lemma stale_boot t0 : truthy (getCachedData doctors_cache_key (boot t0)) = false.
Proof. reflexivity. Qed.

(** What [debounceQuery] does with a burst: starting with no timer pending
    and no request in flight, of the calls for one key that each come less
    than 300 ms after the one before, only the last one's query is sent,
    once, and only the last caller's promise settles, with the outcome of
    that query; nothing settles the promises of the earlier callers.  So
    of two [getVerifiedDoctors] calls less than 300 ms apart (service
    configured, no fresh cache entry) one query for the verified doctors
    by descending rating is sent and the second caller receives its
    result, while the first caller is left waiting. *)
Theorem debounce_runs_the_last_call_only env :
  (forall key q0 rest s0 d,
     quiescent s0 ->
     Forall (fun gq => 0 <= fst gq < 300) rest ->
     300 <= d ->
     exists ps s1 earlier winner f,
       session env (CallDebounceQuery key q0 300 :: burst key rest) s0 = (ps, s1) /\
       ps = earlier ++ [winner] /\
       issued s1 = issued s0 /\
       let s2 := step env (Elapse d) s1 in
       issued s2 = issued s0 ++ [List.last (map snd rest) q0] /\
       timers s2 = [] /\ in_flight s2 = [f] /\ flight_promise f = winner /\
       forall r,
         let s3 := step env (Reply (flight_id f) r) s2 in
         issued s3 = issued s2 /\ timers s3 = [] /\ in_flight s3 = [] /\
         promises s3 !! winner = Some (settled_as (unwrap r)) /\
         forall evs,
           Forall (fun p => promises (run env evs s3) !! p = Some Pending) earlier) /\
  (forall s0 gap d,
     isServiceConfigured env "supabase" = true ->
     quiescent s0 ->
     truthy (getCachedData doctors_cache_key s0) = false ->
     0 <= gap < 300 -> 300 <= d ->
     exists first second s1 f,
       session env [CallGetVerifiedDoctors; Elapse gap; CallGetVerifiedDoctors] s0
         = ([first; second], s1) /\
       issued s1 = issued s0 /\
       let s2 := step env (Elapse d) s1 in
       issued s2 = issued s0 ++ [verified_doctors_query] /\
       timers s2 = [] /\ in_flight s2 = [f] /\
       forall r,
         let s3 := step env (Reply (flight_id f) r) s2 in
         issued s3 = issued s2 /\ timers s3 = [] /\ in_flight s3 = [] /\
         promises s3 !! second = Some (Fulfilled (doctors_or_empty (unwrap r))) /\
         forall evs, promises (run env evs s3) !! first = Some Pending).
Proof.
  split.
  - intros. apply debounced_burst; assumption.
  - intros. apply getVerifiedDoctors_twice; assumption.
Qed.

Lemma debounce_runs_the_last_call_only_witness :
  exists ps s1,
    session (online never_replies)
      (CallDebounceQuery "verified_doctors" verified_doctors_query 300
       :: burst "verified_doctors"
            [(120, verified_doctors_query); (250, verified_doctors_query)])
      (boot 0) = (ps, s1) /\
    issued (step (online never_replies) (Elapse 300) s1) = [verified_doctors_query].
Proof.
  destruct (proj1 (debounce_runs_the_last_call_only (online never_replies))
              "verified_doctors" verified_doctors_query
              [(120, verified_doctors_query); (250, verified_doctors_query)]
              (boot 0) 300)
    as (ps & s1 & earlier & winner & f & Hs & _ & _ & Hi & _).
  - apply quiescent_boot.
  - repeat constructor; simpl; lia.
  - lia.
  - exists ps, s1. split; [exact Hs | exact Hi].
Defined.

(** Claim C1 (a defect of the code): two callers of [getVerifiedDoctors]
    100 ms apart, service configured, nothing cached.  One query is sent,
    as the claim says, and it is answered with a list of two doctors; the
    second caller receives that list, but the first caller's promise is
    still pending ten minutes later, where the claim has both callers
    receive the list.  [debounceQuery] clears the first caller's timer
    and leaves the promise it made for that caller without anyone to
    settle it, so the [await] in that caller's [getVerifiedDoctors],
    inside a [try]/[catch] written to return a list in every case, does
    not return. *)
Lemma first_of_two_callers_is_left_pending :
  let '(ps, s) :=
    session (online never_replies)
      [CallGetVerifiedDoctors; Elapse 100; CallGetVerifiedDoctors; Elapse 300;
       Reply 6 (success two_doctors); Elapse 600000] (boot 0) in
  ps = [0; 3]%nat /\
  issued s = [verified_doctors_query] /\
  promises s !! 3%nat = Some (Fulfilled two_doctors) /\
  promises s !! 0%nat = Some Pending /\
  ¬ Forall (fun p => promises s !! p = Some (Fulfilled two_doctors)) ps.
Proof.
  vm_compute. repeat split. intros H. inversion H as [|? ? H0 _]. discriminate H0.
Qed.

(** A second defect of [debounceQuery]: the completion of an older request
    removes the key from [debounceMap] although a newer timer is registered
    under it, so the next call does not cancel that timer and two calls
    100 ms apart are both sent. *)
Lemma completion_forgets_newer_timer :
  let q := verified_doctors_query in
  let s := run (online never_replies)
             [CallDebounceQuery "k" q 300; Elapse 300;
              CallDebounceQuery "k" q 300; Reply 2 (success two_doctors);
              Elapse 100; CallDebounceQuery "k" q 300; Elapse 300] (boot 0) in
  issued s = [q; q; q].
Proof. vm_compute. reflexivity. Qed.

(** Claim C4: once a [getVerifiedDoctors] call has succeeded with a list, a call
    made less than five minutes after the list was stored is answered at
    once from the cache with the same list, and nothing is sent; a call made
    five minutes or more after sends one query, whose result is stored
    under the time of its arrival and returned. *)
Theorem cache_serves_for_five_minutes env s0 d r docs :
  isServiceConfigured env "supabase" = true ->
  quiescent s0 ->
  truthy (getCachedData doctors_cache_key s0) = false ->
  300 <= d ->
  error r = None -> data r = JArr docs ->
  exists f,
    in_flight (run env [CallGetVerifiedDoctors; Elapse d] s0) = [f] /\
    let s1 := run env [CallGetVerifiedDoctors; Elapse d; Reply (flight_id f) r] s0 in
    promises s1 !! handed s0 = Some (Fulfilled (JArr docs)) /\
    issued s1 = issued s0 ++ [verified_doctors_query] /\
    queryCache s1 !! doctors_cache_key
      = Some {| entry_data := JArr docs; timestamp := now_ms s1 |} /\
    (forall g,
       g < CACHE_DURATION ->
       let s2 := step env (Elapse g) s1 in
       let s3 := step env CallGetVerifiedDoctors s2 in
       promises s3 !! handed s2 = Some (Fulfilled (JArr docs)) /\
       issued s3 = issued s1 /\ timers s3 = [] /\ in_flight s3 = []) /\
    (forall g d',
       CACHE_DURATION <= g -> 300 <= d' ->
       let s2 := step env (Elapse g) s1 in
       let s4 := run env [CallGetVerifiedDoctors; Elapse d'] s2 in
       exists f',
         in_flight s4 = [f'] /\
         issued s4 = issued s1 ++ [verified_doctors_query] /\
         forall r',
           error r' = None ->
           let s5 := step env (Reply (flight_id f') r') s4 in
           issued s5 = issued s4 /\
           promises s5 !! handed s2 = Some (Fulfilled (data r')) /\
           queryCache s5 !! doctors_cache_key
             = Some {| entry_data := data r'; timestamp := now_ms s5 |}).
Proof.
  intros Hc Hq Hstale Hd Herr Hdata.
  destruct (getVerifiedDoctors_round env s0 d Hc Hq Hstale Hd)
    as (f & Hf & Ht & Hi & Hdone).
  exists f. split; [exact Hf|]. cbv zeta.
  rewrite !run_cons, run_nil, step_reply.
  assert (Hun : unwrap r = inr (JArr docs)).
  { unfold unwrap. rewrite Herr, Hdata. reflexivity. }
  rewrite Hun.
  destruct (Hdone (inr (JArr docs))) as (Hp1 & Hc1 & Ho1 & Hi1 & Hn1 & Hq1).
  cbv zeta in Hp1, Hc1, Ho1, Hi1, Hn1, Hq1. clear Hdone.
  remember (complete (flight_id f) (inr (JArr docs))
              (step env (Elapse d) (step env CallGetVerifiedDoctors s0))) as s1 eqn:E.
  clear E.
  split; [exact Hp1|]. split; [congruence|].
  split; [rewrite Hc1, Hn1; apply lookup_insert_eq|].
  destruct Hq1 as (Ht1 & Hf1 & Hu1). split.
  - intros g Hg. rewrite (elapse_no_timer env g s1 Ht1).
    edestruct (getVerifiedDoctors_hit env (advance g s1)) as (Hp & Hi3 & Ht3 & Hf3 & _).
    + exact Hc.
    + rewrite queryCache_advance, Hc1. apply lookup_insert_eq.
    + rewrite now_advance, Hn1. cbn [timestamp]. unfold CACHE_DURATION in *. lia.
    + reflexivity.
    + split; [exact Hp|]. split; [exact Hi3|].
      split; [rewrite Ht3; exact Ht1 | rewrite Hf3; exact Hf1].
  - intros g d' Hg Hd'. rewrite (elapse_no_timer env g s1 Ht1).
    destruct (getVerifiedDoctors_round env (advance g s1) d' Hc)
      as (f' & Hf' & Ht' & Hi' & Hdone').
    + apply quiescent_advance. repeat split; assumption.
    + unfold getCachedData. rewrite queryCache_advance, now_advance, Hc1, Hn1.
      rewrite lookup_insert_eq. cbn [timestamp entry_data].
      rewrite bool_decide_eq_false_2; [reflexivity|].
      unfold CACHE_DURATION in *. lia.
    + exact Hd'.
    + exists f'. rewrite !run_cons, run_nil. split; [exact Hf'|].
      split; [exact Hi'|].
      intros r' Herr'. rewrite step_reply.
      assert (Hun' : unwrap r' = inr (data r'))
        by (unfold unwrap; rewrite Herr'; reflexivity).
      rewrite Hun'.
      destruct (Hdone' (inr (data r'))) as (Hp5 & Hc5 & _ & Hi5 & Hn5 & _).
      cbv zeta in Hp5, Hc5, Hi5, Hn5.
      split; [exact Hi5|]. split; [exact Hp5|].
      rewrite Hc5, Hn5. apply lookup_insert_eq.
Qed.

Lemma cache_serves_for_five_minutes_witness :
  exists f,
    in_flight (run (online never_replies) [CallGetVerifiedDoctors; Elapse 300] (boot 0))
      = [f] /\
    let s1 := run (online never_replies)
                [CallGetVerifiedDoctors; Elapse 300;
                 Reply (flight_id f) (success two_doctors)] (boot 0) in
    promises s1 !! handed (boot 0) = Some (Fulfilled two_doctors) /\
    issued s1 = [verified_doctors_query].
Proof.
  destruct (cache_serves_for_five_minutes (online never_replies) (boot 0) 300
              (success two_doctors)
              [JObj [("name", JStr "Dr. Rao"); ("rating", JNum 5)];
               JObj [("name", JStr "Dr. Iyer"); ("rating", JNum 4)]])
    as (f & Hf & Hp & Hi & _).
  - reflexivity.
  - apply quiescent_boot.
  - apply stale_boot.
  - lia.
  - reflexivity.
  - reflexivity.
  - exists f. split; [exact Hf|]. split; [exact Hp | exact Hi].
Defined.

(** Claim C3: with the configuration absent, [getVerifiedDoctors] resolves with
    the empty list, [getCurrentUser] with null and the initial session
    fetch finds no session, none of them handing anything to the real
    client or raising; the two profile lookups raise
    [Error "Supabase not configured"]. *)
Theorem unconfigured_reads_stay_local env :
  isServiceConfigured env "supabase" = false ->
  (forall s,
     let s' := step env CallGetVerifiedDoctors s in
     promises s' !! handed s = Some (Fulfilled (JArr [])) /\
     issued s' = issued s /\ timers s' = timers s /\ in_flight s' = in_flight s /\
     console_out s' = console_out s) /\
  (forall w, authService_getCurrentUser env w = (Returns JNull, w)) /\
  (forall userId w,
     getPatientProfile env userId w = (Throws (Error "Supabase not configured"), w)) /\
  (forall userId w,
     getDoctorProfile env userId w = (Throws (Error "Supabase not configured"), w)) /\
  (forall w,
     getInitialSession env w = (Returns tt, with_effect w (SetLoading false))).
Proof.
  intros Hc. split; [|split; [|split; [|split]]].
  - intros s. destruct (getVerifiedDoctors_unconfigured env s Hc)
      as (Hp & Hi & Ht & Hf & _ & _ & Ho). auto.
  - intros w. facade. rewrite Hc. reflexivity.
  - intros userId w. facade. rewrite Hc. reflexivity.
  - intros userId w. facade. rewrite Hc. reflexivity.
  - intros w. unfold getInitialSession. facade. rewrite Hc. cbn [negb mock_client auth_getSession].
    unfold race, resolved, ret. rewrite bool_decide_eq_true_2 by lia. reflexivity.
Qed.

Lemma unconfigured_reads_stay_local_witness :
  promises (step offline CallGetVerifiedDoctors (boot 0)) !! handed (boot 0)
    = Some (Fulfilled (JArr [])) /\
  getPatientProfile offline (JStr "u-42") initial_world
    = (Throws (Error "Supabase not configured"), initial_world).
Proof.
  destruct (unconfigured_reads_stay_local offline eq_refl) as (Hd & _ & Hp & _).
  split.
  - apply (Hd (boot 0)).
  - apply Hp.
Defined.

(** *** Sign-out through the facade *)

(** The facade's sign-out, by cases on what the service does. *)
Lemma authService_signOut_cases env w :
  isServiceConfigured env "supabase" = true ->
  let sent := with_effect w (Network AuthSignOut) in
  let swallowed e w1 :=
    (Returns JUndefined,
     with_effect w1
       (Console LWarn [AStr "Sign out error (clearing local session):"; AExn e])) in
  authService_signOut env w =
    match backend env (length (requests w)) AuthSignOut with
    | Resolves t r =>
        if bool_decide (Z.max 0 t <= 5000) then
          match error r with
          | Some e => swallowed e (wait t sent)
          | None => (Returns JUndefined, wait t sent)
          end
        else swallowed (Error "Sign out request timed out") (wait 5000 sent)
    | Rejects t e =>
        if bool_decide (Z.max 0 t <= 5000) then swallowed e (wait t sent)
        else swallowed (Error "Sign out request timed out") (wait 5000 sent)
    | Never => swallowed (Error "Sign out request timed out") (wait 5000 sent)
    end.
Proof.
  intros Hc. cbv zeta. facade. rewrite Hc. cbn [negb real_client auth_signOut].
  rewrite race_call_cases by lia. cbv zeta.
  destruct (backend env _ _) as [t r|t e|]; try case_bool_decide;
    try destruct (error r); reflexivity.
Qed.

(** Claim C6 (amended): every run of the hook's [signOut] settles with the
    local user and profile set to null and loading set to false, whatever
    the promise it races does, and so whatever the remote sign-out did;
    when the run raises, the world it raises in already has the user and
    profile cleared.  The hook raises what the promise it races rejected
    with, or "Sign out timeout" when that promise has not settled after
    eight seconds.  [authService.signOut] does neither: it logs a failure
    of the remote sign-out (an error of the service, a rejection, its own
    five-second timeout) as a warning and returns normally within five
    seconds, so that through the facade the hook's [signOut] reports no
    remote failure to its caller. *)
Theorem signOut_clears_local_state_and_swallows_remote_failure :
  (forall inner w,
     exists o w',
       hook_signOut inner w = (o, w') /\ o <> Hangs /\
       state_user w' = JNull /\ state_profile w' = JNull /\
       state_loading w' = false) /\
  (forall inner w e w',
     hook_signOut inner w = (Throws e, w') ->
     exists w1,
       w' = with_effect
              (with_effect (with_effect (with_effect w1 (sign_out_error e))
                                        (SetUser JNull))
                           (SetProfile JNull))
              (SetLoading false)) /\
  (forall inner w e w1,
     inner (with_effect w (SetLoading true)) = (Throws e, w1) ->
     clock w1 <= clock w + 8000 ->
     fst (hook_signOut inner w) = Throws e) /\
  (forall inner w,
     (let w0 := with_effect w (SetLoading true) in
      fst (inner w0) = Hangs \/ clock w0 + 8000 < clock (snd (inner w0))) ->
     fst (hook_signOut inner w) = Throws (Error "Sign out timeout")) /\
  (forall env w,
     exists w',
       useAuth_signOut env w = (Returns JUndefined, w') /\
       state_user w' = JNull /\ state_profile w' = JNull /\
       state_loading w' = false /\ clock w' <= clock w + 5000) /\
  (forall env w e,
     isServiceConfigured env "supabase" = true ->
     reports_within (backend env (length (requests w)) AuthSignOut) 5000 e ->
     exists w',
       useAuth_signOut env w = (Returns JUndefined, w') /\
       logged w' = logged w ++ [sign_out_swallowed e]) /\
  (forall env w,
     isServiceConfigured env "supabase" = true ->
     ¬ settles_within (backend env (length (requests w)) AuthSignOut) 5000 ->
     exists w',
       useAuth_signOut env w = (Returns JUndefined, w') /\
       logged w' = logged w ++
         [sign_out_swallowed (Error "Sign out request timed out")]).
Proof.
  assert (Hall : forall inner w,
     exists o w',
       hook_signOut inner w = (o, w') /\ o <> Hangs /\
       state_user w' = JNull /\ state_profile w' = JNull /\
       state_loading w' = false).
  { intros inner w. rewrite hook_signOut_cases.
    pose proof (race_settles inner 8000 "Sign out timeout"
                  (with_effect w (SetLoading true))) as Hs.
    destruct (race inner _ _ _) as [[v|e|] w1]; simpl in Hs; [| |congruence];
      do 2 eexists; (split; [reflexivity|]); autorewrite with views;
      repeat split; discriminate. }
  assert (Hfacade : forall env w w1,
     authService_signOut env (with_effect w (SetLoading true))
       = (Returns JUndefined, w1) ->
     clock w1 <= clock w + 5000 ->
     useAuth_signOut env w
       = (Returns JUndefined,
          with_effect (with_effect (with_effect w1 (SetUser JNull)) (SetProfile JNull))
                      (SetLoading false))).
  { intros env w w1 Hrun Hclock. unfold useAuth_signOut.
    rewrite hook_signOut_cases.
    rewrite (race_wins _ 8000 "Sign out timeout" _ _ _ Hrun);
      [reflexivity | discriminate | autorewrite with views; lia]. }
  split; [exact Hall|]. split; [|split; [|split; [|split; [|split]]]].
  - intros inner w e w' H. rewrite hook_signOut_cases in H.
    destruct (race inner _ _ _) as [[v|e'|] w1]; inversion H; subst. eauto.
  - intros inner w e w1 Hrun Hclock. rewrite hook_signOut_cases.
    rewrite (race_wins _ 8000 "Sign out timeout" _ _ _ Hrun);
      [reflexivity | discriminate | autorewrite with views; exact Hclock].
  - intros inner w Hlate. rewrite hook_signOut_cases.
    pose proof (race_loses inner 8000 "Sign out timeout"
                  (with_effect w (SetLoading true)) Hlate) as Hr.
    destruct (race inner _ _ _) as [[v|e|] w1]; simpl in Hr; try discriminate.
    exact Hr.
  - intros env w.
    destruct (authService_signOut_returns env (with_effect w (SetLoading true)))
      as (w1 & Hrun & Hclock).
    autorewrite with views in Hclock.
    rewrite (Hfacade env w w1 Hrun Hclock). eexists. split; [reflexivity|].
    autorewrite with views. auto.
  - intros env w e Hc (t & r & Hb & Ht & He).
    pose proof (authService_signOut_cases env (with_effect w (SetLoading true)) Hc)
      as Hrun.
    cbv zeta in Hrun. autorewrite with views in Hrun.
    rewrite Hb, bool_decide_eq_true_2, He in Hrun by exact Ht.
    rewrite (Hfacade env w _ Hrun) by (autorewrite with views; lia).
    eexists. split; [reflexivity|]. autorewrite with views. reflexivity.
  - intros env w Hc Hlate.
    pose proof (authService_signOut_cases env (with_effect w (SetLoading true)) Hc)
      as Hrun.
    cbv zeta in Hrun. autorewrite with views in Hrun.
    assert (Hrun' : authService_signOut env (with_effect w (SetLoading true))
              = (Returns JUndefined,
                 with_effect
                   (wait 5000 (with_effect (with_effect w (SetLoading true))
                                           (Network AuthSignOut)))
                   (Console LWarn [AStr "Sign out error (clearing local session):";
                                   AExn (Error "Sign out request timed out")]))).
    { rewrite Hrun. destruct (backend env _ _) as [t r|t e|]; simpl in Hlate;
        try rewrite bool_decide_eq_false_2 by exact Hlate; reflexivity. }
    rewrite (Hfacade env w _ Hrun') by (autorewrite with views; lia).
    eexists. split; [reflexivity|]. autorewrite with views. reflexivity.
Qed.

Lemma signOut_clears_local_state_and_swallows_remote_failure_witness :
  (exists w',
     hook_signOut (throw (ServiceError "500" "sign-out failed")) initial_world
       = (Throws (ServiceError "500" "sign-out failed"), w') /\
     state_user w' = JNull /\ state_profile w' = JNull) /\
  exists w',
    useAuth_signOut (online (replies 60 (failure row_rejected))) initial_world
      = (Returns JUndefined, w') /\
    logged w' = logged initial_world ++ [sign_out_swallowed row_rejected].
Proof.
  destruct signOut_clears_local_state_and_swallows_remote_failure
    as (Hall & _ & _ & _ & _ & Hswallow & _).
  split.
  - destruct (Hall (throw (ServiceError "500" "sign-out failed")) initial_world)
      as (o & w' & Hrun & _ & Hu & Hp & _).
    exists w'. split; [|split; assumption].
    rewrite Hrun. vm_compute in Hrun. inversion Hrun. reflexivity.
  - apply (Hswallow (online (replies 60 (failure row_rejected))) initial_world
             row_rejected eq_refl).
    exists 60, (failure row_rejected). split; [reflexivity|]. split; [simpl; lia|].
    reflexivity.
Defined.

(** Counterexample to claim C6: the service answers the sign-out with an
    error, and the hook's [signOut] returns normally; no error reaches its
    caller.  The same when the answer comes after seven seconds, past the
    facade's timeout. *)
Lemma remote_signOut_failure_is_not_reported :
  fst (useAuth_signOut (online (replies 60 (failure row_rejected))) initial_world)
    = Returns JUndefined /\
  fst (useAuth_signOut (online (replies 7000 (success JUndefined))) initial_world)
    = Returns JUndefined /\
  ¬ exists e,
      fst (useAuth_signOut (online (replies 60 (failure row_rejected))) initial_world)
        = Throws e.
Proof.
  split; [vm_compute; reflexivity|]. split; [vm_compute; reflexivity|].
  intros [e H]. vm_compute in H. discriminate H.
Qed.

(** Through the facade the hook's sign-out always returns normally: the
    facade has logged and dropped whatever went wrong. *)
Lemma useAuth_signOut_returns env w :
  exists w', useAuth_signOut env w = (Returns JUndefined, w').
Proof.
  unfold useAuth_signOut. rewrite hook_signOut_cases.
  destruct (authService_signOut_returns env (with_effect w (SetLoading true)))
    as (w1 & Hrun & Hclock).
  erewrite race_wins; [| exact Hrun | discriminate | lia].
  eexists. reflexivity.
Qed.

(** *** Upstream failures *)

Section Upstream.
Variable env : environment.
Hypothesis configured : isServiceConfigured env "supabase" = true.

Lemma insert_or_mock_raises mock_label table error_label payload w e :
  reports (backend env (length (requests w)) (DbInsert table (JObj payload))) e ->
  raises_logged (insert_or_mock env mock_label table error_label payload w)
                w error_label e.
Proof.
  intros (t & r & Hb & He). unfold raises_logged. facade.
  rewrite configured. cbn [negb real_client db_insert].
  rewrite call_cases, Hb. simpl. rewrite He.
  eexists. split; [reflexivity|]. autorewrite with views. reflexivity.
Qed.

Lemma profile_lookup_raises table userId w e :
  reports (backend env (length (requests w))
             (DbSelectSingle table "user_id" userId)) e ->
  (let! r := db_select_single (supabase env) table "user_id" userId in
   data_or_throw r) w
    = (Throws e, wait (match backend env (length (requests w))
                               (DbSelectSingle table "user_id" userId) with
                       | Resolves t _ => t | _ => 0 end)
                      (with_effect w (Network (DbSelectSingle table "user_id" userId)))).
Proof.
  intros (t & r & Hb & He). facade. rewrite configured.
  cbn [real_client db_select_single]. rewrite call_cases, Hb. simpl.
  rewrite He. reflexivity.
Qed.
End Upstream.

(** Claim C5 (amended): with the configuration present, an error the service
    reports is logged and re-raised unchanged by the six writers
    ([saveMedicalImage], [saveSymptomAnalysis], [saveChatSession],
    [updateChatSession], [createAppointment], [createEmergencyAlert]) and,
    when it arrives within their timeout, by [signIn] and [signUp]; the
    profile lookups re-raise it unchanged without logging it;
    [uploadImage] logs it and returns the placeholder URL, [signOut] logs
    it and returns normally, [getCurrentUser] returns null, and
    [getVerifiedDoctors] logs it and resolves with the empty list. *)
Theorem upstream_errors_by_operation env w e :
  isServiceConfigured env "supabase" = true ->
  let nth := backend env (length (requests w)) in
  (forall payload,
     reports (nth (DbInsert "symptom_analyses" (JObj payload))) e ->
     raises_logged (saveSymptomAnalysis env payload w) w
                   "Save symptom analysis error:" e) /\
  (forall payload,
     reports (nth (DbInsert "chat_sessions" (JObj payload))) e ->
     raises_logged (saveChatSession env payload w) w "Save chat session error:" e) /\
  (forall payload,
     reports (nth (DbInsert "appointments" (JObj payload))) e ->
     raises_logged (createAppointment env payload w) w "Create appointment error:" e) /\
  (forall payload,
     reports (nth (DbInsert "emergency_alerts" (JObj payload))) e ->
     raises_logged (createEmergencyAlert env payload w) w
                   "Create emergency alert error:" e) /\
  (forall sessionId updates,
     reports (nth (DbUpdate "chat_sessions" (JObj updates) "id" (JStr sessionId))) e ->
     raises_logged (updateChatSession env sessionId updates w) w
                   "Update chat session error:" e) /\
  (forall patientId imageUrl imageType analysis,
     reports (nth (DbInsert "medical_images"
                     (medical_image_row patientId imageUrl imageType analysis))) e ->
     raises_logged (saveMedicalImage env patientId imageUrl imageType (JObj analysis) w)
                   w "Save medical image error:" e) /\
  (forall email password,
     reports_within (nth (AuthSignInWithPassword email password)) 8000 e ->
     raises_logged (authService_signIn env email password w) w "Sign in error:" e) /\
  (forall email password name userType,
     reports_within (nth (signUp_request email password name userType)) 10000 e ->
     raises_logged (authService_signUp env email password name userType w) w
                   "Sign up error:" e) /\
  (forall userId,
     reports (nth (DbSelectSingle "patients" "user_id" userId)) e ->
     exists w', getPatientProfile env userId w = (Throws e, w') /\
                logged w' = logged w) /\
  (forall userId,
     reports (nth (DbSelectSingle "doctors" "user_id" userId)) e ->
     exists w', getDoctorProfile env userId w = (Throws e, w') /\
                logged w' = logged w) /\
  (forall file bucket,
     reports (nth (StorageUpload bucket (upload_path env file w) file)) e ->
     exists w', uploadImage env file bucket w
                  = (Returns (JStr ("https://example.com/mock-upload/" +:+ name file)), w') /\
                logged w' = logged w ++ [(LError, [AStr "Upload error:"; AExn e])]) /\
  (reports_within (nth AuthSignOut) 5000 e ->
     exists w', authService_signOut env w = (Returns JUndefined, w') /\
                logged w' = logged w ++
                  [(LWarn, [AStr "Sign out error (clearing local session):"; AExn e])]) /\
  (forall t,
     nth AuthGetUser = Resolves t {| data := JObj [("user", JNull)]; error := Some e |} ->
     Z.max 0 t <= 5000 ->
     exists w', authService_getCurrentUser env w = (Returns JNull, w') /\
                logged w' = logged w) /\
  (forall s d,
     quiescent s ->
     truthy (getCachedData doctors_cache_key s) = false ->
     300 <= d ->
     exists f,
       in_flight (run env [CallGetVerifiedDoctors; Elapse d] s) = [f] /\
       forall r,
         error r = Some e ->
         let s' := run env [CallGetVerifiedDoctors; Elapse d; Reply (flight_id f) r] s in
         promises s' !! handed s = Some (Fulfilled (JArr [])) /\
         console_out s'
           = console_out s ++ [(LError, [AStr "Get verified doctors error:"; AExn e])]).
Proof.
  intros Hc nth. subst nth.
  split; [|split; [|split; [|split; [|split; [|split; [|split; [|split;
    [|split; [|split; [|split; [|split; [|split]]]]]]]]]]]].
  - intros payload H. apply insert_or_mock_raises; assumption.
  - intros payload H. apply insert_or_mock_raises; assumption.
  - intros payload H. apply insert_or_mock_raises; assumption.
  - intros payload H. apply insert_or_mock_raises; assumption.
  - intros sessionId updates (t & r & Hb & He). unfold raises_logged. facade.
    rewrite Hc. cbn [negb real_client db_update]. rewrite call_cases, Hb. simpl.
    rewrite He. eexists. split; [reflexivity|]. autorewrite with views. reflexivity.
  - intros patientId imageUrl imageType analysis (t & r & Hb & He).
    unfold medical_image_row in Hb. unfold raises_logged. facade.
    rewrite Hc. cbn [negb real_client db_insert js_get lift]. unfold ret.
    rewrite call_cases, Hb.
    simpl. rewrite He. eexists. split; [reflexivity|].
    autorewrite with views. reflexivity.
  - intros email password (t & r & Hb & Ht & He). unfold raises_logged. facade.
    rewrite Hc. cbn [negb real_client auth_signInWithPassword].
    rewrite race_call_cases, Hb by lia. simpl.
    rewrite bool_decide_eq_true_2 by done. rewrite He.
    eexists. split; [reflexivity|]. autorewrite with views. reflexivity.
  - intros email password name userType (t & r & Hb & Ht & He).
    unfold signUp_request in Hb. unfold raises_logged. facade.
    rewrite Hc. cbn [negb real_client auth_signUp].
    rewrite race_call_cases, Hb by lia. simpl.
    rewrite bool_decide_eq_true_2 by done. rewrite He.
    eexists. split; [reflexivity|]. autorewrite with views. reflexivity.
  - intros userId H. unfold getPatientProfile. rewrite Hc. cbn [negb].
    rewrite (profile_lookup_raises env Hc _ _ _ e H).
    eexists. split; [reflexivity|]. autorewrite with views. reflexivity.
  - intros userId H. unfold getDoctorProfile. rewrite Hc. cbn [negb].
    rewrite (profile_lookup_raises env Hc _ _ _ e H).
    eexists. split; [reflexivity|]. autorewrite with views. reflexivity.
  - intros file bucket (t & r & Hb & He). facade. rewrite Hc.
    cbn [negb real_client storage_upload]. rewrite call_cases.
    fold (upload_path env file w). rewrite Hb. simpl. rewrite He.
    eexists. split; [reflexivity|]. autorewrite with views. reflexivity.
  - intros (t & r & Hb & Ht & He). facade. rewrite Hc.
    cbn [negb real_client auth_signOut]. rewrite race_call_cases, Hb by lia.
    simpl. rewrite bool_decide_eq_true_2 by done. rewrite He.
    eexists. split; [reflexivity|]. autorewrite with views. reflexivity.
  - intros t Hb Ht. facade. rewrite Hc.
    cbn [negb real_client auth_getUser]. rewrite race_call_cases, Hb by lia.
    simpl. rewrite bool_decide_eq_true_2 by done.
    eexists. split; [reflexivity|]. autorewrite with views. reflexivity.
  - intros s d Hq Hstale Hd.
    destruct (getVerifiedDoctors_round env s d Hc Hq Hstale Hd)
      as (f & Hf & _ & _ & Hdone).
    exists f. rewrite !run_cons, run_nil. split; [exact Hf|].
    intros r He. cbv zeta. rewrite !run_cons, run_nil, step_reply.
    assert (Hun : unwrap r = inl e) by (unfold unwrap; rewrite He; reflexivity).
    rewrite Hun. destruct (Hdone (inl e)) as (Hp & _ & Ho & _).
    split; [exact Hp | exact Ho].
Qed.

Lemma upstream_errors_by_operation_witness :
  raises_logged
    (createAppointment (online (replies 80 (failure row_rejected)))
       [("patient_id", JStr "p-1")] initial_world)
    initial_world "Create appointment error:" row_rejected /\
  exists w',
    uploadImage (online (replies 80 (failure row_rejected))) scan "medical-images"
      initial_world
      = (Returns (JStr "https://example.com/mock-upload/scan.v2.png"), w').
Proof.
  destruct (upstream_errors_by_operation (online (replies 80 (failure row_rejected)))
              initial_world row_rejected eq_refl)
    as (_ & _ & Happ & _ & _ & _ & _ & _ & _ & _ & Hup & _).
  split.
  - apply Happ. exists 80, (failure row_rejected). split; reflexivity.
  - destruct (Hup scan "medical-images") as (w' & Hrun & _).
    + exists 80, (failure row_rejected). split; reflexivity.
    + exists w'. exact Hrun.
Defined.

(** Counterexample to claim C5: the service rejects the doctors query and
    the caller's promise is fulfilled with the empty list, not rejected
    with the error. *)
Lemma doctors_query_error_is_not_raised :
  let s := run (online never_replies)
             [CallGetVerifiedDoctors; Elapse 300; Reply 3 (failure row_rejected)]
             (boot 0) in
  promises s !! 0%nat = Some (Fulfilled (JArr [])) /\
  promises s !! 0%nat <> Some (Rejected row_rejected).
Proof. vm_compute. split; [reflexivity | discriminate]. Qed.

(** * Further properties *)

(** Property X1: with the configuration absent, [signUp] and [signIn] of
    the facade log and raise the error "Authentication service is not
    available. Please check your configuration." and [signOut] logs a
    warning and returns, none of them handing anything to the client;
    through the hook, sign-in and sign-up raise that same error at once,
    with the user as it was and loading set back to false. *)
Theorem unconfigured_auth_raises env :
  isServiceConfigured env "supabase" = false ->
  (forall email password name userType w,
     authService_signUp env email password name userType w
       = (Throws unavailable,
          with_effect w (Console LError [AStr "Sign up error:"; AExn unavailable]))) /\
  (forall email password w,
     authService_signIn env email password w
       = (Throws unavailable,
          with_effect w (Console LError [AStr "Sign in error:"; AExn unavailable]))) /\
  (forall w,
     authService_signOut env w
       = (Returns JUndefined,
          with_effect w
            (Console LWarn [AStr "Supabase not configured, clearing local session only"]))) /\
  (forall email password w,
     exists w',
       useAuth_signIn env email password w = (Throws unavailable, w') /\
       requests w' = requests w /\ clock w' = clock w /\
       state_user w' = state_user w /\ state_loading w' = false) /\
  (forall email password name userType w,
     exists w',
       useAuth_signUp env email password name userType w = (Throws unavailable, w') /\
       requests w' = requests w /\ clock w' = clock w /\
       state_user w' = state_user w /\ state_loading w' = false).
Proof.
  intros Hc.
  assert (Hup : forall email password name userType w,
     authService_signUp env email password name userType w
       = (Throws unavailable,
          with_effect w (Console LError [AStr "Sign up error:"; AExn unavailable]))).
  { intros. facade. rewrite Hc. reflexivity. }
  assert (Hin : forall email password w,
     authService_signIn env email password w
       = (Throws unavailable,
          with_effect w (Console LError [AStr "Sign in error:"; AExn unavailable]))).
  { intros. facade. rewrite Hc. reflexivity. }
  split; [exact Hup|]. split; [exact Hin|]. split; [|split].
  - intros. facade. rewrite Hc. reflexivity.
  - intros email password w. unfold useAuth_signIn. rewrite hook_signIn_cases.
    erewrite race_wins; [| apply Hin | discriminate | autorewrite with views; lia].
    eexists. split; [reflexivity|]. autorewrite with views. auto.
  - intros email password name userType w. unfold useAuth_signUp.
    rewrite hook_signUp_cases.
    erewrite race_wins; [| apply Hup | discriminate | autorewrite with views; lia].
    eexists. split; [reflexivity|]. autorewrite with views. auto.
Qed.

Lemma unconfigured_auth_raises_witness :
  fst (authService_signIn offline "ana@example.org" "pw" initial_world)
    = Throws unavailable.
Proof.
  destruct (unconfigured_auth_raises offline eq_refl) as (_ & H & _).
  rewrite H. reflexivity.
Defined.

(** [authService.signUp] once the service has answered in time with a
    user object, by cases on what the profile insert does. *)
Lemma authService_signUp_cases env email password name userType w t r d user :
  isServiceConfigured env "supabase" = true ->
  backend env (length (requests w)) (signUp_request email password name userType)
    = Resolves t r ->
  Z.max 0 t <= 10000 ->
  error r = None -> data r = JObj d -> obj_get d "user" = JObj user ->
  userType = "patient" \/ userType = "doctor" ->
  let w1 := wait t (with_effect w
                      (Network (signUp_request email password name userType))) in
  let insert := profile_insert userType (obj_get user "id") name (clock w1) in
  let sent := with_effect w1 (Network insert) in
  authService_signUp env email password name userType w =
    match backend env (S (length (requests w))) insert with
    | Resolves t2 r2 =>
        (Returns (JObj d),
         match error r2 with
         | Some _ => with_effect (wait t2 sent) profile_skipped
         | None => wait t2 sent
         end)
    | Rejects t2 _ => (Returns (JObj d), with_effect (wait t2 sent) profile_skipped)
    | Never => (Hangs, sent)
    end.
Proof.
  intros Hc Hb Ht He Hd Hu Hty. cbv zeta. unfold signUp_request in *.
  assert (Hlen : forall q,
            length (requests (wait t (with_effect w (Network q))))
            = S (length (requests w))).
  { intros q. autorewrite with views. rewrite length_app. simpl. lia. }
  unfold profile_insert, profile_skipped, patient_row, doctor_row.
  destruct Hty as [-> | ->]; cbn [String.eqb Ascii.eqb Bool.eqb];
    facade; rewrite Hc; cbn [negb real_client auth_signUp db_insert andb];
    rewrite race_call_cases, Hb by lia; cbv zeta;
    rewrite bool_decide_eq_true_2 by done; rewrite He, Hd; cbn [js_get];
    rewrite Hu; unfold ret, throw;
    cbn [truthy andb js_get String.eqb Ascii.eqb Bool.eqb];
    rewrite ?Hc; cbn [negb real_client db_insert];
    rewrite call_cases, Hlen; cbv zeta;
    (destruct (backend env (S _) _) as [t2 r2|t2 e2|]; try reflexivity);
    match goal with |- context [error ?x] => destruct (error x) end; reflexivity.
Qed.

(** Property X2: once the service has accepted a sign-up in time and
    returned a user, [authService.signUp] sends one insert for the profile
    row of the user's type and returns the data of the sign-up whether that
    insert succeeds, is answered with an error or is rejected; the failure
    is only logged.  It does not return while the insert is unanswered. *)
Theorem signUp_survives_a_failed_profile_insert
    env email password name userType w t r d user :
  isServiceConfigured env "supabase" = true ->
  backend env (length (requests w)) (signUp_request email password name userType)
    = Resolves t r ->
  Z.max 0 t <= 10000 ->
  error r = None -> data r = JObj d -> obj_get d "user" = JObj user ->
  userType = "patient" \/ userType = "doctor" ->
  let insert :=
    profile_insert userType (obj_get user "id") name (clock w + Z.max 0 t) in
  let reply := backend env (S (length (requests w))) insert in
  let run := authService_signUp env email password name userType w in
  requests (snd run)
    = requests w ++ [signUp_request email password name userType; insert] /\
  (reply <> Never -> fst run = Returns (JObj d)) /\
  (reply = Never -> fst run = Hangs) /\
  (forall e,
     reports reply e \/ (exists t2, reply = Rejects t2 e) ->
     logged (snd run)
       = logged w ++
         [(LLog, [AStr "Profile creation skipped - database not configured"])]) /\
  (forall t2 r2,
     reply = Resolves t2 r2 -> error r2 = None -> logged (snd run) = logged w).
Proof.
  intros Hc Hb Ht He Hd Hu Hty. cbv zeta.
  rewrite (authService_signUp_cases env email password name userType w t r d user)
    by assumption.
  cbv zeta. autorewrite with views.
  destruct (backend env (S _) _) as [t2 r2|t2 e2|]; cbn [fst snd].
  - split; [|split; [reflexivity|split; [discriminate|split]]].
    + destruct (error r2); autorewrite with views; rewrite <- app_assoc; reflexivity.
    + intros e [(t3 & r3 & Heq & Herr)|(t3 & Heq)]; [|discriminate].
      inversion Heq; subst. rewrite Herr. unfold profile_skipped.
      autorewrite with views. reflexivity.
    + intros t3 r3 Heq Herr. inversion Heq; subst. rewrite Herr.
      autorewrite with views. reflexivity.
  - split; [|split; [reflexivity|split; [discriminate|split]]].
    + autorewrite with views. rewrite <- app_assoc. reflexivity.
    + intros e _. unfold profile_skipped. autorewrite with views. reflexivity.
    + intros t3 r3 Heq. discriminate.
  - split; [|split; [congruence|split; [reflexivity|split]]].
    + autorewrite with views. rewrite <- app_assoc. reflexivity.
    + intros e [(t3 & r3 & Heq & Herr)|(t3 & Heq)]; discriminate.
    + intros t3 r3 Heq. discriminate.
Qed.

Lemma signUp_survives_a_failed_profile_insert_witness :
  fst (authService_signUp (online signs_up_without_profile)
         "ana@example.org" "pw" "Ana" "patient" initial_world)
    = Returns (JObj [("user", JObj new_user)]).
Proof.
  refine (proj1 (proj2
    (signUp_survives_a_failed_profile_insert (online signs_up_without_profile)
       "ana@example.org" "pw" "Ana" "patient" initial_world 50
       (success (JObj [("user", JObj new_user)])) [("user", JObj new_user)] new_user
       eq_refl eq_refl _ eq_refl eq_refl eq_refl (or_introl eq_refl))) _).
  - simpl. lia.
  - discriminate.
Defined.

(** *** The sign-up timer of the hook *)

Lemma drop_two {A} (l : list A) a b : drop (length l) ((l ++ [a]) ++ [b]) = [a; b].
Proof. rewrite <- app_assoc. apply drop_app_length. Qed.

Lemma global_fetch_aborts aborted b :
  aborts_requests (online (global_fetch aborted b)).
Proof.
  intros n r. unfold online, global_fetch, FETCH_TIMEOUT. cbn [backend].
  destruct (b n r) as [t v|t e|]; try case_bool_decide; try assumption;
    destruct aborted; simpl; lia.
Qed.

(** A race that the timer wins. *)
Lemma race_late {A} (m : async A) ms msg w o w' :
  m w = (o, w') -> o = Hangs \/ clock w + ms < clock w' ->
  race m ms msg w
    = (Throws (Error msg),
       {| clock := clock w + ms;
          trace := trace w ++
                   upto (clock w + ms) (drop (length (trace w)) (trace w')) |}).
Proof.
  intros Hm Hlate. unfold race. rewrite Hm.
  destruct o; try reflexivity; destruct Hlate as [H|H]; try discriminate;
    rewrite bool_decide_eq_false_2 by lia; reflexivity.
Qed.

Lemma drop_three {A} (l : list A) a b c :
  drop (length l) (((l ++ [a]) ++ [b]) ++ [c]) = [a; b; c].
Proof. rewrite <- !app_assoc. apply drop_app_length. Qed.

(** The views of a world whose trace ends with two requests. *)
Lemma views_two_requests c w t1 r1 t2 r2 :
  let w' := {| clock := c; trace := trace w ++ [(t1, Network r1); (t2, Network r2)] |} in
  requests w' = requests w ++ [r1; r2] /\ logged w' = logged w /\
  state_user w' = state_user w /\ state_profile w' = state_profile w /\
  state_loading w' = state_loading w.
Proof.
  cbv zeta. unfold requests, logged, state_user, state_profile, state_loading.
  cbn [trace]. rewrite !omap_app, !fold_left_app. cbn. rewrite app_nil_r.
  repeat split.
Qed.

(** Property X3: the hook's own sign-up timer.  The facade's [signUp]
    puts no timer on the profile insert, which ends when the client's
    fetch ends it.  When the sign-up is accepted and fifteen seconds have
    passed since the call before the insert is settled (a sign-up that
    took more than five seconds followed by an insert that the fetch gives
    up after its ten, say), the hook's [signUp] raises "Sign up timeout -
    please try again" at fifteen seconds, with loading set back to false
    and the user and the profile as they were, although both requests were
    sent and [authService.signUp] itself then returns the data of the
    sign-up. *)
Theorem hook_timer_ends_a_signUp_slowed_by_the_profile
    env email password name userType w t r d user :
  aborts_requests env ->
  isServiceConfigured env "supabase" = true ->
  backend env (length (requests w)) (signUp_request email password name userType)
    = Resolves t r ->
  Z.max 0 t <= 10000 ->
  error r = None -> data r = JObj d -> obj_get d "user" = JObj user ->
  userType = "patient" \/ userType = "doctor" ->
  let insert :=
    profile_insert userType (obj_get user "id") name (clock w + Z.max 0 t) in
  ¬ settles_within (backend env (S (length (requests w))) insert)
      (15000 - Z.max 0 t) ->
  (exists w1,
     authService_signUp env email password name userType w = (Returns (JObj d), w1) /\
     clock w + 15000 < clock w1 <= clock w + 20000) /\
  (exists w',
     useAuth_signUp env email password name userType w
       = (Throws (Error "Sign up timeout - please try again"), w') /\
     clock w' = clock w + 15000 /\
     state_loading w' = false /\
     state_user w' = state_user w /\ state_profile w' = state_profile w /\
     requests w' = requests w ++ [signUp_request email password name userType; insert]).
Proof.
  intros Ha Hc Hb Ht He Hd Hu Hty insert Hlate. subst insert.
  pose proof (Ha (S (length (requests w)))
                (profile_insert userType (obj_get user "id") name
                   (clock w + Z.max 0 t))) as Hl.
  unfold FETCH_TIMEOUT in Hl. split.
  - rewrite (authService_signUp_cases env email password name userType w t r d user)
      by assumption.
    cbv zeta. autorewrite with views.
    destruct (backend env (S _) _) as [t2 r2|t2 e2|]; cbn [settles_within] in *;
      [| |contradiction]; try destruct (error r2);
      eexists; (split; [reflexivity|]); autorewrite with views; lia.
  - unfold useAuth_signUp. rewrite hook_signUp_cases.
    assert (Hreq : requests (with_effect w (SetLoading true)) = requests w)
      by (autorewrite with views; reflexivity).
    pose proof (authService_signUp_cases env email password name userType
                  (with_effect w (SetLoading true)) t r d user Hc) as Hrun.
    rewrite Hreq in Hrun. specialize (Hrun Hb Ht He Hd Hu Hty).
    cbv zeta in Hrun. autorewrite with views in Hrun.
    destruct (views_two_requests (clock w + 15000) (with_effect w (SetLoading true))
                (clock w) (signUp_request email password name userType)
                (clock w + Z.max 0 t)
                (profile_insert userType (obj_get user "id") name
                   (clock w + Z.max 0 t)))
      as (Vr & Vl & Vu & Vp & Vo).
    cbv zeta in Vr, Vl, Vu, Vp, Vo. autorewrite with views in Vr, Vl, Vu, Vp, Vo.
    unfold with_effect in Vr, Vl, Vu, Vp, Vo. cbn [clock trace] in Vr, Vl, Vu, Vp, Vo.
    destruct (backend env (S _) _) as [t2 r2|t2 e2|]; cbn [settles_within] in *;
      [| |contradiction].
    + erewrite race_late; [|exact Hrun|right; destruct (error r2);
                                       autorewrite with views; lia].
      eexists. split; [reflexivity|]. autorewrite with views.
      unfold profile_skipped, with_effect, wait. cbn [clock trace].
      destruct (error r2); cbn [clock trace];
        [rewrite drop_three | rewrite drop_two]; unfold upto;
        rewrite !filter_cons_True by (cbn [fst]; lia);
        try rewrite filter_cons_False by (cbn [fst]; lia);
        rewrite filter_nil; rewrite Vr, Vu, Vp; auto.
    + erewrite race_late; [|exact Hrun|right; autorewrite with views; lia].
      eexists. split; [reflexivity|]. autorewrite with views.
      unfold profile_skipped, with_effect, wait. cbn [clock trace].
      rewrite drop_three. unfold upto.
      rewrite !filter_cons_True by (cbn [fst]; lia).
      rewrite filter_cons_False by (cbn [fst]; lia).
      rewrite filter_nil. rewrite Vr, Vu, Vp. auto.
Qed.

Lemma hook_timer_ends_a_signUp_slowed_by_the_profile_witness :
  let env := online (global_fetch request_aborted signs_up_slowly_then_stalls) in
  fst (authService_signUp env "ana@example.org" "pw" "Ana" "patient" initial_world)
    = Returns (JObj [("user", JObj new_user)]) /\
  fst (useAuth_signUp env "ana@example.org" "pw" "Ana" "patient" initial_world)
    = Throws (Error "Sign up timeout - please try again").
Proof.
  cbv zeta.
  destruct (hook_timer_ends_a_signUp_slowed_by_the_profile
              (online (global_fetch request_aborted signs_up_slowly_then_stalls))
              "ana@example.org" "pw" "Ana" "patient" initial_world 6000
              (success (JObj [("user", JObj new_user)])) [("user", JObj new_user)]
              new_user)
    as ((w1 & Hfacade & _) & w' & Hrun & _);
    [intros [|n] q; vm_compute; discriminate
    | reflexivity | reflexivity | simpl; lia | reflexivity | reflexivity
    | reflexivity | left; reflexivity
    | vm_compute; intros H; apply H; reflexivity |].
  rewrite Hfacade, Hrun. split; reflexivity.
Defined.

(** *** Mock update *)

(** Property X4: with the configuration absent, [updateChatSession] sends
    nothing, logs the call and returns [{ id: sessionId, ...updates }]:
    every property of the updates, and the identifier of the session
    unless the updates carry an [id] of their own. *)
Theorem updateChatSession_mock_echoes_the_updates env sessionId updates w :
  isServiceConfigured env "supabase" = false ->
  NoDup updates.*1 ->
  exists record w',
    updateChatSession env sessionId updates w = (Returns (JObj record), w') /\
    requests w' = requests w /\
    logged w' = logged w ++
      [(LLog, [AStr "Mock: Chat session updated";
               AVal (JObj [("sessionId", JStr sessionId);
                           ("updates", JObj updates)])])] /\
    (forall k, obj_has updates k = true -> obj_get record k = obj_get updates k) /\
    (obj_has updates "id" = false -> obj_get record "id" = JStr sessionId) /\
    (forall k, obj_has updates k = false -> k <> "id" ->
               obj_get record k = JUndefined).
Proof.
  intros Hc Hnd. do 2 eexists. split.
  { facade. rewrite Hc. reflexivity. }
  autorewrite with views. split; [reflexivity|]. split; [reflexivity|].
  split; [|split].
  - intros k Hk. rewrite obj_get_spread, Hk by done. reflexivity.
  - intros Hk. rewrite obj_get_spread, Hk by done. reflexivity.
  - intros k Hk Hne. rewrite obj_get_spread, Hk by done. cbn [obj_get].
    destruct (String.eqb_spec "id" k); [congruence | reflexivity].
Qed.

Lemma updateChatSession_mock_echoes_the_updates_witness :
  fst (updateChatSession offline "s-9" [("language", JStr "hi")] initial_world)
    = Returns (JObj [("id", JStr "s-9"); ("language", JStr "hi")]).
Proof.
  destruct (updateChatSession_mock_echoes_the_updates offline "s-9"
              [("language", JStr "hi")] initial_world eq_refl)
    as (record & w' & Hrun & _).
  - repeat constructor; set_solver.
  - rewrite Hrun. vm_compute in Hrun. inversion Hrun. reflexivity.
Defined.

(** *** A medical image without an analysis *)

(** Property X5: [saveMedicalImage] reads [aiAnalysis.confidence].  With
    the configuration present, a null or undefined analysis raises a
    TypeError, which is logged and re-raised before anything is sent; with
    the configuration absent the same call returns the mock record.  An
    analysis whose confidence is missing or falsy is stored with
    [diagnosis_confidence] 0. *)
Theorem saveMedicalImage_needs_an_analysis env patientId imageUrl imageType w :
  (forall analysis,
     isServiceConfigured env "supabase" = true ->
     analysis = JNull \/ analysis = JUndefined ->
     exists msg w',
       saveMedicalImage env patientId imageUrl imageType analysis w
         = (Throws (TypeError msg), w') /\
       requests w' = requests w /\
       logged w' = logged w ++
         [(LError, [AStr "Save medical image error:"; AExn (TypeError msg)])]) /\
  (forall analysis,
     isServiceConfigured env "supabase" = false ->
     fst (saveMedicalImage env patientId imageUrl imageType analysis w)
       = Returns (JObj [("id", JStr "mock-id"); ("patient_id", JStr patientId);
                        ("image_url", JStr imageUrl)])) /\
  (forall analysis,
     isServiceConfigured env "supabase" = true ->
     truthy (obj_get analysis "confidence") = false ->
     requests (snd (saveMedicalImage env patientId imageUrl imageType
                      (JObj analysis) w))
       = requests w ++
         [DbInsert "medical_images"
            (JObj [("patient_id", JStr patientId); ("image_url", JStr imageUrl);
                   ("image_type", JStr imageType); ("ai_analysis", JObj analysis);
                   ("diagnosis_confidence", JNum 0)])]).
Proof.
  split; [|split].
  - intros analysis Hc [-> | ->]; facade; rewrite Hc; cbn [negb js_get];
      do 2 eexists; (split; [reflexivity|]); autorewrite with views; auto.
  - intros analysis Hc. facade. rewrite Hc. reflexivity.
  - intros analysis Hc Hf. facade. rewrite Hc.
    cbn [negb js_get real_client db_insert]. unfold ret.
    cbn [negb js_get real_client db_insert]. unfold js_or. rewrite Hf.
    rewrite call_cases. cbv zeta.
    destruct (backend env _ _) as [t r|t e|]; cbn [fst snd];
      try destruct (error r); cbn [fst snd]; autorewrite with views; reflexivity.
Qed.

Lemma saveMedicalImage_needs_an_analysis_witness :
  exists msg,
    fst (saveMedicalImage (online never_replies) "p-1" "https://cdn/x.png" "xray"
           JNull initial_world) = Throws (TypeError msg).
Proof.
  destruct (saveMedicalImage_needs_an_analysis (online never_replies)
              "p-1" "https://cdn/x.png" "xray" initial_world) as (H & _).
  destruct (H JNull eq_refl (or_introl eq_refl)) as (msg & w' & Hrun & _).
  exists msg. rewrite Hrun. reflexivity.
Defined.

(** *** Strings *)

Lemma append_cons c s t : String c s +:+ t = String c (s +:+ t).
Proof. reflexivity. Qed.

Lemma append_nil_r s : s +:+ EmptyString = s.
Proof. induction s as [|c s IH]; [reflexivity|]. rewrite append_cons, IH. reflexivity. Qed.

Lemma append_assoc s t u : (s +:+ t) +:+ u = s +:+ t +:+ u.
Proof.
  induction s as [|c s IH]; [reflexivity|]. rewrite !append_cons, IH. reflexivity.
Qed.

Lemma has_char_append c s t : has_char c (s +:+ t) = has_char c s || has_char c t.
Proof.
  induction s as [|c' s IH]; [reflexivity|].
  rewrite append_cons. cbn [has_char]. rewrite IH. apply orb_assoc.
Qed.

(** [s.split('.').pop()], with what came before the last dot. *)
Lemma last_segment_spec s : forall acc,
  has_char "." acc = false ->
  has_char "." (last_segment s acc) = false /\
  (has_char "." s = false -> last_segment s acc = acc +:+ s) /\
  (has_char "." s = true ->
   exists stem, s = stem +:+ "." +:+ last_segment s acc).
Proof.
  induction s as [|c s IH]; intros acc Hacc; cbn [last_segment has_char].
  - split; [exact Hacc|]. split; [intros _; symmetry; apply append_nil_r|discriminate].
  - destruct (Ascii.eqb_spec c ".") as [->|Hne]; cbn [orb].
    + destruct (IH EmptyString eq_refl) as (Hno & Hplain & Hdot).
      split; [exact Hno|]. split; [discriminate|]. intros _.
      destruct (has_char "." s) eqn:Hs.
      * destruct (Hdot eq_refl) as (stem & Hstem).
        exists ("." +:+ stem). rewrite append_assoc.
        change ("." +:+ stem +:+ "." +:+ last_segment s "")
          with (String "." (stem +:+ "." +:+ last_segment s "")).
        rewrite <- Hstem. reflexivity.
      * exists EmptyString. rewrite (Hplain eq_refl). reflexivity.
    + assert (Hacc' : has_char "." (acc +:+ String c EmptyString) = false).
      { rewrite has_char_append, Hacc. cbn [has_char orb].
        destruct (Ascii.eqb_spec c "."); [contradiction | reflexivity]. }
      destruct (IH _ Hacc') as (Hno & Hplain & Hdot).
      split; [exact Hno|]. split.
      * intros Hs. rewrite (Hplain Hs), append_assoc. reflexivity.
      * intros Hs. destruct (Hdot Hs) as (stem & Hstem).
        exists (String c stem). rewrite append_cons, <- Hstem. reflexivity.
Qed.

(** Property X6: the path a file is uploaded under is the time, a dash,
    the random part, a dot and the extension, where the extension is what
    follows the last dot of the file's name, or the whole name when it has
    no dot; the extension has no dot in it. *)
Theorem upload_path_keeps_the_extension env file w :
  exists ext,
    upload_path env file w
      = pretty (clock w) +:+ "-" +:+ random36 env +:+ "." +:+ ext /\
    has_char "." ext = false /\
    (has_char "." (name file) = true -> exists stem, name file = stem +:+ "." +:+ ext) /\
    (has_char "." (name file) = false -> ext = name file).
Proof.
  destruct (last_segment_spec (name file) EmptyString eq_refl) as (Hno & Hplain & Hdot).
  exists (last_segment (name file) EmptyString).
  split; [reflexivity|]. split; [exact Hno|]. split; [exact Hdot | exact Hplain].
Qed.

Lemma upload_path_keeps_the_extension_witness :
  exists ext stem,
    upload_path (online never_replies) scan initial_world
      = "0" +:+ "-" +:+ "k3x9q" +:+ "." +:+ ext /\
    name scan = stem +:+ "." +:+ ext /\ has_char "." ext = false.
Proof.
  destruct (upload_path_keeps_the_extension (online never_replies) scan initial_world)
    as (ext & Hpath & Hno & Hdot & _).
  destruct (Hdot eq_refl) as (stem & Hstem).
  exists ext, stem. split; [exact Hpath|]. split; [exact Hstem | exact Hno].
Defined.

(** Property X7: when the upload is answered without an error,
    [uploadImage] returns the public URL the storage gives for the very
    path it uploaded to, having sent that one upload to the given bucket
    and logged nothing. *)
Theorem uploadImage_returns_the_url_of_what_it_stored env file bucket w t r got d u :
  isServiceConfigured env "supabase" = true ->
  backend env (length (requests w))
    (StorageUpload bucket (upload_path env file w) file) = Resolves t r ->
  error r = None ->
  publicUrl env bucket (upload_path env file w) = inr got ->
  js_get got "data" = inr d -> js_get d "publicUrl" = inr u ->
  exists w',
    uploadImage env file bucket w = (Returns u, w') /\
    requests w' = requests w ++ [StorageUpload bucket (upload_path env file w) file] /\
    logged w' = logged w /\
    clock w' = clock w + Z.max 0 t.
Proof.
  intros Hc Hb He Hp Hd Hu. facade. rewrite Hc.
  cbn [negb real_client storage_upload storage_getPublicUrl].
  rewrite call_cases. fold (upload_path env file w). rewrite Hb. simpl.
  rewrite He. simpl. fold (upload_path env file w). rewrite Hp. simpl.
  rewrite Hd. simpl. rewrite Hu. eexists. split; [reflexivity|].
  autorewrite with views. auto.
Qed.

Lemma uploadImage_returns_the_url_of_what_it_stored_witness :
  fst (uploadImage (online (replies 40 (success JNull))) scan "medical-images"
         initial_world)
    = Returns (JStr "https://cdn.test/medical-images/0-k3x9q.png").
Proof.
  destruct (uploadImage_returns_the_url_of_what_it_stored
              (online (replies 40 (success JNull))) scan "medical-images"
              initial_world 40 (success JNull)
              (JObj [("data",
                      JObj [("publicUrl",
                             JStr "https://cdn.test/medical-images/0-k3x9q.png")])])
              (JObj [("publicUrl", JStr "https://cdn.test/medical-images/0-k3x9q.png")])
              (JStr "https://cdn.test/medical-images/0-k3x9q.png"))
    as (w' & Hrun & _);
    [reflexivity | reflexivity | reflexivity | reflexivity | reflexivity
    | reflexivity |].
  rewrite Hrun. reflexivity.
Defined.

(** *** The session handlers of the hook *)

Lemma try_catch_no_throw {A} (m : async A) (handler : exn -> async A) w :
  (forall e w', exists a w'', handler e w' = (Returns a, w'')) ->
  forall e, fst (try_catch m handler w) <> Throws e.
Proof.
  intros Hh e. unfold try_catch. destruct (m w) as [[a|e'|] w']; cbn [fst];
    try discriminate.
  destruct (Hh e' w') as (a & w'' & ->). discriminate.
Qed.

Lemma try_finally_loading {A} (m : async A) w :
  (forall e, fst (m w) <> Throws e) ->
  let run := try_finally m (emit (SetLoading false)) w in
  (exists a, fst run = Returns a /\ state_loading (snd run) = false) \/
  run = (Hangs, snd (m w)).
Proof.
  intros Hm. cbv zeta. unfold try_finally, emit.
  destruct (m w) as [[a|e|] w'] eqn:E; cbn [fst snd] in *.
  - left. exists a. autorewrite with views. auto.
  - destruct (Hm e). reflexivity.
  - right. reflexivity.
Qed.

(** Property X8: neither session handler ever rejects.  The auth-state
    callback and the initial session fetch complete normally, with loading
    set to false, or do not complete at all; an auth-state change without
    a user clears the user and the profile and sends nothing. *)
Theorem session_handlers_never_reject env w :
  (forall session,
     let run := onAuthStateChange env session w in
     fst run = Returns tt /\ state_loading (snd run) = false \/ fst run = Hangs) /\
  (let run := getInitialSession env w in
   fst run = Returns tt /\ state_loading (snd run) = false \/ fst run = Hangs) /\
  (forall session,
     truthy (js_get_opt session "user") = false ->
     exists w',
       onAuthStateChange env session w = (Returns tt, w') /\
       state_user w' = JNull /\ state_profile w' = JNull /\
       state_loading w' = false /\ requests w' = requests w).
Proof.
  split; [|split].
  - intros session. cbv zeta. unfold onAuthStateChange.
    edestruct (try_finally_loading (A := unit)) as [([] & H1 & H2)|H]; [|left; eauto|].
    + apply try_catch_no_throw. intros e w'. do 2 eexists. reflexivity.
    + right. rewrite H. reflexivity.
  - cbv zeta. unfold getInitialSession.
    edestruct (try_finally_loading (A := unit)) as [([] & H1 & H2)|H]; [|left; eauto|].
    + apply try_catch_no_throw. intros e w'. do 2 eexists. reflexivity.
    + right. rewrite H. reflexivity.
  - intros session Hu. unfold onAuthStateChange, try_finally, try_catch.
    rewrite Hu. unfold bind, emit. eexists. split; [reflexivity|].
    autorewrite with views. auto.
Qed.

Lemma session_handlers_never_reject_witness :
  exists w',
    onAuthStateChange (online never_replies) JNull initial_world = (Returns tt, w') /\
    state_user w' = JNull /\ state_loading w' = false.
Proof.
  destruct (session_handlers_never_reject (online never_replies) initial_world)
    as (_ & _ & H).
  destruct (H JNull eq_refl) as (w' & Hrun & Hu & _ & Hl & _).
  exists w'. split; [exact Hrun|]. split; [exact Hu | exact Hl].
Defined.

Lemma ends_weaken {A} d d' (m : async A) :
  ends_within d m -> d <= d' -> ends_within d' m.
Proof. intros H Hd w. destruct (H w). split; [assumption | lia]. Qed.

Lemma ends_ret {A} (a : A) : ends_within 0 (ret a).
Proof. intros w. split; [discriminate | simpl; lia]. Qed.

Lemma ends_throw {A} e : ends_within 0 (throw (A := A) e).
Proof. intros w. split; [discriminate | simpl; lia]. Qed.

Lemma ends_emit e : ends_within 0 (emit e).
Proof. intros w. split; [discriminate | simpl; autorewrite with views; lia]. Qed.

Lemma ends_lift {A} (r : exn + A) : ends_within 0 (lift r).
Proof. destruct r; [apply ends_throw | apply ends_ret]. Qed.

Lemma ends_bind {A B} d1 d2 (m : async A) (k : A -> async B) :
  0 <= d2 -> ends_within d1 m -> (forall a, ends_within d2 (k a)) ->
  ends_within (d1 + d2) (bind m k).
Proof.
  intros Hd Hm Hk w. specialize (Hm w). unfold bind.
  destruct (m w) as [[a|e|] w1]; cbn [fst snd] in *.
  - destruct (Hk a w1). split; [assumption | lia].
  - split; [discriminate | lia].
  - destruct Hm as [[] _]. reflexivity.
Qed.

Lemma ends_try_catch {A} d1 d2 (m : async A) (handler : exn -> async A) :
  0 <= d2 -> ends_within d1 m -> (forall e, ends_within d2 (handler e)) ->
  ends_within (d1 + d2) (try_catch m handler).
Proof.
  intros Hd Hm Hh w. specialize (Hm w). unfold try_catch.
  destruct (m w) as [[a|e|] w1]; cbn [fst snd] in *.
  - split; [discriminate | lia].
  - destruct (Hh e w1). split; [assumption | lia].
  - destruct Hm as [[] _]. reflexivity.
Qed.

Lemma ends_try_finally {A} d (m : async A) e :
  ends_within d m -> ends_within d (try_finally m (emit e)).
Proof.
  intros Hm w. specialize (Hm w). unfold try_finally, emit.
  destruct (m w) as [[a|e'|] w1]; cbn [fst snd] in *;
    autorewrite with views; (split; [|lia]); try discriminate.
  apply Hm.
Qed.

Lemma ends_race {A} (m : async A) ms msg : ends_within ms (race m ms msg).
Proof.
  intros w. unfold race.
  destruct (m w) as [[a|e|] w1]; try case_bool_decide; cbn [fst snd clock];
    (split; [discriminate | lia]).
Qed.

Lemma ends_call env r :
  aborts_requests env -> ends_within FETCH_TIMEOUT (call env r).
Proof.
  intros Ha w. rewrite call_cases. specialize (Ha (length (requests w)) r).
  destruct (backend env _ r) as [t v|t e|]; cbn [settles_within fst snd] in *;
    [| |contradiction]; (split; [discriminate|]); autorewrite with views; lia.
Qed.

Lemma ends_profile_lookup env getProfile uid :
  getProfile = getPatientProfile \/ getProfile = getDoctorProfile ->
  aborts_requests env -> ends_within 10000 (getProfile env uid).
Proof.
  intros Hg Ha.
  assert (H : forall table,
             ends_within 10000
               (if negb (isServiceConfigured env "supabase") then
                  throw (Error "Supabase not configured")
                else
                  bind (db_select_single (supabase env) table "user_id" uid)
                       data_or_throw)).
  { intros table. unfold supabase. destruct (isServiceConfigured env "supabase");
      cbn [negb].
    - apply (ends_weaken (10000 + 0)); [|lia].
      apply ends_bind; [lia| |].
      + cbn [real_client db_select_single]. apply (ends_call env _ Ha).
      + intros r. unfold data_or_throw.
        destruct (error r); [apply ends_throw | apply ends_ret].
    - apply (ends_weaken 0); [apply ends_throw | lia]. }
  destruct Hg as [-> | ->]; apply H.
Qed.

Lemma ends_loadUserProfile env user :
  aborts_requests env -> ends_within 10000 (loadUserProfile env user).
Proof.
  intros Ha. unfold loadUserProfile.
  apply (ends_weaken (10000 + 0)); [|lia].
  apply ends_try_catch; [lia| |].
  - apply (ends_weaken (0 + 10000)); [|lia].
    apply ends_bind; [lia | apply ends_lift |]. intros metadata.
    apply (ends_weaken (10000 + 0)); [|lia].
    apply ends_bind; [lia| |].
    + apply (ends_weaken (10000 + 0)); [|lia].
      apply ends_try_catch; [lia| |].
      * apply (ends_weaken (0 + 10000)); [|lia].
        apply ends_bind; [lia | apply ends_lift |]. intros uid.
        destruct (js_is_str _ _); apply ends_profile_lookup; auto.
      * intros _. apply (ends_weaken (0 + 0)); [|lia].
        apply ends_bind; [lia | apply ends_emit | intros _; apply ends_ret].
    + intros userProfile. apply (ends_weaken (0 + 0)); [|lia].
      apply ends_bind; [lia | apply ends_emit | intros _; apply ends_emit].
  - intros e. apply (ends_weaken (0 + 0)); [|lia].
    apply ends_bind; [lia | apply ends_emit | intros _; apply ends_emit].
Qed.

Lemma ends_onAuthStateChange env session :
  aborts_requests env -> ends_within 10000 (onAuthStateChange env session).
Proof.
  intros Ha. unfold onAuthStateChange. apply ends_try_finally.
  apply (ends_weaken (10000 + 0)); [|lia].
  apply ends_try_catch; [lia| |].
  - destruct (truthy _); [apply ends_loadUserProfile, Ha|].
    apply (ends_weaken (0 + 0)); [|lia].
    apply ends_bind; [lia | apply ends_emit | intros _; apply ends_emit].
  - intros e. apply ends_emit.
Qed.

Lemma ends_getInitialSession env :
  aborts_requests env -> ends_within 18000 (getInitialSession env).
Proof.
  intros Ha. unfold getInitialSession. apply ends_try_finally.
  apply (ends_weaken (18000 + 0)); [|lia].
  apply ends_try_catch; [lia| |].
  - apply (ends_weaken (8000 + 10000)); [|lia].
    apply ends_bind; [lia | apply ends_race |]. intros r.
    apply (ends_weaken (0 + 10000)); [|lia].
    apply ends_bind; [lia | apply ends_lift |]. intros session.
    destruct (truthy _); [|apply (ends_weaken 0); [apply ends_ret | lia]].
    apply (ends_weaken (10000 + 0)); [|lia].
    apply ends_try_catch; [lia | apply ends_loadUserProfile, Ha |].
    intros e. apply (ends_weaken (0 + 0)); [|lia].
    apply ends_bind; [lia | apply ends_emit | intros _; apply ends_emit].
  - intros e. apply ends_emit.
Qed.

(** A handler that neither rejects nor stays pending returns, with loading
    set to false. *)
Lemma handler_returns {A} d (m : async A) w :
  (forall e, fst (m w) <> Throws e) ->
  ends_within d (try_finally m (emit (SetLoading false))) ->
  exists a w',
    try_finally m (emit (SetLoading false)) w = (Returns a, w') /\
    state_loading w' = false /\ clock w' <= clock w + d.
Proof.
  intros Hm He. destruct (He w) as [Hh Hc].
  destruct (try_finally_loading m w Hm) as [(a & H1 & H2)|H].
  - exists a, (snd (try_finally m (emit (SetLoading false)) w)).
    split; [|split; assumption].
    destruct (try_finally m (emit (SetLoading false)) w); cbn [fst] in H1.
    rewrite H1. reflexivity.
  - rewrite H in Hh. destruct Hh. reflexivity.
Qed.



(** *** The flags of the hook *)

(** Property X10: once [loadUserProfile] has completed, [isAuthenticated]
    is true and [isPatient] and [isDoctor] tell whether the stored user
    type is 'patient' or 'doctor'; a user of any other type has had the
    profile looked up in [doctors] and is neither.  After the hook's
    [signOut] all three are false. *)
Theorem flags_follow_the_stored_user_type env fs w :
  (forall w',
     loadUserProfile env (JObj fs) w = (Returns tt, w') ->
     isAuthenticated w' = true /\
     isPatient w' = js_is_str (user_type_of fs) "patient" /\
     isDoctor w' = js_is_str (user_type_of fs) "doctor") /\
  (forall w' tag,
     loadUserProfile env (JObj fs) w = (Returns tt, w') ->
     isServiceConfigured env "supabase" = true ->
     user_type_of fs = JStr tag -> tag <> "patient" -> tag <> "doctor" ->
     isPatient w' = false /\ isDoctor w' = false /\
     requests w' = requests w ++ [DbSelectSingle "doctors" "user_id" (obj_get fs "id")]) /\
  (forall inner,
     let w' := snd (hook_signOut inner w) in
     isAuthenticated w' = false /\ isPatient w' = false /\ isDoctor w' = false).
Proof.
  assert (Hflags : forall w',
     loadUserProfile env (JObj fs) w = (Returns tt, w') ->
     isAuthenticated w' = true /\
     isPatient w' = js_is_str (user_type_of fs) "patient" /\
     isDoctor w' = js_is_str (user_type_of fs) "doctor").
  { intros w' Hrun. rewrite loadUserProfile_cases in Hrun.
    unfold isAuthenticated, isPatient, isDoctor.
    destruct (profile_lookup env fs w) as [[p|e|] w1]; inversion Hrun; subst;
      autorewrite with views; unfold enhanced; cbn [truthy js_get_opt];
      rewrite obj_get_set; auto. }
  split; [exact Hflags|]. split.
  - intros w' tag Hrun Hc Htag Hp Hd.
    destruct (Hflags w' Hrun) as (_ & -> & ->). rewrite Htag. cbn [js_is_str].
    destruct (String.eqb_spec tag "patient"); [contradiction|].
    destruct (String.eqb_spec tag "doctor"); [contradiction|].
    split; [reflexivity|]. split; [reflexivity|].
    rewrite loadUserProfile_cases in Hrun. unfold profile_lookup in Hrun.
    rewrite Htag in Hrun. cbn [js_is_str] in Hrun.
    destruct (String.eqb_spec tag "patient"); [contradiction|].
    unfold getDoctorProfile, bind, supabase, data_or_throw in Hrun.
    rewrite Hc in Hrun. cbn [negb real_client db_select_single] in Hrun.
    rewrite call_cases in Hrun. cbv zeta in Hrun.
    destruct (backend env _ _) as [t r|t e|]; [destruct (error r)| |];
      inversion Hrun; subst; autorewrite with views; reflexivity.
  - intros inner. cbv zeta. rewrite hook_signOut_cases.
    unfold isAuthenticated, isPatient, isDoctor.
    destruct (race inner _ _ _) as [[v|e|] w1] eqn:E.
    + cbn [snd]. autorewrite with views. auto.
    + cbn [snd]. autorewrite with views. auto.
    + pose proof (race_settles inner 8000 "Sign out timeout"
                    (with_effect w (SetLoading true))) as Hs.
      rewrite E in Hs. destruct Hs. reflexivity.
Qed.

Lemma flags_follow_the_stored_user_type_witness :
  let w' := snd (loadUserProfile (online (replies 120 (failure row_rejected)))
                   (JObj new_user) initial_world) in
  isAuthenticated w' = true /\ isPatient w' = true /\ isDoctor w' = false.
Proof.
  destruct (flags_follow_the_stored_user_type
              (online (replies 120 (failure row_rejected))) new_user initial_world)
    as (H & _).
  apply H. reflexivity.
Defined.

(** *** aiService *)

Lemma call_function_cases fetch fn body failed label w :
  call_function fetch fn body failed label w =
    let sent := with_effect w (Network (FunctionPost fn body)) in
    match fetch (length (requests w)) (FunctionPost fn body) with
    | Resolves t response =>
        if ok response then
          match json response with
          | Resolves t2 v => (Returns v, wait t2 (wait t sent))
          | Rejects t2 e =>
              (Throws e,
               with_effect (wait t2 (wait t sent)) (Console LError [AStr label; AExn e]))
          | Never => (Hangs, wait t sent)
          end
        else
          (Throws (Error failed),
           with_effect (wait t sent) (Console LError [AStr label; AExn (Error failed)]))
    | Rejects t e =>
        (Throws e, with_effect (wait t sent) (Console LError [AStr label; AExn e]))
    | Never => (Hangs, sent)
    end.
Proof.
  unfold call_function, post, try_catch, bind, emit, await, console, throw, ret.
  cbv zeta. destruct (fetch _ _) as [t response|t e|]; try reflexivity.
  destruct (ok response); cbn [negb]; [|reflexivity].
  destruct (json response); reflexivity.
Qed.

Lemma call_function_relays fetch fn body failed label w :
  relays fetch (call_function fetch fn body failed label w) w
         (FunctionPost fn body) failed label.
Proof.
  unfold relays. rewrite call_function_cases. cbv zeta.
  destruct (fetch _ _) as [t response|t e|] eqn:Hf;
    [destruct (ok response) eqn:Hok;
     [destruct (json response) as [t2 v|t2 e|] eqn:Hj|]| |].
  all: cbn [fst snd]; autorewrite with views; (split; [reflexivity|]);
    (split; [|split; [|split; [|split; [|split; [|split]]]]]).
  all: try (intros; discriminate).
  all: try (intros; congruence).
  all: try (intros He; exfalso; eapply He; reflexivity).
  all: try (intros v' Hv; inversion Hv; subst; do 3 eexists;
            split; [reflexivity|split; eassumption]).
  all: try (intros ? ? ? ? H1 ? H2; inversion H1; subst; congruence).
  all: try (intros ? ? H1 H2; inversion H1; subst; congruence).
Qed.



(** *** KeepAliveService *)

Lemma keepAlive_step_held ev k :
  intervals k = held k -> intervals (keepAlive_step ev k) = held (keepAlive_step ev k).
Proof.
  unfold held. intros H. destruct ev as [| |id]; cbn [keepAlive_step].
  - unfold start. destruct (intervalId k) eqn:E; cbn [intervalId intervals].
    + rewrite E. exact H.
    + rewrite H. reflexivity.
  - unfold stop. destruct (intervalId k) as [id|] eqn:E; cbn [intervalId intervals].
    + rewrite H. apply filter_one_drop. intros Hn. apply Hn. reflexivity.
    + rewrite E. exact H.
  - unfold interval_fires. case_bool_decide; cbn [intervalId intervals]; exact H.
Qed.

Lemma keepAlive_run_held evs : forall k,
  intervals k = held k -> intervals (keepAlive_run evs k) = held (keepAlive_run evs k).
Proof.
  induction evs as [|ev evs IH]; intros k H; [exact H|].
  apply IH, keepAlive_step_held, H.
Qed.

Lemma idle_ignores_intervals ids : forall k,
  intervals k = [] -> keepAlive_run (map IntervalFires ids) k = k.
Proof.
  induction ids as [|id ids IH]; intros k H; [reflexivity|].
  cbn [map keepAlive_run fold_left keepAlive_step]. unfold interval_fires.
  rewrite H, bool_decide_eq_false_2 by apply not_elem_of_nil.
  apply IH, H.
Qed.

(** Property X12: however [start], [stop] and the runtime's interval
    callbacks interleave, the keep-alive service has one interval
    registered while it is started and none otherwise; a second [start]
    and a second [stop] do nothing; after [stop] no callback pings any
    more, and before it each callback of the interval held pings once. *)
Theorem keepAlive_holds_at_most_one_interval evs :
  let k := keepAlive_run evs keepAliveService in
  intervals k = held k /\
  (length (intervals k) <= 1)%nat /\
  start (start k) = start k /\
  stop (stop k) = stop k /\
  intervals (stop k) = [] /\
  (forall ids,
     pings (keepAlive_run (map IntervalFires ids) (stop k)) = pings k) /\
  (forall id,
     intervalId k = Some id -> pings (interval_fires id k) = S (pings k)).
Proof.
  cbv zeta.
  pose proof (keepAlive_run_held evs keepAliveService eq_refl) as H.
  pose proof (keepAlive_step_held Stop _ H) as Hs. cbn [keepAlive_step] in Hs.
  assert (Hidle : intervals (stop (keepAlive_run evs keepAliveService)) = []).
  { rewrite Hs. unfold held, stop.
    destruct (intervalId (keepAlive_run evs keepAliveService)) eqn:E;
      cbn [intervalId]; [reflexivity | rewrite E; reflexivity]. }
  split; [exact H|]. split; [|split; [|split; [|split; [exact Hidle|split]]]].
  - rewrite H. unfold held. destruct (intervalId _); cbn [length]; lia.
  - destruct (keepAlive_run evs keepAliveService) as [[id|] ivs p out n]; reflexivity.
  - destruct (keepAlive_run evs keepAliveService) as [[id|] ivs p out n]; reflexivity.
  - intros ids. rewrite idle_ignores_intervals by exact Hidle.
    destruct (keepAlive_run evs keepAliveService) as [[id|] ivs p out n]; reflexivity.
  - intros id E. unfold interval_fires. rewrite H. unfold held. rewrite E.
    rewrite bool_decide_eq_true_2 by apply list_elem_of_singleton, eq_refl.
    reflexivity.
Qed.

Lemma keepAlive_holds_at_most_one_interval_witness :
  pings (interval_fires 1 (keepAlive_run [Start; Start] keepAliveService)) = 2%nat.
Proof.
  destruct (keepAlive_holds_at_most_one_interval [Start; Start])
    as (_ & _ & _ & _ & _ & _ & H).
  rewrite (H 1%nat eq_refl). reflexivity.
Defined.

(** Property X13: [ping] never rejects.  With the configuration absent it
    logs that it skipped and does not start the query.  With it present it
    takes whatever the query resolves with in five seconds for a success,
    an error response included; it logs the message of a rejection, and
    "Ping timeout" when the query has not settled five seconds after it
    started. *)
Theorem ping_never_rejects env query w :
  (exists w', ping env query w = (Returns tt, w')) /\
  (isServiceConfigured env "supabase" = false ->
   ping env query w
     = (Returns tt,
        with_effect w
          (Console LLog [AStr "KeepAlive ping skipped - Supabase not configured"]))) /\
  (forall r w1,
     isServiceConfigured env "supabase" = true ->
     query w = (Returns r, w1) -> clock w1 <= clock w + 5000 ->
     ping env query w
       = (Returns tt, with_effect w1 (Console LLog [AStr "KeepAlive ping successful"]))) /\
  (forall e w1,
     isServiceConfigured env "supabase" = true ->
     query w = (Throws e, w1) -> clock w1 <= clock w + 5000 ->
     ping env query w = (Returns tt, with_effect w1 (ping_failed (exn_message e)))) /\
  (isServiceConfigured env "supabase" = true ->
   fst (query w) = Hangs \/ clock w + 5000 < clock (snd (query w)) ->
   exists w',
     ping env query w = (Returns tt, w') /\ clock w' = clock w + 5000 /\
     exists before, logged w' = before ++ [(LWarn,
       [AStr "KeepAlive ping failed (this is normal if Supabase is not configured):";
        AStr "Ping timeout"])]).
Proof.
  unfold ping, ping_failed.
  split; [|split; [|split; [|split]]].
  - unfold try_catch, bind, console, emit, throw, ret.
    destruct (isServiceConfigured env "supabase"); cbn [negb]; [|eauto].
    destruct (race query 5000 "Ping timeout" w) as [[r|e|] w1] eqn:E; eauto.
    pose proof (race_settles query 5000 "Ping timeout" w) as Hs.
    rewrite E in Hs. destruct Hs. reflexivity.
  - intros Hc. rewrite Hc. reflexivity.
  - intros r w1 Hc Hq Hle. rewrite Hc. cbn [negb].
    unfold try_catch, bind, console, emit, throw, ret.
    rewrite (race_wins query 5000 "Ping timeout" w (Returns r) w1) by (done || lia).
    reflexivity.
  - intros e w1 Hc Hq Hle. rewrite Hc. cbn [negb].
    unfold try_catch, bind, console, emit, throw, ret.
    rewrite (race_wins query 5000 "Ping timeout" w (Throws e) w1) by (done || lia).
    reflexivity.
  - intros Hc Hlate. rewrite Hc. cbn [negb].
    unfold try_catch, bind, console, emit, throw, ret.
    pose proof (race_loses query 5000 "Ping timeout" w Hlate) as Hr.
    assert (Hclock : clock (snd (race query 5000 "Ping timeout" w)) = clock w + 5000).
    { unfold race. destruct (query w) as [[a|e|] w1]; cbn [fst snd] in *;
        try reflexivity; destruct Hlate as [H|H]; try discriminate;
        rewrite bool_decide_eq_false_2 by lia; reflexivity. }
    destruct (race query 5000 "Ping timeout" w) as [[r|e|] w1];
      cbn [fst snd] in *; try discriminate.
    inversion Hr; subst. eexists. split; [reflexivity|].
    autorewrite with views. split; [exact Hclock|]. eexists. reflexivity.
Qed.

Lemma ping_never_rejects_witness :
  ping (online never_replies) (resolved (JArr []) (Some row_rejected)) initial_world
    = (Returns tt,
       with_effect initial_world (Console LLog [AStr "KeepAlive ping successful"])).
Proof.
  destruct (ping_never_rejects (online never_replies)
              (resolved (JArr []) (Some row_rejected)) initial_world)
    as (_ & _ & H & _).
  eapply H; [reflexivity | reflexivity | simpl; lia].
Defined.

(** *** ImageOptimizer *)

Lemma prefix_append p : forall s x,
  String.prefix p s = true -> String.prefix p (s +:+ x) = true.
Proof.
  induction p as [|a p IH]; intros s x H.
  { destruct (s +:+ x); reflexivity. }
  destruct s as [|b s]; [discriminate H|].
  rewrite append_cons. cbn [String.prefix] in *.
  destruct (ascii_dec a b); [apply IH; exact H | discriminate H].
Qed.

Lemma includes_append_l sub x : forall s,
  includes s sub = true -> includes (s +:+ x) sub = true.
Proof.
  induction s as [|c s IH]; intros H.
  - cbn [includes] in H. rewrite orb_false_r in H.
    destruct sub; [|discriminate H]. destruct x; reflexivity.
  - rewrite append_cons. cbn [includes] in *.
    apply orb_true_iff in H as [H|H]; apply orb_true_iff.
    + left. apply (prefix_append sub (String c s) x H).
    + right. apply IH, H.
Qed.

Lemma includes_append_r sub x : forall s,
  includes x sub = true -> includes (s +:+ x) sub = true.
Proof.
  induction s as [|c s IH]; intros H; [exact H|].
  rewrite append_cons. cbn [includes]. rewrite (IH H). apply orb_true_r.
Qed.

Lemma before_first_append c x : forall s,
  has_char c s = false -> before_first c (s +:+ String c x) = s.
Proof.
  induction s as [|c' s IH]; intros H.
  - change (EmptyString +:+ String c x) with (String c x).
    cbn [before_first]. rewrite Ascii.eqb_refl. reflexivity.
  - rewrite append_cons. cbn [before_first has_char] in *.
    apply orb_false_iff in H as [H1 H2]. rewrite H1, IH by exact H2. reflexivity.
Qed.

Lemma before_first_plain c : forall s,
  has_char c s = false -> before_first c s = s.
Proof.
  induction s as [|c' s IH]; intros H; [reflexivity|].
  cbn [before_first has_char] in *.
  apply orb_false_iff in H as [H1 H2]. rewrite H1, IH by exact H2. reflexivity.
Qed.



(** *** What sends a query *)

Lemma issued_fire_all ready : forall s,
  issued (fold_left (fun s t => fire t s) ready s) = issued s ++ map queryFn ready.
Proof.
  induction ready as [|t ready IH]; intros s; cbn [fold_left map].
  - symmetry. apply app_nil_r.
  - rewrite IH. destruct s. cbn. rewrite <- app_assoc. reflexivity.
Qed.

Lemma issued_complete id r s : issued (complete id r s) = issued s.
Proof.
  unfold complete. destruct (List.find _ (in_flight s)) as [f|]; [|reflexivity].
  unfold resume, with_flights, settle, with_promises, with_debounce.
  destruct s as [now cache dm tms fl pr aw iss out nx]. cbn.
  destruct (aw !! flight_promise f) as [[outer ck]|]; [|reflexivity].
  destruct r; reflexivity.
Qed.

Lemma issued_step env ev s :
  issued (step env ev s)
    = match ev with
      | Elapse ms => issued s ++ map queryFn (due_after ms s)
      | _ => issued s
      end.
Proof.
  destruct ev as [key q delay| |ms|id r|id e]; cbn [step].
  - rewrite debounceQuery_fields. reflexivity.
  - destruct (isServiceConfigured env "supabase") eqn:Hc.
    + destruct (truthy (getCachedData doctors_cache_key s)) eqn:Hhit.
      * rewrite getVerifiedDoctors_hit_fields by assumption. reflexivity.
      * rewrite getVerifiedDoctors_miss_fields by assumption. reflexivity.
    + rewrite getVerifiedDoctors_unconfigured_fields by assumption. reflexivity.
  - unfold fire_due, due_after. rewrite issued_fire_all. destruct s. reflexivity.
  - apply issued_complete.
  - apply issued_complete.
Qed.

(** Property X15: queries go out when timers fire and at no other time.
    A call sends nothing itself, a reply or a failure triggers no new
    query, and time passing sends the queries of the timers that have
    become due, in the order they fire; what has been sent stays sent. *)
Theorem queries_are_sent_by_timers_only env :
  (forall ev s,
     issued (step env ev s)
       = match ev with
         | Elapse ms => issued s ++ map queryFn (due_after ms s)
         | _ => issued s
         end) /\
  (forall evs s, exists sent, issued (run env evs s) = issued s ++ sent).
Proof.
  split; [apply issued_step|].
  induction evs as [|ev evs IH]; intros s.
  - exists []. rewrite run_nil, app_nil_r. reflexivity.
  - rewrite run_cons. destruct (IH (step env ev s)) as (sent & ->).
    rewrite issued_step. destruct ev; eauto.
    eexists. rewrite <- app_assoc. reflexivity.
Qed.

(** *** The cache *)

(** Property X16: what [setCachedData] stores under a key is what
    [getCachedData] returns for that key until five minutes have passed,
    and null from then on; other keys are not touched; a later value
    replaces an earlier one. *)
Theorem cache_round_trip key d s :
  getCachedData key (setCachedData key d s) = d /\
  (forall g, 0 <= g < CACHE_DURATION ->
     getCachedData key (advance g (setCachedData key d s)) = d) /\
  (forall g, CACHE_DURATION <= g ->
     getCachedData key (advance g (setCachedData key d s)) = JNull) /\
  (forall key', key' <> key ->
     getCachedData key' (setCachedData key d s) = getCachedData key' s) /\
  (forall d', getCachedData key (setCachedData key d' (setCachedData key d s)) = d').
Proof.
  unfold getCachedData, setCachedData, advance, with_cache, CACHE_DURATION.
  destruct s as [now cache dm tms fl pr aw iss out nx]. cbn.
  split; [|split; [|split; [|split]]].
  - rewrite lookup_insert_eq. cbn. rewrite bool_decide_eq_true_2 by lia. reflexivity.
  - intros g Hg. rewrite lookup_insert_eq. cbn.
    rewrite bool_decide_eq_true_2 by lia. reflexivity.
  - intros g Hg. rewrite lookup_insert_eq. cbn.
    rewrite bool_decide_eq_false_2 by lia. reflexivity.
  - intros key' Hne. rewrite lookup_insert_ne by congruence. reflexivity.
  - intros d'. rewrite lookup_insert_eq. cbn.
    rewrite bool_decide_eq_true_2 by lia. reflexivity.
Qed.

Lemma cache_round_trip_witness :
  getCachedData "doctors_{}" (advance 299999 (setCachedData "doctors_{}" two_doctors (boot 0)))
    = two_doctors.
Proof.
  destruct (cache_round_trip "doctors_{}" two_doctors (boot 0)) as (_ & H & _).
  apply H. unfold CACHE_DURATION. lia.
Defined.

Section Served.
Variable env : environment.
Hypothesis configured : isServiceConfigured env "supabase" = true.

(** After a round whose reply failed or carried a falsy payload, the
    cache has nothing to serve. *)
Lemma nothing_to_serve s d r g :
  quiescent s ->
  truthy (getCachedData doctors_cache_key s) = false ->
  300 <= d -> 0 <= g ->
  error r <> None \/ truthy (data r) = false ->
  let s2 := step env (Elapse d) (step env CallGetVerifiedDoctors s) in
  exists f,
    in_flight s2 = [f] /\ issued s2 = issued s ++ [verified_doctors_query] /\
    let s3 := step env (Reply (flight_id f) r) s2 in
    issued s3 = issued s2 /\
    promises s3 !! handed s = Some (Fulfilled (doctors_or_empty (unwrap r))) /\
    quiescent (advance g s3) /\
    truthy (getCachedData doctors_cache_key (advance g s3)) = false.
Proof.
  intros Hq Hstale Hd Hg Hr. cbv zeta.
  destruct (getVerifiedDoctors_round env s d configured Hq Hstale Hd)
    as (f & Hf & Ht & Hi & Hdone).
  exists f. split; [exact Hf|]. split; [exact Hi|]. rewrite step_reply.
  destruct (Hdone (unwrap r)) as (Hp & Hc3 & _ & Hi3 & Hn3 & Hq3).
  cbv zeta in Hp, Hc3, Hi3, Hn3, Hq3.
  split; [exact Hi3|]. split; [exact Hp|]. split; [exact Hq3|].
  unfold getCachedData. rewrite queryCache_advance, now_advance, Hc3, Hn3.
  unfold unwrap in *. destruct (error r) as [e|] eqn:He.
  - apply (stale_stays doctors_cache_key s
             (advance (d + Z.max 0 g) s)) in Hstale;
      [| reflexivity | rewrite now_advance; lia].
    unfold getCachedData in Hstale.
    rewrite queryCache_advance, now_advance in Hstale.
    rewrite (Z.max_r 0 (d + Z.max 0 g)) in Hstale by lia.
    rewrite Z.add_assoc in Hstale. exact Hstale.
  - destruct Hr as [Hr|Hr]; [congruence|].
    rewrite lookup_insert_eq. cbn [timestamp entry_data].
    case_bool_decide; [exact Hr | reflexivity].
Qed.
End Served.

(** Property X17: a reply that fails, or whose payload is falsy (null,
    for one), leaves the cache with nothing to serve: the caller gets the
    empty list or that payload, and the next [getVerifiedDoctors] call,
    however soon it comes, sends the query again. *)
Theorem only_truthy_results_are_served_from_the_cache env s0 d r :
  isServiceConfigured env "supabase" = true ->
  quiescent s0 ->
  truthy (getCachedData doctors_cache_key s0) = false ->
  300 <= d ->
  error r <> None \/ truthy (data r) = false ->
  exists f,
    in_flight (run env [CallGetVerifiedDoctors; Elapse d] s0) = [f] /\
    let s1 := run env [CallGetVerifiedDoctors; Elapse d; Reply (flight_id f) r] s0 in
    promises s1 !! handed s0 = Some (Fulfilled (doctors_or_empty (unwrap r))) /\
    issued s1 = issued s0 ++ [verified_doctors_query] /\
    forall g d',
      0 <= g -> 300 <= d' ->
      issued (run env [Elapse g; CallGetVerifiedDoctors; Elapse d'] s1)
        = issued s0 ++ [verified_doctors_query; verified_doctors_query].
Proof.
  intros Hc Hq Hstale Hd Hr.
  destruct (nothing_to_serve env Hc s0 d r 0 Hq Hstale Hd (Z.le_refl 0) Hr)
    as (f & Hf & Hi & _).
  exists f. rewrite !run_cons, run_nil. split; [exact Hf|]. cbv zeta.
  rewrite ?run_cons, ?run_nil. split; [|split].
  - destruct (nothing_to_serve env Hc s0 d r 0 Hq Hstale Hd (Z.le_refl 0) Hr)
      as (f' & Hf' & _ & _ & Hp & _).
    cbv zeta in Hf'. rewrite Hf in Hf'. inversion Hf'; subst f'. exact Hp.
  - destruct (nothing_to_serve env Hc s0 d r 0 Hq Hstale Hd (Z.le_refl 0) Hr)
      as (f' & Hf' & _ & Hi3 & _).
    cbv zeta in Hf'. rewrite Hf in Hf'. inversion Hf'; subst f'.
    rewrite Hi3. exact Hi.
  - intros g d' Hg Hd'.
    destruct (nothing_to_serve env Hc s0 d r g Hq Hstale Hd Hg Hr)
      as (f' & Hf' & _ & Hi3 & _ & Hq3 & Hstale3).
    cbv zeta in Hf'. rewrite Hf in Hf'. inversion Hf'; subst f'.
    rewrite !run_cons, run_nil.
    set (s1 := step env (Reply (flight_id f) r) _) in *.
    destruct Hq3 as (Ht3 & Hf3 & Hu3).
    rewrite (elapse_no_timer env g s1 Ht3).
    destruct (getVerifiedDoctors_round env (advance g s1) d' Hc)
      as (f2 & _ & _ & Hi2 & _); [repeat split; assumption | exact Hstale3 | exact Hd' |].
    rewrite Hi2. change (issued (advance g s1)) with (issued s1).
    rewrite Hi3, Hi, <- app_assoc. reflexivity.
Qed.

Lemma only_truthy_results_are_served_from_the_cache_witness :
  exists f,
    in_flight (run (online never_replies) [CallGetVerifiedDoctors; Elapse 300] (boot 0))
      = [f] /\
    issued (run (online never_replies) [Elapse 0; CallGetVerifiedDoctors; Elapse 300]
              (run (online never_replies)
                 [CallGetVerifiedDoctors; Elapse 300;
                  Reply (flight_id f) (success JNull)] (boot 0)))
      = issued (boot 0) ++ [verified_doctors_query; verified_doctors_query].
Proof.
  destruct (only_truthy_results_are_served_from_the_cache (online never_replies)
              (boot 0) 300 (success JNull) eq_refl (quiescent_boot 0) (stale_boot 0))
    as (f & Hf & _ & _ & H); [lia | right; reflexivity |].
  exists f. split; [exact Hf|].
  exact (H 0 300 (Z.le_refl 0) (Z.le_refl 300)).
Defined.

(** *** Two keys, and a completion between two calls *)

Lemma step_call env key q delay s :
  step env (CallDebounceQuery key q delay) s = snd (debounceQuery key q delay s).
Proof. reflexivity. Qed.

Lemma schedule_after t1 t2 : due t1 <= due t2 -> schedule t2 [t1] = [t1; t2].
Proof. intros H. cbn [schedule]. rewrite bool_decide_eq_true_2 by exact H. reflexivity. Qed.

Lemma filter_two_keep {A} (P : A -> Prop) `{forall x, Decision (P x)} (x y : A) :
  P x -> P y -> filter P [x; y] = [x; y].
Proof.
  intros Hx Hy. rewrite filter_cons_True by done.
  rewrite filter_cons_True by done. reflexivity.
Qed.

(** Property X18: debouncing is per key.  A call for another key within
    the delay cancels nothing: both timers stay pending and both queries
    are sent, in the order of the calls. *)
Theorem debounce_is_per_key env key1 key2 q1 q2 gap d s0 :
  quiescent s0 ->
  key1 <> key2 ->
  debounceMap s0 !! key2 = None ->
  0 <= gap < 300 -> 300 <= d ->
  let s := run env [CallDebounceQuery key1 q1 300; Elapse gap;
                    CallDebounceQuery key2 q2 300] s0 in
  map timer_key (timers s) = [key1; key2] /\
  issued s = issued s0 /\
  issued (step env (Elapse d) s) = issued s0 ++ [q1; q2].
Proof.
  intros (Ht & Hf & Hu) Hne Hnone Hgap Hd. cbv zeta.
  rewrite !run_cons, run_nil.
  rewrite (issued_step env (Elapse d)), (issued_step env (CallDebounceQuery _ _ _)).
  rewrite (issued_step env (Elapse gap)), (issued_step env (CallDebounceQuery _ _ _)).
  rewrite (step_call env key1), debounceQuery_fields, Ht, no_timer_to_clear.
  cbn [snd schedule].
  erewrite (elapse_early env gap); [|fields; reflexivity|fields; lia].
  unfold due_after at 2. fields. rewrite filter_one_drop by (cbn beta; fields; lia).
  rewrite (step_call env key2), debounceQuery_fields. unfold advance. fields.
  rewrite lookup_insert_ne, Hnone by exact Hne.
  rewrite schedule_after by (fields; lia).
  unfold due_after. fields.
  rewrite filter_two_keep by (cbn beta; fields; lia).
  rewrite ?filter_one_drop by (cbn beta; fields; lia).
  cbn [map timer_key queryFn]. rewrite ?app_nil_r. auto.
Qed.

Lemma debounce_is_per_key_witness :
  issued (step (online never_replies) (Elapse 300)
            (run (online never_replies)
               [CallDebounceQuery "doctors" verified_doctors_query 300; Elapse 100;
                CallDebounceQuery "patients"
                  (DbSelectSingle "patients" "user_id" (JStr "u-42")) 300]
               (boot 0)))
    = issued (boot 0) ++
      [verified_doctors_query; DbSelectSingle "patients" "user_id" (JStr "u-42")].
Proof.
  destruct (debounce_is_per_key (online never_replies) "doctors" "patients"
              verified_doctors_query (DbSelectSingle "patients" "user_id" (JStr "u-42"))
              100 300 (boot 0) (quiescent_boot 0))
    as (_ & _ & H); [discriminate | reflexivity | lia | lia |].
  exact H.
Defined.

Lemma lookup_registered (dm : gmap string nat) key id (ts : list timer) :
  match <[key := id]> dm !! key with
  | Some old => clearTimeout old ts
  | None => ts
  end = clearTimeout id ts.
Proof. rewrite lookup_insert_eq. reflexivity. Qed.

Lemma lookup_unregistered (dm : gmap string nat) key (ts : list timer) :
  match delete key dm !! key with
  | Some old => clearTimeout old ts
  | None => ts
  end = ts.
Proof. rewrite lookup_delete_eq. reflexivity. Qed.

(** Property X19: the completion of an older request for a key removes
    the key from [debounceMap] although the timer of a newer call is
    registered under it.  The call after that cancels nothing, and two
    calls less than the delay apart are both sent. *)
Theorem a_completion_between_two_calls_lets_both_through
    env key q1 q2 q3 d1 gap d r s0 :
  quiescent s0 ->
  300 <= d1 -> 0 <= gap < 300 -> 300 <= d ->
  exists f,
    in_flight (run env [CallDebounceQuery key q1 300; Elapse d1] s0) = [f] /\
    let s := run env [CallDebounceQuery key q1 300; Elapse d1;
                      CallDebounceQuery key q2 300; Reply (flight_id f) r;
                      Elapse gap; CallDebounceQuery key q3 300] s0 in
    map queryFn (timers s) = [q2; q3] /\
    issued s = issued s0 ++ [q1] /\
    issued (step env (Elapse d) s) = issued s0 ++ [q1; q2; q3].
Proof.
  intros (Ht & Hf & Hu) Hd1 Hgap Hd.
  exists {| flight_id := S (S (next_id s0)); flight_key := key;
            flight_promise := next_id s0 |}.
  eassert (Hfired : run env [CallDebounceQuery key q1 300; Elapse d1] s0 = _).
  { rewrite !run_cons, run_nil.
    rewrite (step_call env key q1), debounceQuery_fields, Ht, no_timer_to_clear.
    cbn [snd schedule].
    erewrite (elapse_fires env d1); [|fields; reflexivity|fields; lia].
    fields. rewrite Hf. cbn [app]. reflexivity. }
  split; [rewrite Hfired; reflexivity|]. clear Hfired. cbv zeta. fields.
  eassert (Hs : run env [CallDebounceQuery key q1 300; Elapse d1;
                         CallDebounceQuery key q2 300;
                         Reply (S (S (next_id s0))) r;
                         Elapse gap; CallDebounceQuery key q3 300] s0 = _).
  { rewrite !run_cons, run_nil.
    rewrite (step_call env key q1), debounceQuery_fields, Ht, no_timer_to_clear.
    cbn [snd schedule].
    erewrite (elapse_fires env d1); [|fields; reflexivity|fields; lia].
    fields. rewrite Hf. cbn [app].
    rewrite (step_call env key q2), debounceQuery_fields. fields.
    rewrite lookup_registered. unfold clearTimeout at 1. rewrite filter_nil.
    cbn [snd schedule].
    rewrite step_reply.
    erewrite (complete_fields
                {| flight_id := S (S (next_id s0)); flight_key := key;
                   flight_promise := next_id s0 |}); [|fields; reflexivity].
    fields. rewrite resume_nobody by (fields; apply Hu; lia).
    erewrite (elapse_early env gap); [|fields; reflexivity|fields; lia].
    rewrite (step_call env key q3), debounceQuery_fields. unfold advance. fields.
    rewrite lookup_unregistered.
    rewrite schedule_after by (fields; lia).
    reflexivity. }
  rewrite Hs, (issued_step env (Elapse d)). unfold due_after. fields.
  rewrite filter_two_keep by (cbn beta; fields; lia).
  cbn [map queryFn]. rewrite <- app_assoc. auto.
Qed.

Lemma a_completion_between_two_calls_lets_both_through_witness :
  exists f,
    in_flight (run (online never_replies)
                 [CallDebounceQuery "k" verified_doctors_query 300; Elapse 300] (boot 0))
      = [f] /\
    issued (step (online never_replies) (Elapse 300)
              (run (online never_replies)
                 [CallDebounceQuery "k" verified_doctors_query 300; Elapse 300;
                  CallDebounceQuery "k" verified_doctors_query 300;
                  Reply (flight_id f) (success two_doctors);
                  Elapse 100; CallDebounceQuery "k" verified_doctors_query 300]
                 (boot 0)))
      = issued (boot 0) ++
        [verified_doctors_query; verified_doctors_query; verified_doctors_query].
Proof.
  destruct (a_completion_between_two_calls_lets_both_through (online never_replies)
              "k" verified_doctors_query verified_doctors_query verified_doctors_query
              300 100 300 (success two_doctors) (boot 0) (quiescent_boot 0))
    as (f & Hf & _ & _ & H); [lia | lia | lia |].
  exists f. split; [exact Hf | exact H].
Defined.

(** *** Sign-in through the hook *)

(** What [authService.signIn] leaves behind, whatever the service does. *)
Lemma authService_signIn_keeps_state env email password w :
  let run := authService_signIn env email password w in
  fst run <> Hangs /\
  clock (snd run) <= clock w + 8000 /\
  state_user (snd run) = state_user w /\
  state_profile (snd run) = state_profile w /\
  state_loading (snd run) = state_loading w /\
  (forall v,
     fst run = Returns v ->
     isServiceConfigured env "supabase" = true /\
     exists t r,
       backend env (length (requests w)) (AuthSignInWithPassword email password)
         = Resolves t r /\
       Z.max 0 t <= 8000 /\ error r = None /\ data r = v).
Proof.
  cbv zeta. facade. destruct (isServiceConfigured env "supabase") eqn:Hc; cbn [negb].
  - cbn [real_client auth_signInWithPassword].
    rewrite race_call_cases by lia. cbv zeta.
    destruct (backend env _ _) as [t r|t e|] eqn:Hb;
      try case_bool_decide; try destruct (error r) eqn:He;
      cbn [fst snd]; autorewrite with views;
      (split; [discriminate|split; [lia|split; [reflexivity|split;
         [reflexivity|split; [reflexivity|]]]]]);
      intros v' Hv; try discriminate Hv.
    inversion Hv; subst. split; [reflexivity|]. eauto 6.
  - cbn [fst snd]. autorewrite with views.
    split; [discriminate|split; [lia|split; [reflexivity|split;
      [reflexivity|split; [reflexivity|]]]]].
    intros v Hv. discriminate Hv.
Qed.

(** Property X20: a sign-in through the hook always settles, no later than
    eight seconds after it started, with loading set back to false; it
    never stores the user or the profile itself, which is left to the
    auth-state callback; and it returns only what the service answered
    with, without an error, in time. *)
Theorem signIn_settles_and_stores_nothing env email password w :
  let run := useAuth_signIn env email password w in
  fst run <> Hangs /\
  clock (snd run) <= clock w + 8000 /\
  state_user (snd run) = state_user w /\
  state_profile (snd run) = state_profile w /\
  state_loading (snd run) = false /\
  (forall v,
     fst run = Returns v ->
     isServiceConfigured env "supabase" = true /\
     exists t r,
       backend env (length (requests w)) (AuthSignInWithPassword email password)
         = Resolves t r /\
       Z.max 0 t <= 8000 /\ error r = None /\ data r = v).
Proof.
  cbv zeta. unfold useAuth_signIn. rewrite hook_signIn_cases.
  destruct (authService_signIn_keeps_state env email password
              (with_effect w (SetLoading true)))
    as (Hs & Hclock & Hu & Hp & _ & Hret).
  cbv zeta in Hs, Hclock, Hu, Hp, Hret.
  destruct (authService_signIn env email password (with_effect w (SetLoading true)))
    as [o w1] eqn:E. cbn [fst snd] in *.
  rewrite (race_wins _ 12000 _ _ o w1 E Hs) by lia.
  autorewrite with views in Hclock, Hu, Hp, Hret.
  destruct o as [v|e|]; [| |congruence]; cbn [fst snd]; autorewrite with views;
    (split; [discriminate|split; [lia|split; [assumption|split;
       [assumption|split; [reflexivity|]]]]]);
    intros v' Hv; try discriminate Hv.
  inversion Hv; subst. apply Hret. reflexivity.
Qed.

Lemma signIn_settles_and_stores_nothing_witness :
  exists t r,
    backend (online (replies 120 (success (JObj [("user", JObj new_user)]))))
      (length (requests initial_world))
      (AuthSignInWithPassword "ana@example.org" "pw") = Resolves t r /\
    Z.max 0 t <= 8000 /\ error r = None /\
    data r = JObj [("user", JObj new_user)].
Proof.
  destruct (signIn_settles_and_stores_nothing
              (online (replies 120 (success (JObj [("user", JObj new_user)]))))
              "ana@example.org" "pw" initial_world)
    as (_ & _ & _ & _ & _ & H).
  destruct (H (JObj [("user", JObj new_user)]) eq_refl) as (_ & Hfrom).
  exact Hfrom.
Defined.
